(** * ResumeRapid: the draft store, the text projection, the simulated
      optimisation service and the resume repository

    A shallow embedding of the TypeScript sources of the resume builder:

    - [client/src/lib/localStorage.ts]  (module [LocalStorage]),
    - [client/src/lib/resumeService.ts] (module [ResumeService]),
    - [server/routes.ts]                (module [Routes]),
    - [server/storage.ts]               (module [Storage]),
    - the list forms of the builder     (module [Forms]),
    - [client/src/pages/ResumeBuilder.tsx] (module [Builder]).

    Part I holds the definitions, Part II the theorems. *)

From Stdlib Require Import ZArith String Ascii List Lia Bool.
From stdpp Require Import base option list strings gmap.

(* ================================================================== *)
(** * Part I: the embedding                                            *)
(* ================================================================== *)

(** ** JavaScript values the sources rely on *)

Module JS.

(** The line feed of a template literal. *)
Definition nl : string := String (ascii_of_nat 10) EmptyString.

(** Truthiness of a string: every string but the empty one. *)
Definition truthy (s : string) : bool := negb (String.eqb s "").

(** [a || b] where [a] is an optional string and [b] a string.  An optional
    property ([x?: T]) is [None] when it is missing or [undefined]. *)
Definition or_string (a : option string) (b : string) : string :=
  match a with
  | Some s => if truthy s then s else b
  | None => b
  end.

(** [a || b] where both sides are optional strings. *)
Definition or_string_opt (a b : option string) : option string :=
  match a with
  | Some s => if truthy s then Some s else b
  | None => b
  end.

(** [a || b] where [a] is an optional array or object: arrays and objects
    are truthy, the empty array included. *)
Definition or_object {A : Type} (a : option A) (b : A) : A :=
  match a with
  | Some v => v
  | None => b
  end.

(** [a ?? b]: only [undefined] and [null] give way to [b]. *)
Definition nullish {A : Type} (a : option A) (b : A) : A :=
  match a with
  | Some v => v
  | None => b
  end.

(** The condition [if (x)] on an optional string. *)
Definition truthy_opt (a : option string) : bool :=
  match a with
  | Some s => truthy s
  | None => false
  end.

(** The condition [x ? _ : _] on an optional boolean. *)
Definition truthy_bool (a : option bool) : bool :=
  match a with
  | Some b => b
  | None => false
  end.

(** [Array.prototype.join]. *)
Fixpoint join (sep : string) (l : list string) : string :=
  match l with
  | [] => ""
  | [s] => s
  | s :: rest => s +:+ sep +:+ join sep rest
  end.

(** Exceptions the modelled runtime can raise: [JSON.parse] on a text that
    is not JSON, the browser store when access is refused or the quota is
    exhausted, a conversion or a method call on a value that does not
    support it, and the database driver when the server rejects a query. *)
Inductive exn : Type :=
| SyntaxError
| SecurityError
| QuotaExceededError
| TypeError
| NeonDbError.

(** A computation that returns or throws. *)
Inductive result (A : Type) : Type :=
| Ok (a : A)
| Throw (e : exn).
Arguments Ok {A} a.
Arguments Throw {A} e.

Definition bind {A B : Type} (c : result A) (k : A -> result B) : result B :=
  match c with
  | Ok a => k a
  | Throw e => Throw e
  end.

(** [try { body } catch (error) { handler }]. *)
Definition try_catch {A : Type} (body : result A) (handler : exn -> result A)
  : result A :=
  match body with
  | Ok a => Ok a
  | Throw e => handler e
  end.

End JS.

#[global] Instance result_bind : MBind JS.result :=
  fun A B k c => JS.bind c k.

(** ** shared/schema.ts: the shapes inferred from the zod schemas *)

Module Schema.

(** [PersonalInfo = z.infer<typeof personalInfoSchema>]. *)
Record PersonalInfo : Type := {
  firstName : string;
  lastName : string;
  email : string;
  phone : option string;
  summary : option string;
  website : option string;
  linkedin : option string
}.

(** [EducationItem]. *)
Record EducationItem : Type := {
  edu_id : string;
  school : string;
  degree : string;
  edu_startDate : string;
  edu_endDate : option string;
  edu_description : option string;
  edu_current : option bool
}.

(** [ExperienceItem]. *)
Record ExperienceItem : Type := {
  exp_id : string;
  company : string;
  position : string;
  exp_startDate : string;
  exp_endDate : option string;
  exp_description : option string;
  exp_current : option bool
}.

(** [ProjectItem]. *)
Record ProjectItem : Type := {
  prj_id : string;
  name : string;
  technologies : option string;
  url : option string;
  prj_description : option string
}.

(** [Resume = z.infer<typeof resumeSchema>]. *)
Record Resume : Type := {
  personalInfo : PersonalInfo;
  education : list EducationItem;
  experience : list ExperienceItem;
  skills : list string;
  projects : list ProjectItem;
  templateStyle : option string;
  colorScheme : option string;
  isAtsOptimized : option bool;
  targetRole : option string;
  atsScore : option Z
}.

(** A [PersonalInfo] object as a caller builds it.  Reading a property
    cannot tell a missing property from one that is present and
    [undefined], an object spread can: for an optional property [None] is
    the missing property, [Some None] the property that is present and
    [undefined], [Some (Some s)] the string. *)
Record PersonalInfoObject : Type := {
  o_firstName : string;
  o_lastName : string;
  o_email : string;
  o_phone : option (option string);
  o_summary : option (option string);
  o_website : option (option string);
  o_linkedin : option (option string)
}.

(** [o.x] on a property that may be missing. *)
Definition get_property {A : Type} (x : option (option A)) : option A :=
  match x with
  | Some v => v
  | None => None
  end.

(** What reading the properties of the object gives. *)
Definition read (o : PersonalInfoObject) : PersonalInfo :=
  {| firstName := o_firstName o;
     lastName := o_lastName o;
     email := o_email o;
     phone := get_property (o_phone o);
     summary := get_property (o_summary o);
     website := get_property (o_website o);
     linkedin := get_property (o_linkedin o) |}.

(** [Partial<Resume>]: every property may be missing. *)
Record PartialResume : Type := {
  p_personalInfo : option PersonalInfoObject;
  p_education : option (list EducationItem);
  p_experience : option (list ExperienceItem);
  p_skills : option (list string);
  p_projects : option (list ProjectItem);
  p_templateStyle : option string;
  p_colorScheme : option string;
  p_isAtsOptimized : option bool;
  p_targetRole : option string;
  p_atsScore : option Z
}.

End Schema.

(** ** client/src/lib/localStorage.ts *)

Module LocalStorage.
Import JS Schema.

Definition STORAGE_KEY : string := "resumeBuilder".

(** [interface SavedResumeData]. *)
Record SavedResumeData : Type := {
  s_personalInfo : PersonalInfo;
  s_education : list EducationItem;
  s_experience : list ExperienceItem;
  s_skills : list string;
  s_projects : list ProjectItem;
  s_templateStyle : string;
  s_colorScheme : string;
  s_isAtsOptimized : bool;
  s_targetRole : option string;
  s_lastUpdated : Z
}.

(** The object [JSON.parse] hands back, seen through the keys of
    [SavedResumeData]: a key the text does not carry is [None].  A JSON
    text that is not an object ([null], a number) spreads no key and is
    the document with every key missing. *)
Record Document : Type := {
  d_personalInfo : option PersonalInfo;
  d_education : option (list EducationItem);
  d_experience : option (list ExperienceItem);
  d_skills : option (list string);
  d_projects : option (list ProjectItem);
  d_templateStyle : option string;
  d_colorScheme : option string;
  d_isAtsOptimized : option bool;
  d_targetRole : option string;
  d_lastUpdated : option Z
}.

(** A string held by the browser store, up to what [JSON.parse] makes of
    it: the JSON text of a document, or a string [JSON.parse] rejects. *)
Inductive text : Type :=
| Json (d : Document)
| Malformed (s : string).

(** The browser's [localStorage]: either every access throws (storage
    disabled for the origin) or it is a map from keys to strings. *)
Inductive localStorage : Type :=
| Blocked
| Items (m : gmap string text).

Definition getItem (ls : localStorage) (key : string) : result (option text) :=
  match ls with
  | Blocked => Throw SecurityError
  | Items m => Ok (m !! key)
  end.

(** [setItem]; [fits] is the answer of the browser to the write: whether
    its quota has room for the value.  The quota and the sizes it counts
    are the browser's, so the answer is an input of the call.  A call that
    throws leaves the store as it was. *)
Definition setItem (fits : bool) (ls : localStorage) (key : string)
    (value : text) : result localStorage :=
  match ls with
  | Blocked => Throw SecurityError
  | Items m =>
      if fits then Ok (Items (<[key := value]> m))
      else Throw QuotaExceededError
  end.

Definition removeItem (ls : localStorage) (key : string) : result localStorage :=
  match ls with
  | Blocked => Throw SecurityError
  | Items m => Ok (Items (delete key m))
  end.

(** [!savedData] on a string read from the store: only the empty string
    is falsy. *)
Definition is_empty_text (t : text) : bool :=
  match t with
  | Malformed s => negb (truthy s)
  | Json _ => false
  end.

Definition JSON_parse (t : text) : result Document :=
  match t with
  | Json d => Ok d
  | Malformed _ => Throw SyntaxError
  end.

(** [JSON.stringify] of a [SavedResumeData]: every property is written but
    those whose value is [undefined]. *)
Definition JSON_stringify (v : SavedResumeData) : text :=
  Json {| d_personalInfo := Some (s_personalInfo v);
          d_education := Some (s_education v);
          d_experience := Some (s_experience v);
          d_skills := Some (s_skills v);
          d_projects := Some (s_projects v);
          d_templateStyle := Some (s_templateStyle v);
          d_colorScheme := Some (s_colorScheme v);
          d_isAtsOptimized := Some (s_isAtsOptimized v);
          d_targetRole := s_targetRole v;
          d_lastUpdated := Some (s_lastUpdated v) |}.

(** The constant [defaultData] of [getResumeFromLocalStorage]. *)
Definition defaultData : SavedResumeData :=
  {| s_personalInfo :=
       {| firstName := ""; lastName := ""; email := "";
          phone := Some ""; summary := Some "";
          website := Some ""; linkedin := Some "" |};
     s_education := [];
     s_experience := [];
     s_skills := [];
     s_projects := [];
     s_templateStyle := "professional";
     s_colorScheme := "blue";
     s_isAtsOptimized := true;
     s_targetRole := Some "";
     s_lastUpdated := 0 |}.

(** [{ ...defaultData, ...parsedData }]. *)
Definition spread_over (dflt : SavedResumeData) (parsed : Document)
  : SavedResumeData :=
  {| s_personalInfo := default (s_personalInfo dflt) (d_personalInfo parsed);
     s_education := default (s_education dflt) (d_education parsed);
     s_experience := default (s_experience dflt) (d_experience parsed);
     s_skills := default (s_skills dflt) (d_skills parsed);
     s_projects := default (s_projects dflt) (d_projects parsed);
     s_templateStyle := default (s_templateStyle dflt) (d_templateStyle parsed);
     s_colorScheme := default (s_colorScheme dflt) (d_colorScheme parsed);
     s_isAtsOptimized :=
       default (s_isAtsOptimized dflt) (d_isAtsOptimized parsed);
     s_targetRole :=
       match d_targetRole parsed with
       | Some r => Some r
       | None => s_targetRole dflt
       end;
     s_lastUpdated := default (s_lastUpdated dflt) (d_lastUpdated parsed) |}.

(** [getResumeFromLocalStorage]; the [console.error] of the handler has no
    effect on the value. *)
Definition getResumeFromLocalStorage (ls : localStorage)
  : result SavedResumeData :=
  try_catch
    (savedData ← getItem ls STORAGE_KEY;
     match savedData with
     | None => Ok defaultData
     | Some t =>
         if is_empty_text t then Ok defaultData
         else
           parsedData ← JSON_parse t;
           Ok (spread_over defaultData parsedData)
     end)
    (fun error => Ok defaultData).

(** [{ ...currentData.personalInfo, ...(data.personalInfo || {}) }]: every
    own property of the second object overwrites, also when its value is
    [undefined] (which [JSON.stringify] then leaves out of the text). *)
Definition spread_personalInfo (cur : PersonalInfo)
    (upd : option PersonalInfoObject) : PersonalInfo :=
  match upd with
  | None => cur
  | Some p =>
      {| firstName := o_firstName p;
         lastName := o_lastName p;
         email := o_email p;
         phone := match o_phone p with Some v => v | None => phone cur end;
         summary :=
           match o_summary p with Some v => v | None => summary cur end;
         website :=
           match o_website p with Some v => v | None => website cur end;
         linkedin :=
           match o_linkedin p with Some v => v | None => linkedin cur end |}
  end.

(** [saveResumeToLocalStorage]; [now] is the value of [Date.now()] and
    [fits] the answer of the browser to the write. *)
Definition saveResumeToLocalStorage (now : Z) (fits : bool)
    (data : PartialResume) (ls : localStorage) : result localStorage :=
  currentData ← getResumeFromLocalStorage ls;
  let updatedData :=
    {| s_personalInfo :=
         spread_personalInfo (s_personalInfo currentData) (p_personalInfo data);
       s_education := or_object (p_education data) (s_education currentData);
       s_experience := or_object (p_experience data) (s_experience currentData);
       s_skills := or_object (p_skills data) (s_skills currentData);
       s_projects := or_object (p_projects data) (s_projects currentData);
       s_templateStyle :=
         or_string (p_templateStyle data) (s_templateStyle currentData);
       s_colorScheme :=
         or_string (p_colorScheme data) (s_colorScheme currentData);
       s_isAtsOptimized :=
         nullish (p_isAtsOptimized data) (s_isAtsOptimized currentData);
       s_targetRole :=
         or_string_opt (p_targetRole data) (s_targetRole currentData);
       s_lastUpdated := now |} in
  setItem fits ls STORAGE_KEY (JSON_stringify updatedData).

(** [clearResumeFromLocalStorage]. *)
Definition clearResumeFromLocalStorage (ls : localStorage)
  : result localStorage :=
  removeItem ls STORAGE_KEY.

(** *** The merge the specification describes

    [merge_with replaces p cur] is the draft [cur] with the partial draft
    [p] laid over it: [personalInfo] one level deep, every other property
    as a whole.  A top-level string of [p] takes the place of the stored
    one when [replaces] accepts it. *)
Definition layer {A : Type} (upd : option A) (prior : A) : A :=
  match upd with
  | Some v => v
  | None => prior
  end.

Definition layer_string (replaces : string -> bool) (upd : option string)
    (prior : string) : string :=
  match upd with
  | Some v => if replaces v then v else prior
  | None => prior
  end.

Definition layer_string_opt (replaces : string -> bool) (upd : option string)
    (prior : option string) : option string :=
  match upd with
  | Some v => if replaces v then Some v else prior
  | None => prior
  end.

(** [personalInfo] one level deep: a property the partial's object
    carries takes the place of the stored one, whatever its value (the
    empty string, [undefined]); a property it does not carry keeps the
    stored value. *)
Definition layer_personalInfo (upd : option PersonalInfoObject)
    (prior : PersonalInfo) : PersonalInfo :=
  match upd with
  | None => prior
  | Some p =>
      {| firstName := o_firstName p;
         lastName := o_lastName p;
         email := o_email p;
         phone := layer (o_phone p) (phone prior);
         summary := layer (o_summary p) (summary prior);
         website := layer (o_website p) (website prior);
         linkedin := layer (o_linkedin p) (linkedin prior) |}
  end.

Definition merge_with (replaces : string -> bool) (p : PartialResume)
    (cur : SavedResumeData) : SavedResumeData :=
  {| s_personalInfo := layer_personalInfo (p_personalInfo p) (s_personalInfo cur);
     s_education := layer (p_education p) (s_education cur);
     s_experience := layer (p_experience p) (s_experience cur);
     s_skills := layer (p_skills p) (s_skills cur);
     s_projects := layer (p_projects p) (s_projects cur);
     s_templateStyle :=
       layer_string replaces (p_templateStyle p) (s_templateStyle cur);
     s_colorScheme :=
       layer_string replaces (p_colorScheme p) (s_colorScheme cur);
     s_isAtsOptimized := layer (p_isAtsOptimized p) (s_isAtsOptimized cur);
     s_targetRole :=
       layer_string_opt replaces (p_targetRole p) (s_targetRole cur);
     s_lastUpdated := s_lastUpdated cur |}.

(** The merge as the specification words it: a string that is present
    replaces the stored one, the empty string included. *)
Definition merge_as_specified : PartialResume -> SavedResumeData -> SavedResumeData :=
  merge_with (fun _ => true).

(** The merge with the one change the code forces: a top-level string
    replaces the stored one when it is present and not empty. *)
Definition merge_non_empty : PartialResume -> SavedResumeData -> SavedResumeData :=
  merge_with truthy.

(** The draft [d] with its time stamp set to [now]. *)
Definition stamped (now : Z) (d : SavedResumeData) : SavedResumeData :=
  {| s_personalInfo := s_personalInfo d;
     s_education := s_education d;
     s_experience := s_experience d;
     s_skills := s_skills d;
     s_projects := s_projects d;
     s_templateStyle := s_templateStyle d;
     s_colorScheme := s_colorScheme d;
     s_isAtsOptimized := s_isAtsOptimized d;
     s_targetRole := s_targetRole d;
     s_lastUpdated := now |}.

(** The scenario of two saves in sequence followed by a load. *)
Definition save_save_load (t1 : Z) (fits1 : bool) (D1 : PartialResume)
    (t2 : Z) (fits2 : bool) (D2 : PartialResume) (ls : localStorage)
  : result SavedResumeData :=
  ls1 ← saveResumeToLocalStorage t1 fits1 D1 ls;
  ls2 ← saveResumeToLocalStorage t2 fits2 D2 ls1;
  getResumeFromLocalStorage ls2.

(** A store that [saveResumeToLocalStorage] has never written and
    [JSON.parse] failures: the two ways the read of a draft goes wrong. *)
Definition never_written (ls : localStorage) : Prop :=
  getItem ls STORAGE_KEY = Ok None.

Definition corrupted (ls : localStorage) : Prop :=
  (exists e, getItem ls STORAGE_KEY = Throw e) \/
  (exists t e, getItem ls STORAGE_KEY = Ok (Some t) /\ JSON_parse t = Throw e).

End LocalStorage.

(** ** client/src/pages/ResumeBuilder.tsx *)

Module Builder.
Import JS Schema LocalStorage.

(** The initial value of the [resumeData] state. *)
Definition initialResumeData : Resume :=
  {| personalInfo :=
       {| firstName := ""; lastName := ""; email := "";
          phone := Some ""; summary := Some "";
          website := Some ""; linkedin := Some "" |};
     education := [];
     experience := [];
     skills := [];
     projects := [];
     templateStyle := Some "professional";
     colorScheme := Some "blue";
     isAtsOptimized := Some true;
     targetRole := Some "";
     atsScore := None |}.

(** The state set by the mount effect from [getResumeFromLocalStorage()]. *)
Definition hydrate (savedData : SavedResumeData) : Resume :=
  {| personalInfo := s_personalInfo savedData;
     education := s_education savedData;
     experience := s_experience savedData;
     skills := s_skills savedData;
     projects := s_projects savedData;
     templateStyle := Some (s_templateStyle savedData);
     colorScheme := Some (s_colorScheme savedData);
     isAtsOptimized := Some (s_isAtsOptimized savedData);
     targetRole := s_targetRole savedData;
     atsScore := None |}.

End Builder.

(** ** client/src/lib/resumeService.ts *)

Module ResumeService.
Import JS Schema.

(** The body of [experience.forEach]. *)
Definition experience_step (text : string) (exp : ExperienceItem) : string :=
  let text := text +:+ (position exp +:+ " at " +:+ company exp +:+ nl) in
  let text :=
    text +:+ (exp_startDate exp +:+ " - " +:+
              (if truthy_bool (exp_current exp) then "Present"
               else or_string (exp_endDate exp) "") +:+ nl) in
  text +:+ (or_string (exp_description exp) "" +:+ nl +:+ nl).

(** The body of [education.forEach]. *)
Definition education_step (text : string) (edu : EducationItem) : string :=
  let text := text +:+ (degree edu +:+ " at " +:+ school edu +:+ nl) in
  let text :=
    text +:+ (edu_startDate edu +:+ " - " +:+
              (if truthy_bool (edu_current edu) then "Present"
               else or_string (edu_endDate edu) "") +:+ nl) in
  text +:+ (or_string (edu_description edu) "" +:+ nl +:+ nl).

(** The body of [projects.forEach]. *)
Definition project_step (text : string) (project : ProjectItem) : string :=
  let text := text +:+ (name project +:+ nl) in
  let text :=
    text +:+ ("Technologies: " +:+ or_string (technologies project) "" +:+ nl) in
  let text :=
    match url project with
    | Some u => if truthy u then text +:+ ("URL: " +:+ u +:+ nl) else text
    | None => text
    end in
  text +:+ (or_string (prj_description project) "" +:+ nl +:+ nl).

(** [resumeToText]: the variable [text] is threaded through the
    statements of the source. *)
Definition resumeToText (resumeData : Resume) : string :=
  let personalInfo := personalInfo resumeData in
  let text := firstName personalInfo +:+ " " +:+ lastName personalInfo +:+ nl in
  let text :=
    text +:+ (email personalInfo +:+ " | " +:+
              or_string (phone personalInfo) "" +:+ nl) in
  let text :=
    match website personalInfo with
    | Some w => if truthy w then text +:+ ("Website: " +:+ w +:+ nl) else text
    | None => text
    end in
  let text :=
    match linkedin personalInfo with
    | Some l => if truthy l then text +:+ ("LinkedIn: " +:+ l +:+ nl) else text
    | None => text
    end in
  let text := text +:+ (nl +:+ "SUMMARY" +:+ nl) in
  let text := text +:+ (or_string (summary personalInfo) "" +:+ nl +:+ nl) in
  let text :=
    if (0 <? length (experience resumeData))%nat then
      let text := text +:+ ("EXPERIENCE" +:+ nl) in
      fold_left experience_step (experience resumeData) text
    else text in
  let text :=
    if (0 <? length (education resumeData))%nat then
      let text := text +:+ ("EDUCATION" +:+ nl) in
      fold_left education_step (education resumeData) text
    else text in
  let text :=
    if (0 <? length (skills resumeData))%nat then
      let text := text +:+ ("SKILLS" +:+ nl) in
      text +:+ (join ", " (skills resumeData) +:+ nl +:+ nl)
    else text in
  let text :=
    if (0 <? length (projects resumeData))%nat then
      let text := text +:+ ("PROJECTS" +:+ nl) in
      fold_left project_step (projects resumeData) text
    else text in
  text.

(** *** The layout the specification describes *)

(** The entries of a section, one after the other. *)
Definition concat_all (entries : list string) : string :=
  fold_right String.append "" entries.

(** A section: nothing for an empty list, else the heading on a line of
    its own followed by the entries. *)
Definition section (heading : string) (entries : list string) : string :=
  match entries with
  | [] => ""
  | _ :: _ => heading +:+ nl +:+ concat_all entries
  end.

(** Name line, contact line, optional website and LinkedIn lines and the
    summary. *)
Definition header (p : PersonalInfo) : string :=
  (firstName p +:+ " " +:+ lastName p +:+ nl)
  +:+ (email p +:+ " | " +:+ or_string (phone p) "" +:+ nl)
  +:+ (if truthy_opt (website p)
       then "Website: " +:+ or_string (website p) "" +:+ nl else "")
  +:+ (if truthy_opt (linkedin p)
       then "LinkedIn: " +:+ or_string (linkedin p) "" +:+ nl else "")
  +:+ (nl +:+ "SUMMARY" +:+ nl)
  +:+ (or_string (summary p) "" +:+ nl +:+ nl).

Definition experience_entry (exp : ExperienceItem) : string :=
  experience_step "" exp.

Definition education_entry (edu : EducationItem) : string :=
  education_step "" edu.

Definition project_entry (project : ProjectItem) : string :=
  project_step "" project.

(** The skills of a draft as the entries of the SKILLS section: one
    comma-joined line, or no entry when there is no skill. *)
Definition skills_entries (l : list string) : list string :=
  match l with
  | [] => []
  | _ :: _ => [join ", " l +:+ nl +:+ nl]
  end.

(** [starts_with p s]: the text [s] begins with [p]. *)
Definition starts_with (p s : string) : Prop := exists rest, s = p +:+ rest.

(** [mentions w s]: the text [s] contains [w]. *)
Definition mentions (w s : string) : Prop :=
  exists before after, s = before +:+ w +:+ after.

(** *** What the user typed

    The strings of a draft that the projection prints.  A heading is absent
    from a text when the text does not contain the word; that can be said
    of the projection only for a draft whose own strings do not contain
    it. *)

(** [occurs_in c w]: the character [c] occurs in the word [w]. *)
Fixpoint occurs_in (c : ascii) (w : string) : bool :=
  match w with
  | EmptyString => false
  | String x rest => Ascii.eqb c x || occurs_in c rest
  end.

Definition personal_texts (p : PersonalInfo) : list string :=
  [firstName p; lastName p; email p; default "" (phone p);
   default "" (website p); default "" (linkedin p); default "" (summary p)].

Definition experience_texts (exp : ExperienceItem) : list string :=
  [position exp; company exp; exp_startDate exp; default "" (exp_endDate exp);
   default "" (exp_description exp)].

Definition education_texts (edu : EducationItem) : list string :=
  [degree edu; school edu; edu_startDate edu; default "" (edu_endDate edu);
   default "" (edu_description edu)].

Definition project_texts (project : ProjectItem) : list string :=
  [name project; default "" (technologies project); default "" (url project);
   default "" (prj_description project)].

Definition user_texts (d : Resume) : list string :=
  personal_texts (personalInfo d)
  ++ flat_map experience_texts (experience d)
  ++ flat_map education_texts (education d)
  ++ skills d
  ++ flat_map project_texts (projects d).

Definition free_of (w : string) (d : Resume) : Prop :=
  Forall (fun s => ~ mentions w s) (user_texts d).

Definition headings : list string :=
  ["EXPERIENCE"; "EDUCATION"; "SKILLS"; "PROJECTS"].

(** A draft with two skills and no other entry. *)
Definition ana : Resume :=
  {| personalInfo :=
       {| firstName := "Ana"; lastName := "Diaz"; email := "ana@example.org";
          phone := None; summary := Some "Builds EXPERIMENTAL compilers";
          website := Some ""; linkedin := None |};
     education := [];
     experience := [];
     skills := ["Rocq"; "OCaml"];
     projects := [];
     templateStyle := None; colorScheme := None; isAtsOptimized := None;
     targetRole := None; atsScore := None |}.

End ResumeService.

(** ** server/storage.ts *)

Module Storage.
Import JS.

(** The content of a [jsonb] column ([unknown] on the TypeScript side): a
    JSON value.  An object is a finite map from its keys: the order of the
    keys, which a [jsonb] column does not keep, is not represented, and two
    objects with the same keys and values are the same value. *)
#[warnings="-register-all"] Inductive json : Type :=
| JNull
| JBool (b : bool)
| JNumber (n : Z)
| JString (s : string)
| JArray (l : list json)
| JObject (m : gmap string json).

(** Truthiness of such a value: [null], [false], [0] and the empty string
    are falsy, arrays and objects are truthy. *)
Definition truthy_json (j : json) : bool :=
  match j with
  | JNull => false
  | JBool b => b
  | JNumber n => negb (n =? 0)%Z
  | JString s => truthy s
  | JArray _ => true
  | JObject _ => true
  end.

(** A [Date] object, known by the milliseconds since the epoch that its
    [getTime()] gives.  A number or a string, which is what a JSON text can
    hold for a time, is not a [Date]. *)
Record Date : Type := { getTime : Z }.

(** [ResumeData = typeof resumes.$inferSelect]: a row of the [resumes]
    table.  A nullable column is an [option]. *)
Record ResumeData : Type := {
  id : Z;
  userId : Z;
  firstName : option string;
  lastName : option string;
  email : option string;
  phone : option string;
  summary : option string;
  website : option string;
  linkedin : option string;
  education : json;
  experience : json;
  skills : json;
  projects : json;
  templateStyle : option string;
  colorScheme : option string;
  targetRole : option string;
  isAtsOptimized : option bool;
  atsScore : option Z;
  createdAt : option Date;
  updatedAt : option Date
}.

(** [Partial<ResumeData>]: [None] is a missing property, [Some None] an
    explicit [null]. *)
Record PartialResumeData : Type := {
  in_id : option Z;
  in_userId : option Z;
  in_firstName : option (option string);
  in_lastName : option (option string);
  in_email : option (option string);
  in_phone : option (option string);
  in_summary : option (option string);
  in_website : option (option string);
  in_linkedin : option (option string);
  in_education : option json;
  in_experience : option json;
  in_skills : option json;
  in_projects : option json;
  in_templateStyle : option (option string);
  in_colorScheme : option (option string);
  in_targetRole : option (option string);
  in_isAtsOptimized : option (option bool);
  in_atsScore : option (option Z);
  in_createdAt : option (option Date);
  in_updatedAt : option (option Date)
}.

(** The payload [{}]. *)
Definition empty_payload : PartialResumeData :=
  {| in_id := None; in_userId := None; in_firstName := None;
     in_lastName := None; in_email := None; in_phone := None;
     in_summary := None; in_website := None; in_linkedin := None;
     in_education := None; in_experience := None; in_skills := None;
     in_projects := None; in_templateStyle := None; in_colorScheme := None;
     in_targetRole := None; in_isAtsOptimized := None; in_atsScore := None;
     in_createdAt := None; in_updatedAt := None |}.

(** [a || b] on a property that may be missing, [null] or a string. *)
Definition or_text (a : option (option string)) (b : option string)
  : option string :=
  match a with
  | Some (Some s) => if truthy s then Some s else b
  | _ => b
  end.

(** [a || b] on a property that may be missing or a number. *)
Definition or_number (a : option Z) (b : Z) : Z :=
  match a with
  | Some n => if (n =? 0)%Z then b else n
  | None => b
  end.

(** [a || b] on a [jsonb] property. *)
Definition or_json (a : option json) (b : json) : json :=
  match a with
  | Some j => if truthy_json j then j else b
  | None => b
  end.

(** [a || false] on a property that may be missing, [null] or a boolean. *)
Definition or_false (a : option (option bool)) : option bool :=
  match a with
  | Some (Some true) => Some true
  | _ => Some false
  end.

(** [{ ...row, ...changes }]: the properties that [changes] carries
    replace those of [row]. *)
Definition assign (changes : PartialResumeData) (row : ResumeData) : ResumeData :=
  {| id := default (id row) (in_id changes);
     userId := default (userId row) (in_userId changes);
     firstName := default (firstName row) (in_firstName changes);
     lastName := default (lastName row) (in_lastName changes);
     email := default (email row) (in_email changes);
     phone := default (phone row) (in_phone changes);
     summary := default (summary row) (in_summary changes);
     website := default (website row) (in_website changes);
     linkedin := default (linkedin row) (in_linkedin changes);
     education := default (education row) (in_education changes);
     experience := default (experience row) (in_experience changes);
     skills := default (skills row) (in_skills changes);
     projects := default (projects row) (in_projects changes);
     templateStyle := default (templateStyle row) (in_templateStyle changes);
     colorScheme := default (colorScheme row) (in_colorScheme changes);
     targetRole := default (targetRole row) (in_targetRole changes);
     isAtsOptimized := default (isAtsOptimized row) (in_isAtsOptimized changes);
     atsScore := default (atsScore row) (in_atsScore changes);
     createdAt := default (createdAt row) (in_createdAt changes);
     updatedAt := default (updatedAt row) (in_updatedAt changes) |}.

(** [const { atsScore, ...validData } = data]. *)
Definition without_atsScore (data : PartialResumeData) : PartialResumeData :=
  {| in_id := in_id data; in_userId := in_userId data;
     in_firstName := in_firstName data; in_lastName := in_lastName data;
     in_email := in_email data; in_phone := in_phone data;
     in_summary := in_summary data; in_website := in_website data;
     in_linkedin := in_linkedin data; in_education := in_education data;
     in_experience := in_experience data; in_skills := in_skills data;
     in_projects := in_projects data;
     in_templateStyle := in_templateStyle data;
     in_colorScheme := in_colorScheme data;
     in_targetRole := in_targetRole data;
     in_isAtsOptimized := in_isAtsOptimized data;
     in_atsScore := None;
     in_createdAt := in_createdAt data; in_updatedAt := in_updatedAt data |}.

(** [const { id: _, atsScore, ...validUpdateData } = data]. *)
Definition without_id_atsScore (data : PartialResumeData) : PartialResumeData :=
  {| in_id := None; in_userId := in_userId data;
     in_firstName := in_firstName data; in_lastName := in_lastName data;
     in_email := in_email data; in_phone := in_phone data;
     in_summary := in_summary data; in_website := in_website data;
     in_linkedin := in_linkedin data; in_education := in_education data;
     in_experience := in_experience data; in_skills := in_skills data;
     in_projects := in_projects data;
     in_templateStyle := in_templateStyle data;
     in_colorScheme := in_colorScheme data;
     in_targetRole := in_targetRole data;
     in_isAtsOptimized := in_isAtsOptimized data;
     in_atsScore := None;
     in_createdAt := in_createdAt data; in_updatedAt := in_updatedAt data |}.

(** [{ ...changes, updatedAt: new Date() }]. *)
Definition with_updatedAt (now : Z) (changes : PartialResumeData)
  : PartialResumeData :=
  {| in_id := in_id changes; in_userId := in_userId changes;
     in_firstName := in_firstName changes; in_lastName := in_lastName changes;
     in_email := in_email changes; in_phone := in_phone changes;
     in_summary := in_summary changes; in_website := in_website changes;
     in_linkedin := in_linkedin changes; in_education := in_education changes;
     in_experience := in_experience changes; in_skills := in_skills changes;
     in_projects := in_projects changes;
     in_templateStyle := in_templateStyle changes;
     in_colorScheme := in_colorScheme changes;
     in_targetRole := in_targetRole changes;
     in_isAtsOptimized := in_isAtsOptimized changes;
     in_atsScore := in_atsScore changes;
     in_createdAt := in_createdAt changes;
     in_updatedAt := Some (Some {| getTime := now |}) |}.

(** [interface IStorage], the resume methods.  A method is a promise that
    resolves ([Ok]) or rejects ([Throw]); a method that writes gives, with
    that, the storage it leaves, which a rejected call may have changed.
    [now] is the time [new Date()] reads. *)
Class IStorage (S : Type) : Type := {
  getResume : Z -> S -> result (option ResumeData);
  createResume : Z -> PartialResumeData -> S -> result ResumeData * S;
  updateResume : Z -> Z -> PartialResumeData -> S
                 -> result (option ResumeData) * S;
  deleteResume : Z -> S -> result bool * S
}.

(** *** What the database accepts

    The columns of [shared/schema.ts] are typed: [id], [user_id] and
    [ats_score] are 32-bit integers, and a [text] or [jsonb] value cannot
    hold the character NUL.  A parameter that does not fit makes the server
    reject the query. *)
Definition int4 (n : Z) : bool := ((- 2 ^ 31 <=? n) && (n <? 2 ^ 31))%Z.

Definition no_nul (s : string) : bool :=
  forallb (fun c => negb (Ascii.eqb c (ascii_of_nat 0))) (list_ascii_of_string s).

Definition text_ok (v : option string) : bool :=
  match v with
  | Some s => no_nul s
  | None => true
  end.

Fixpoint jsonb_ok (j : json) : bool :=
  match j with
  | JNull => true
  | JBool _ => true
  | JNumber _ => true
  | JString s => no_nul s
  | JArray l => forallb jsonb_ok l
  | JObject m => map_fold (fun k v ok => no_nul k && jsonb_ok v && ok) true m
  end.

(** The check of a property that may be missing. *)
Definition when_present {A : Type} (check : A -> bool) (v : option A) : bool :=
  match v with
  | Some a => check a
  | None => true
  end.

(** The parameters of an insert or an update that the server accepts. *)
Definition params_ok (values : PartialResumeData) : bool :=
  when_present int4 (in_id values)
  && when_present int4 (in_userId values)
  && when_present text_ok (in_firstName values)
  && when_present text_ok (in_lastName values)
  && when_present text_ok (in_email values)
  && when_present text_ok (in_phone values)
  && when_present text_ok (in_summary values)
  && when_present text_ok (in_website values)
  && when_present text_ok (in_linkedin values)
  && when_present jsonb_ok (in_education values)
  && when_present jsonb_ok (in_experience values)
  && when_present jsonb_ok (in_skills values)
  && when_present jsonb_ok (in_projects values)
  && when_present text_ok (in_templateStyle values)
  && when_present text_ok (in_colorScheme values)
  && when_present text_ok (in_targetRole values)
  && when_present (when_present int4) (in_atsScore values).

(** *** [class DatabaseStorage] *)

Module DatabaseStorage.

(** The database behind [db]: the ids of the rows of the [users] table,
    the [resumes] table keyed by its primary key, and the sequence behind
    its [serial] column. *)
Record Database : Type := {
  users : gset Z;
  resumes : gmap Z ResumeData;
  resumes_id_seq : Z
}.

(** A database as the server keeps it: a row sits under its own id, the
    sequence is ahead of every id handed out, and the user of a row exists
    (the foreign key [user_id -> users.id]). *)
Definition consistent (db : Database) : Prop :=
  forall k row, resumes db !! k = Some row ->
                id row = k /\ (k < resumes_id_seq db)%Z /\ userId row ∈ users db.

(** [db.insert(resumes).values(values).returning()]: a column that
    [values] does not carry takes the default of the schema, the [serial]
    column the next value of its sequence.  The server rejects a parameter
    that does not fit its column and an id the sequence cannot give, before
    it touches anything; it rejects an id that is taken and a row whose
    user does not exist after the sequence has moved on, and the sequence
    does not go back. *)
Definition insert_returning (now : Z) (values : PartialResumeData)
    (db : Database) : result ResumeData * Database :=
  let row :=
    {| id := default (resumes_id_seq db) (in_id values);
       userId := default 1%Z (in_userId values);
       firstName := default None (in_firstName values);
       lastName := default None (in_lastName values);
       email := default None (in_email values);
       phone := default None (in_phone values);
       summary := default None (in_summary values);
       website := default None (in_website values);
       linkedin := default None (in_linkedin values);
       education := default (JArray []) (in_education values);
       experience := default (JArray []) (in_experience values);
       skills := default (JArray []) (in_skills values);
       projects := default (JArray []) (in_projects values);
       templateStyle := default (Some "professional") (in_templateStyle values);
       colorScheme := default (Some "blue") (in_colorScheme values);
       targetRole := default None (in_targetRole values);
       isAtsOptimized := default (Some false) (in_isAtsOptimized values);
       atsScore := default None (in_atsScore values);
       createdAt := default (Some {| getTime := now |}) (in_createdAt values);
       updatedAt := default (Some {| getTime := now |}) (in_updatedAt values) |} in
  let moved :=
    {| users := users db;
       resumes := resumes db;
       resumes_id_seq :=
         match in_id values with
         | Some _ => resumes_id_seq db
         | None => (resumes_id_seq db + 1)%Z
         end |} in
  if negb (params_ok values) then (Throw NeonDbError, db)
  else if negb (int4 (id row)) then (Throw NeonDbError, db)
  else if bool_decide (is_Some (resumes db !! id row))
  then (Throw NeonDbError, moved)
  else if negb (bool_decide (userId row ∈ users db))
  then (Throw NeonDbError, moved)
  else
    (Ok row,
     {| users := users db;
        resumes := <[id row := row]> (resumes db);
        resumes_id_seq := resumes_id_seq moved |}).

(** [db.update(resumes).set(changes).where(eq(resumes.id, key)).returning()].
    The server rejects a parameter that does not fit its column, whether
    or not a row matches; for the row that matches, an id that is taken
    and a user that does not exist.  A rejected update changes nothing. *)
Definition update_returning (changes : PartialResumeData) (key : Z)
    (db : Database) : result (option ResumeData) * Database :=
  if negb (int4 key) then (Throw NeonDbError, db)
  else if negb (params_ok changes) then (Throw NeonDbError, db)
  else
    match resumes db !! key with
    | None => (Ok None, db)
    | Some row =>
        let row' := assign changes row in
        if bool_decide (id row' <> key /\ is_Some (resumes db !! id row'))
        then (Throw NeonDbError, db)
        else if negb (bool_decide (userId row' ∈ users db))
        then (Throw NeonDbError, db)
        else
          (Ok (Some row'),
           {| users := users db;
              resumes := <[id row' := row']> (delete key (resumes db));
              resumes_id_seq := resumes_id_seq db |})
    end.

(** [getResume]: the server rejects the query when [id] is not a 32-bit
    integer. *)
Definition getResume (key : Z) (db : Database) : result (option ResumeData) :=
  if negb (int4 key) then Throw NeonDbError
  else Ok (resumes db !! key).

Definition createResume (now : Z) (data : PartialResumeData) (db : Database)
  : result ResumeData * Database :=
  let validData := without_atsScore data in
  insert_returning now
    {| in_id := None;
       in_userId := Some (or_number (in_userId validData) 1);
       in_firstName := Some (or_text (in_firstName validData) None);
       in_lastName := Some (or_text (in_lastName validData) None);
       in_email := Some (or_text (in_email validData) None);
       in_phone := Some (or_text (in_phone validData) None);
       in_summary := Some (or_text (in_summary validData) None);
       in_website := Some (or_text (in_website validData) None);
       in_linkedin := Some (or_text (in_linkedin validData) None);
       in_education := Some (or_json (in_education validData) (JArray []));
       in_experience := Some (or_json (in_experience validData) (JArray []));
       in_skills := Some (or_json (in_skills validData) (JArray []));
       in_projects := Some (or_json (in_projects validData) (JArray []));
       in_templateStyle :=
         Some (or_text (in_templateStyle validData) (Some "professional"));
       in_colorScheme :=
         Some (or_text (in_colorScheme validData) (Some "blue"));
       in_targetRole := Some (or_text (in_targetRole validData) None);
       in_isAtsOptimized := Some (or_false (in_isAtsOptimized validData));
       in_atsScore := None;
       in_createdAt := None;
       in_updatedAt := None |}
    db.

Definition updateResume (now : Z) (key : Z) (data : PartialResumeData)
    (db : Database) : result (option ResumeData) * Database :=
  let validUpdateData := without_id_atsScore data in
  update_returning (with_updatedAt now validUpdateData) key db.

(** [deleteResume]: the server rejects the query when [id] is not a 32-bit
    integer. *)
Definition deleteResume (key : Z) (db : Database) : result bool * Database :=
  if negb (int4 key) then (Throw NeonDbError, db)
  else
    match resumes db !! key with
    | None => (Ok false, db)
    | Some _ =>
        (Ok true,
         {| users := users db;
            resumes := delete key (resumes db);
            resumes_id_seq := resumes_id_seq db |})
    end.

End DatabaseStorage.

(** *** [class MemStorage] *)

Module MemStorage.

Record MemStorage : Type := {
  resumes : gmap Z ResumeData;
  resumeIdCounter : Z
}.

(** The state the constructor builds. *)
Definition new : MemStorage := {| resumes := ∅; resumeIdCounter := 1 |}.

Definition getResume (key : Z) (this : MemStorage) : option ResumeData :=
  resumes this !! key.

Definition createResume (now : Z) (data : PartialResumeData)
    (this : MemStorage) : ResumeData * MemStorage :=
  let id := resumeIdCounter this in
  let resume :=
    {| id := id;
       userId := or_number (in_userId data) 1;
       firstName := or_text (in_firstName data) None;
       lastName := or_text (in_lastName data) None;
       email := or_text (in_email data) None;
       phone := or_text (in_phone data) None;
       summary := or_text (in_summary data) None;
       website := or_text (in_website data) None;
       linkedin := or_text (in_linkedin data) None;
       education := or_json (in_education data) (JArray []);
       experience := or_json (in_experience data) (JArray []);
       skills := or_json (in_skills data) (JArray []);
       projects := or_json (in_projects data) (JArray []);
       templateStyle := or_text (in_templateStyle data) (Some "professional");
       colorScheme := or_text (in_colorScheme data) (Some "blue");
       targetRole := or_text (in_targetRole data) None;
       isAtsOptimized := or_false (in_isAtsOptimized data);
       atsScore := None;
       createdAt := Some {| getTime := now |};
       updatedAt := Some {| getTime := now |} |} in
  (resume,
   {| resumes := <[id := resume]> (resumes this);
      resumeIdCounter := (resumeIdCounter this + 1)%Z |}).

Definition updateResume (now : Z) (key : Z) (data : PartialResumeData)
    (this : MemStorage) : option ResumeData * MemStorage :=
  match resumes this !! key with
  | None => (None, this)
  | Some existingResume =>
      let updatedResume := assign (with_updatedAt now data) existingResume in
      (Some updatedResume,
       {| resumes := <[key := updatedResume]> (resumes this);
          resumeIdCounter := resumeIdCounter this |})
  end.

Definition deleteResume (key : Z) (this : MemStorage) : bool * MemStorage :=
  match resumes this !! key with
  | None => (false, this)
  | Some _ =>
      (true,
       {| resumes := delete key (resumes this);
          resumeIdCounter := resumeIdCounter this |})
  end.

End MemStorage.

#[global] Instance DatabaseStorage_IStorage
  : IStorage DatabaseStorage.Database :=
  {| getResume := DatabaseStorage.getResume;
     createResume := DatabaseStorage.createResume;
     updateResume := DatabaseStorage.updateResume;
     deleteResume := DatabaseStorage.deleteResume |}.

#[global] Instance MemStorage_IStorage : IStorage MemStorage.MemStorage :=
  {| getResume key this := Ok (MemStorage.getResume key this);
     createResume now data this :=
       let '(resume, this') := MemStorage.createResume now data this in
       (Ok resume, this');
     updateResume now key data this :=
       let '(updatedResume, this') := MemStorage.updateResume now key data this in
       (Ok updatedResume, this');
     deleteResume key this :=
       let '(deleted, this') := MemStorage.deleteResume key this in
       (Ok deleted, this') |}.

(** *** What the specification asks of create and update *)

(** The text a created record holds for a supplied property: the value
    itself when it is a non-empty string, else the default. *)
Definition text_or (dflt : option string) (supplied : option (option string))
  : option string :=
  match supplied with
  | Some (Some s) => if decide (s = "") then dflt else Some s
  | Some None => dflt
  | None => dflt
  end.


(** The same, with the one change the code forces: a falsy value (the
    empty string, [null], [false], [0]) counts as not supplied and the
    default stands in for it. *)
Definition as_supplied_truthy (data : PartialResumeData) (r : ResumeData) : Prop :=
  firstName r = text_or None (in_firstName data) /\
  lastName r = text_or None (in_lastName data) /\
  email r = text_or None (in_email data) /\
  phone r = text_or None (in_phone data) /\
  summary r = text_or None (in_summary data) /\
  website r = text_or None (in_website data) /\
  linkedin r = text_or None (in_linkedin data) /\
  education r = or_json (in_education data) (JArray []) /\
  experience r = or_json (in_experience data) (JArray []) /\
  skills r = or_json (in_skills data) (JArray []) /\
  projects r = or_json (in_projects data) (JArray []) /\
  templateStyle r = text_or (Some "professional") (in_templateStyle data) /\
  colorScheme r = text_or (Some "blue") (in_colorScheme data) /\
  targetRole r = text_or None (in_targetRole data) /\
  isAtsOptimized r =
    Some (match in_isAtsOptimized data with Some (Some b) => b | _ => false end).

(** The server-managed properties of a freshly created record. *)
Definition server_managed (now next_id : Z) (r : ResumeData) : Prop :=
  id r = next_id /\ createdAt r = Some {| getTime := now |} /\
  updatedAt r = Some {| getTime := now |} /\ atsScore r = None.

(** Two records agree on every property a payload leaves out, [id],
    [atsScore] and [updatedAt] aside. *)
Definition untouched (data : PartialResumeData) (before after : ResumeData)
  : Prop :=
  (in_userId data = None -> userId after = userId before) /\
  (in_firstName data = None -> firstName after = firstName before) /\
  (in_lastName data = None -> lastName after = lastName before) /\
  (in_email data = None -> email after = email before) /\
  (in_phone data = None -> phone after = phone before) /\
  (in_summary data = None -> summary after = summary before) /\
  (in_website data = None -> website after = website before) /\
  (in_linkedin data = None -> linkedin after = linkedin before) /\
  (in_education data = None -> education after = education before) /\
  (in_experience data = None -> experience after = experience before) /\
  (in_skills data = None -> skills after = skills before) /\
  (in_projects data = None -> projects after = projects before) /\
  (in_templateStyle data = None -> templateStyle after = templateStyle before) /\
  (in_colorScheme data = None -> colorScheme after = colorScheme before) /\
  (in_targetRole data = None -> targetRole after = targetRole before) /\
  (in_isAtsOptimized data = None ->
   isAtsOptimized after = isAtsOptimized before) /\
  (in_createdAt data = None -> createdAt after = createdAt before).

(** The properties a payload carries are the ones the record now holds. *)
Definition provided (data : PartialResumeData) (after : ResumeData) : Prop :=
  (forall v, in_userId data = Some v -> userId after = v) /\
  (forall v, in_firstName data = Some v -> firstName after = v) /\
  (forall v, in_lastName data = Some v -> lastName after = v) /\
  (forall v, in_email data = Some v -> email after = v) /\
  (forall v, in_phone data = Some v -> phone after = v) /\
  (forall v, in_summary data = Some v -> summary after = v) /\
  (forall v, in_website data = Some v -> website after = v) /\
  (forall v, in_linkedin data = Some v -> linkedin after = v) /\
  (forall v, in_education data = Some v -> education after = v) /\
  (forall v, in_experience data = Some v -> experience after = v) /\
  (forall v, in_skills data = Some v -> skills after = v) /\
  (forall v, in_projects data = Some v -> projects after = v) /\
  (forall v, in_templateStyle data = Some v -> templateStyle after = v) /\
  (forall v, in_colorScheme data = Some v -> colorScheme after = v) /\
  (forall v, in_targetRole data = Some v -> targetRole after = v) /\
  (forall v, in_isAtsOptimized data = Some v -> isAtsOptimized after = v) /\
  (forall v, in_createdAt data = Some v -> createdAt after = v).

(** The payload strips the server-managed [id] and [atsScore]: whatever
    the payload says, the record keeps the two it had. *)
Definition stripped (before after : ResumeData) : Prop :=
  id after = id before /\ atsScore after = atsScore before.

End Storage.

(** ** server/routes.ts *)

Module Routes.
Import JS.

(** *** [Math.random()] and the arithmetic of the score

    A value of [Math.random()] is a binary64 number of the interval [0, 1):
    [num / 2 ^ scale] with a significand of at most 53 bits. *)
Record draw : Type := {
  num : Z;
  scale : Z
}.

Definition unit_interval (r : draw) : Prop :=
  (0 <= num r < 2 ^ 53)%Z /\ (num r < 2 ^ scale r)%Z /\ (0 <= scale r <= 1074)%Z.

(** Rounding of a natural number to 53 significant bits, to nearest with
    ties to even: what binary64 keeps of an exact product. *)
Definition round53 (n : Z) : Z :=
  let k := (Z.log2 n - 52)%Z in
  if (k <=? 0)%Z then n
  else
    let q := (n / 2 ^ k)%Z in
    let r := (n mod 2 ^ k)%Z in
    let half := (2 ^ (k - 1))%Z in
    if (r <? half)%Z then (q * 2 ^ k)%Z
    else if (half <? r)%Z then ((q + 1) * 2 ^ k)%Z
    else if Z.even q then (q * 2 ^ k)%Z
    else ((q + 1) * 2 ^ k)%Z.

(** [Math.floor(r * c)] for a natural constant [c]: the product is rounded
    to binary64 and then floored. *)
Definition floor_times (r : draw) (c : Z) : Z :=
  (round53 (num r * c) / 2 ^ scale r)%Z.

Record Optimized : Type := {
  optimizedText : string;
  atsScore : Z
}.

(** [optimizeForATS]; [random] is the value [Math.random()] returns. *)
Definition optimizeForATS (resumeText : string) (targetRole : option string)
    (random : draw) : Optimized :=
  let roleSpecificText :=
    match targetRole with
    | Some role =>
        if truthy role then
          nl +:+ nl +:+ "[ATS Optimized for " +:+ role +:+ "]" +:+ nl
          +:+ "- Added " +:+ role +:+ "-specific keywords" +:+ nl
          +:+ "- Highlighted relevant skills for " +:+ role +:+ nl
          +:+ "- Reordered experience to emphasize " +:+ role
          +:+ " qualifications" +:+ nl
          +:+ "- Improved formatting for ATS systems"
        else
          nl +:+ nl +:+ "[ATS Optimized]" +:+ nl
          +:+ "- Added relevant keywords" +:+ nl
          +:+ "- Improved formatting" +:+ nl
          +:+ "- Enhanced readability for ATS systems"
    | None =>
        nl +:+ nl +:+ "[ATS Optimized]" +:+ nl
        +:+ "- Added relevant keywords" +:+ nl
        +:+ "- Improved formatting" +:+ nl
        +:+ "- Enhanced readability for ATS systems"
    end in
  let atsScore := (floor_times random 31 + 65)%Z in
  {| optimizedText := resumeText +:+ roleSpecificText;
     atsScore := atsScore |}.

(** The constants of [generateCoverLetter]. *)
Definition greeting (companyName : option string) : string :=
  match companyName with
  | Some c => if truthy c then "Dear " +:+ c +:+ " Hiring Team,"
              else "Dear Hiring Manager,"
  | None => "Dear Hiring Manager,"
  end.

Definition introduction (targetRole : string) : string :=
  if truthy targetRole
  then "I am writing to express my interest in the " +:+ targetRole +:+ " position."
  else "I am writing to express my interest in the open position at your company.".

Definition body : string :=
  "After reviewing the job description, I believe my skills and experience make me a strong candidate. My background has prepared me for the challenges of this role, and I am excited about the opportunity to contribute to your team."
  +:+ nl +:+ nl +:+
  "Based on my resume, I have relevant experience that aligns with your requirements. My approach combines technical expertise with a strong work ethic, which enables me to deliver high-quality results consistently.".

Definition closing (companyName : option string) : string :=
  match companyName with
  | Some c =>
      if truthy c then
        "I am particularly drawn to " +:+ c +:+ " because of your reputation for innovation and excellence in the industry. I would welcome the opportunity to discuss how my qualifications align with your needs."
      else
        "I would welcome the opportunity to discuss how my qualifications align with your needs for this position."
  | None =>
      "I would welcome the opportunity to discuss how my qualifications align with your needs for this position."
  end.

Definition thanks : string :=
  "Thank you for considering my application. I look forward to the possibility of working with your team.".

(** [generateCoverLetter]. *)
Definition generateCoverLetter (resumeText : string) (targetRole : string)
    (companyName : option string) : string :=
  greeting companyName +:+ nl +:+ nl
  +:+ introduction targetRole +:+ nl +:+ nl
  +:+ body +:+ nl +:+ nl
  +:+ closing companyName +:+ nl +:+ nl
  +:+ thanks +:+ nl +:+ nl
  +:+ "Sincerely," +:+ nl
  +:+ "[Your Name]".

(** *** [parseInt] with no radix, as ECMAScript defines it *)

(** White space [parseInt] skips, among the characters a string of 8-bit
    characters holds: TAB, LF, VT, FF, CR, SP and NBSP. *)
Definition is_white_space (c : ascii) : bool :=
  let n := nat_of_ascii c in
  ((9 <=? n) && (n <=? 13) || (n =? 32) || (n =? 160))%nat.

Fixpoint trim_start (s : string) : string :=
  match s with
  | EmptyString => EmptyString
  | String c rest => if is_white_space c then trim_start rest else s
  end.

(** The value of a digit, letters counting from ten. *)
Definition digit_value (c : ascii) : option Z :=
  let n := nat_of_ascii c in
  if ((48 <=? n) && (n <=? 57))%nat then Some (Z.of_nat n - 48)%Z
  else if ((97 <=? n) && (n <=? 122))%nat then Some (Z.of_nat n - 87)%Z
  else if ((65 <=? n) && (n <=? 90))%nat then Some (Z.of_nat n - 55)%Z
  else None.

(** The value of the longest prefix of [s] made of digits of the radix;
    [acc] is [None] as long as no digit has been read. *)
Fixpoint leading_digits (radix : Z) (s : string) (acc : option Z) : option Z :=
  match s with
  | EmptyString => acc
  | String c rest =>
      match digit_value c with
      | Some d =>
          if (d <? radix)%Z
          then leading_digits radix rest (Some (radix * default 0 acc + d))%Z
          else acc
      | None => acc
      end
  end.

(** The Number nearest to a natural number: the number itself up to 2^53,
    beyond that its rounding to 53 significant bits; [2 ^ 1024], which no
    finite Number reaches, stands for [Infinity]. *)
Definition to_Number (n : Z) : Z := Z.min (round53 n) (2 ^ 1024).

(** [parseInt(s)]; [None] is [NaN].  The value is a Number: the integer the
    digits denote, rounded to binary64. *)
Definition parseInt (s : string) : option Z :=
  let s := trim_start s in
  let '(sign, s) :=
    match s with
    | String "-" rest => ((-1)%Z, rest)
    | String "+" rest => (1%Z, rest)
    | _ => (1%Z, s)
    end in
  let '(radix, s) :=
    match s with
    | String "0" (String "x" rest) => (16%Z, rest)
    | String "0" (String "X" rest) => (16%Z, rest)
    | _ => (10%Z, s)
    end in
  match leading_digits radix s None with
  | Some n => Some (sign * to_Number n)%Z
  | None => None
  end.

(** *** [GET /api/resumes/:id] *)

Inductive payload : Type :=
| Message (message : string)
| Failure (message : string) (error : exn)
| Resume (resume : Storage.ResumeData).

Record response : Type := {
  status : Z;
  sent : payload
}.

(** The handler of [app.get("/api/resumes/:id")] on the path segment
    [req.params.id]. *)
Definition get_resume_by_id {S : Type} `{Storage.IStorage S} (storage : S)
    (req_params_id : string) : result response :=
  try_catch
    (match parseInt req_params_id with
     | None => Ok {| status := 400; sent := Message "Invalid resume ID" |}
     | Some id =>
         resume ← Storage.getResume id storage;
         match resume with
         | None => Ok {| status := 404; sent := Message "Resume not found" |}
         | Some r => Ok {| status := 200; sent := Resume r |}
         end
     end)
    (fun error =>
       Ok {| status := 500; sent := Failure "Failed to fetch resume" error |}).

(** A path segment that is numeric: one decimal digit or more, nothing else. *)
Definition is_digit (c : ascii) : bool :=
  let n := nat_of_ascii c in ((48 <=? n) && (n <=? 57))%nat.

Fixpoint all_digits (s : string) : bool :=
  match s with
  | EmptyString => true
  | String c rest => is_digit c && all_digits rest
  end.

Definition numeric (s : string) : Prop :=
  s <> EmptyString /\ all_digits s = true.

(** The number a numeric segment denotes, read from the left. *)
Fixpoint decimal_from (acc : Z) (s : string) : Z :=
  match s with
  | EmptyString => acc
  | String c rest => decimal_from (10 * acc + (Z.of_nat (nat_of_ascii c) - 48))%Z rest
  end.

Definition decimal (s : string) : Z := decimal_from 0 s.

End Routes.

(** ** The list forms: SkillsForm.tsx, EducationForm.tsx, ExperienceForm.tsx *)

Module Forms.
Import JS Schema.

(** [array.filter((x, i) => keep x i)], [i] counting from [start]. *)
Fixpoint filter_indexed {A : Type} (keep : A -> nat -> bool) (start : nat)
    (l : list A) : list A :=
  match l with
  | [] => []
  | x :: rest =>
      if keep x start then x :: filter_indexed keep (S start) rest
      else filter_indexed keep (S start) rest
  end.

(** [handleRemoveSkill]: the new value of the [skills] state, which is
    also handed to [onSaveSkills]. *)
Definition handleRemoveSkill (index : nat) (skills : list string) : list string :=
  let newSkills := filter_indexed (fun _ i => negb (i =? index)%nat) 0 skills in
  newSkills.

(** *** The education, experience and project forms

    These forms keep their entries in a field array of the form library
    (react-hook-form), which is not part of the repository: its
    [remove(index)] is a parameter of the handlers, and what it does is
    a hypothesis of the facts that depend on it.  A handler returns the new
    field array and the list it hands to [onSave], [None] when it does not
    call [onSave]; the page stores what [onSave] receives as the list of
    the draft. *)
Section FieldArray.
Context {A : Type}.
Variable remove : nat -> list A -> list A.




End FieldArray.





Definition bachelor : EducationItem :=
  {| edu_id := "e1"; school := "MIT"; degree := "BSc";
     edu_startDate := "2010-09"; edu_endDate := Some "2014-06";
     edu_description := None; edu_current := Some false |}.

Definition master : EducationItem :=
  {| edu_id := "e1"; school := "CMU"; degree := "MSc";
     edu_startDate := "2014-09"; edu_endDate := None;
     edu_description := None; edu_current := Some true |}.

End Forms.

(** ** client/src/pages/ResumeBuilder.tsx: the handlers *)

Module BuilderHandlers.
Import JS Schema LocalStorage.

(** The constant [tabs]. *)
Definition tabs : list string :=
  ["personal"; "education"; "experience"; "skills"; "preview"; "coverletter"].

(** [array.indexOf(x)]: the position of the first occurrence, -1 when
    there is none. *)
Fixpoint indexOf_from (l : list string) (x : string) (i : Z) : Z :=
  match l with
  | [] => (-1)%Z
  | y :: rest => if String.eqb y x then i else indexOf_from rest x (i + 1)%Z
  end.

Definition indexOf (l : list string) (x : string) : Z := indexOf_from l x 0.

(** [array[i]]: [undefined] ([None]) outside the array. *)
Definition at_index (l : list string) (i : Z) : option string :=
  if (i <? 0)%Z then None else l !! Z.to_nat i.

(** What a navigation handler does to the [activeTab] state: nothing, or a
    call of [setActiveTab]. *)
Inductive navigation : Type :=
| Stay
| SetActiveTab (tab : option string).

Definition handlePrevious (activeTab : string) : navigation :=
  let activeTabIndex := indexOf tabs activeTab in
  if (0 <? activeTabIndex)%Z
  then SetActiveTab (at_index tabs (activeTabIndex - 1))
  else Stay.

Definition handleNext (activeTab : string) : navigation :=
  let activeTabIndex := indexOf tabs activeTab in
  if (activeTabIndex <? Z.of_nat (length tabs) - 1)%Z
  then SetActiveTab (at_index tabs (activeTabIndex + 1))
  else Stay.

(** The value of [activeTab] after a handler ran; [None] is [undefined]. *)
Definition after (activeTab : string) (n : navigation) : option string :=
  match n with
  | Stay => Some activeTab
  | SetActiveTab tab => tab
  end.

(** The [resumeData] state of the page.  Its [personalInfo] is kept as
    the object it is, with the properties it has of its own: the handlers
    pass that object on to [saveResumeToLocalStorage], which spreads it. *)
Record ResumeState : Type := {
  st_personalInfo : PersonalInfoObject;
  st_education : list EducationItem;
  st_experience : list ExperienceItem;
  st_skills : list string;
  st_projects : list ProjectItem;
  st_templateStyle : option string;
  st_colorScheme : option string;
  st_isAtsOptimized : option bool;
  st_targetRole : option string;
  st_atsScore : option Z
}.

(** The draft a reader of the state sees. *)
Definition view (st : ResumeState) : Resume :=
  {| personalInfo := read (st_personalInfo st);
     education := st_education st;
     experience := st_experience st;
     skills := st_skills st;
     projects := st_projects st;
     templateStyle := st_templateStyle st;
     colorScheme := st_colorScheme st;
     isAtsOptimized := st_isAtsOptimized st;
     targetRole := st_targetRole st;
     atsScore := st_atsScore st |}.

(** The object behind a [personalInfo] that a load returned: it comes from
    [JSON.parse] or is the one of [defaultData], so it has exactly the
    properties that hold a value. *)
Definition own_property {A : Type} (v : option A) : option (option A) :=
  match v with
  | Some a => Some (Some a)
  | None => None
  end.

Definition as_object (p : PersonalInfo) : PersonalInfoObject :=
  {| o_firstName := firstName p;
     o_lastName := lastName p;
     o_email := email p;
     o_phone := own_property (phone p);
     o_summary := own_property (summary p);
     o_website := own_property (website p);
     o_linkedin := own_property (linkedin p) |}.

(** The initial value of the [resumeData] state. *)
Definition initialState : ResumeState :=
  {| st_personalInfo :=
       {| o_firstName := ""; o_lastName := ""; o_email := "";
          o_phone := Some (Some ""); o_summary := Some (Some "");
          o_website := Some (Some ""); o_linkedin := Some (Some "") |};
     st_education := []; st_experience := []; st_skills := [];
     st_projects := [];
     st_templateStyle := Some "professional";
     st_colorScheme := Some "blue";
     st_isAtsOptimized := Some true;
     st_targetRole := Some "";
     st_atsScore := None |}.

(** The state the mount effect sets from [getResumeFromLocalStorage()]. *)
Definition mount (savedData : SavedResumeData) : ResumeState :=
  {| st_personalInfo := as_object (s_personalInfo savedData);
     st_education := s_education savedData;
     st_experience := s_experience savedData;
     st_skills := s_skills savedData;
     st_projects := s_projects savedData;
     st_templateStyle := Some (s_templateStyle savedData);
     st_colorScheme := Some (s_colorScheme savedData);
     st_isAtsOptimized := Some (s_isAtsOptimized savedData);
     st_targetRole := s_targetRole savedData;
     st_atsScore := None |}.

(** The partial drafts the handlers hand to [saveResumeToLocalStorage]. *)
Definition only_personalInfo (data : PersonalInfoObject) : PartialResume :=
  {| p_personalInfo := Some data; p_education := None; p_experience := None;
     p_skills := None; p_projects := None; p_templateStyle := None;
     p_colorScheme := None; p_isAtsOptimized := None; p_targetRole := None;
     p_atsScore := None |}.

Definition only_education (data : list EducationItem) : PartialResume :=
  {| p_personalInfo := None; p_education := Some data; p_experience := None;
     p_skills := None; p_projects := None; p_templateStyle := None;
     p_colorScheme := None; p_isAtsOptimized := None; p_targetRole := None;
     p_atsScore := None |}.

Definition only_experience (data : list ExperienceItem) : PartialResume :=
  {| p_personalInfo := None; p_education := None; p_experience := Some data;
     p_skills := None; p_projects := None; p_templateStyle := None;
     p_colorScheme := None; p_isAtsOptimized := None; p_targetRole := None;
     p_atsScore := None |}.

Definition only_skills (data : list string) : PartialResume :=
  {| p_personalInfo := None; p_education := None; p_experience := None;
     p_skills := Some data; p_projects := None; p_templateStyle := None;
     p_colorScheme := None; p_isAtsOptimized := None; p_targetRole := None;
     p_atsScore := None |}.

Definition only_projects (data : list ProjectItem) : PartialResume :=
  {| p_personalInfo := None; p_education := None; p_experience := None;
     p_skills := None; p_projects := Some data; p_templateStyle := None;
     p_colorScheme := None; p_isAtsOptimized := None; p_targetRole := None;
     p_atsScore := None |}.

(** The argument of [handleOptionsChange]. *)
Record Options : Type := {
  o_templateStyle : string;
  o_colorScheme : string;
  o_isAtsOptimized : bool;
  o_targetRole : option string
}.

Definition options_as_partial (options : Options) : PartialResume :=
  {| p_personalInfo := None; p_education := None; p_experience := None;
     p_skills := None; p_projects := None;
     p_templateStyle := Some (o_templateStyle options);
     p_colorScheme := Some (o_colorScheme options);
     p_isAtsOptimized := Some (o_isAtsOptimized options);
     p_targetRole := o_targetRole options;
     p_atsScore := None |}.

(** The state passed where a [Partial<Resume>] is expected. *)
Definition state_as_partial (resumeData : ResumeState) : PartialResume :=
  {| p_personalInfo := Some (st_personalInfo resumeData);
     p_education := Some (st_education resumeData);
     p_experience := Some (st_experience resumeData);
     p_skills := Some (st_skills resumeData);
     p_projects := Some (st_projects resumeData);
     p_templateStyle := st_templateStyle resumeData;
     p_colorScheme := st_colorScheme resumeData;
     p_isAtsOptimized := st_isAtsOptimized resumeData;
     p_targetRole := st_targetRole resumeData;
     p_atsScore := st_atsScore resumeData |}.

(** The update handlers: the new [resumeData] state and the outcome of the
    write to the browser store, which no handler catches; [now] is
    [Date.now()] and [fits] the answer of the browser to the write. *)
Definition handlePersonalInfoSave (now : Z) (fits : bool)
    (data : PersonalInfoObject) (prev : ResumeState) (ls : localStorage)
  : ResumeState * result localStorage :=
  ({| st_personalInfo := data; st_education := st_education prev;
      st_experience := st_experience prev; st_skills := st_skills prev;
      st_projects := st_projects prev;
      st_templateStyle := st_templateStyle prev;
      st_colorScheme := st_colorScheme prev;
      st_isAtsOptimized := st_isAtsOptimized prev;
      st_targetRole := st_targetRole prev; st_atsScore := st_atsScore prev |},
   saveResumeToLocalStorage now fits (only_personalInfo data) ls).

Definition handleEducationSave (now : Z) (fits : bool)
    (data : list EducationItem) (prev : ResumeState) (ls : localStorage)
  : ResumeState * result localStorage :=
  ({| st_personalInfo := st_personalInfo prev; st_education := data;
      st_experience := st_experience prev; st_skills := st_skills prev;
      st_projects := st_projects prev;
      st_templateStyle := st_templateStyle prev;
      st_colorScheme := st_colorScheme prev;
      st_isAtsOptimized := st_isAtsOptimized prev;
      st_targetRole := st_targetRole prev; st_atsScore := st_atsScore prev |},
   saveResumeToLocalStorage now fits (only_education data) ls).

Definition handleExperienceSave (now : Z) (fits : bool)
    (data : list ExperienceItem) (prev : ResumeState) (ls : localStorage)
  : ResumeState * result localStorage :=
  ({| st_personalInfo := st_personalInfo prev;
      st_education := st_education prev; st_experience := data;
      st_skills := st_skills prev; st_projects := st_projects prev;
      st_templateStyle := st_templateStyle prev;
      st_colorScheme := st_colorScheme prev;
      st_isAtsOptimized := st_isAtsOptimized prev;
      st_targetRole := st_targetRole prev; st_atsScore := st_atsScore prev |},
   saveResumeToLocalStorage now fits (only_experience data) ls).

Definition handleSkillsSave (now : Z) (fits : bool) (data : list string)
    (prev : ResumeState) (ls : localStorage)
  : ResumeState * result localStorage :=
  ({| st_personalInfo := st_personalInfo prev;
      st_education := st_education prev;
      st_experience := st_experience prev; st_skills := data;
      st_projects := st_projects prev;
      st_templateStyle := st_templateStyle prev;
      st_colorScheme := st_colorScheme prev;
      st_isAtsOptimized := st_isAtsOptimized prev;
      st_targetRole := st_targetRole prev; st_atsScore := st_atsScore prev |},
   saveResumeToLocalStorage now fits (only_skills data) ls).

Definition handleProjectsSave (now : Z) (fits : bool)
    (data : list ProjectItem) (prev : ResumeState) (ls : localStorage)
  : ResumeState * result localStorage :=
  ({| st_personalInfo := st_personalInfo prev;
      st_education := st_education prev;
      st_experience := st_experience prev; st_skills := st_skills prev;
      st_projects := data;
      st_templateStyle := st_templateStyle prev;
      st_colorScheme := st_colorScheme prev;
      st_isAtsOptimized := st_isAtsOptimized prev;
      st_targetRole := st_targetRole prev; st_atsScore := st_atsScore prev |},
   saveResumeToLocalStorage now fits (only_projects data) ls).

Definition handleOptionsChange (now : Z) (fits : bool) (options : Options)
    (prev : ResumeState) (ls : localStorage)
  : ResumeState * result localStorage :=
  ({| st_personalInfo := st_personalInfo prev;
      st_education := st_education prev;
      st_experience := st_experience prev; st_skills := st_skills prev;
      st_projects := st_projects prev;
      st_templateStyle := Some (o_templateStyle options);
      st_colorScheme := Some (o_colorScheme options);
      st_isAtsOptimized := Some (o_isAtsOptimized options);
      st_targetRole := o_targetRole options;
      st_atsScore := st_atsScore prev |},
   saveResumeToLocalStorage now fits (options_as_partial options) ls).

(** The part of [handleSaveProgress] that runs before the request to the
    server: the write of the whole draft to the browser store. *)
Definition handleSaveProgress_local (now : Z) (fits : bool)
    (resumeData : ResumeState) (ls : localStorage) : result localStorage :=
  saveResumeToLocalStorage now fits (state_as_partial resumeData) ls.

(** What the page shows after a reload: the draft a reader sees in the
    state that the mount effect sets from the draft the store returns. *)
Definition reload (ls : localStorage) : result Resume :=
  savedData ← getResumeFromLocalStorage ls;
  Ok (view (mount savedData)).

(** The draft without its score, which the browser store does not keep. *)
Definition without_score (r : Resume) : Resume :=
  {| personalInfo := personalInfo r; education := education r;
     experience := experience r; skills := skills r; projects := projects r;
     templateStyle := templateStyle r; colorScheme := colorScheme r;
     isAtsOptimized := isAtsOptimized r; targetRole := targetRole r;
     atsScore := None |}.

(** The store is in step with the state of the page: a reload would show
    the draft of the page again. *)
Definition in_step (st : ResumeState) (ls : localStorage) : Prop :=
  reload ls = Ok (without_score (view st)).

(** A personal-information object that has its four optional properties
    (each may be [undefined]), as the form hands it over. *)
Definition complete (o : PersonalInfoObject) : Prop :=
  is_Some (o_phone o) /\ is_Some (o_summary o) /\ is_Some (o_website o) /\
  is_Some (o_linkedin o).

(** Options whose strings are not empty. *)
Definition filled (o : Options) : Prop :=
  o_templateStyle o <> "" /\ o_colorScheme o <> "" /\
  exists role, o_targetRole o = Some role /\ role <> "".

(** A state that holds a value for every property the store keeps. *)
Definition fully_specified (st : ResumeState) : Prop :=
  complete (st_personalInfo st) /\
  (exists s, st_templateStyle st = Some s /\ s <> "") /\
  (exists s, st_colorScheme st = Some s /\ s <> "") /\
  is_Some (st_isAtsOptimized st) /\
  (exists s, st_targetRole st = Some s /\ s <> "").

End BuilderHandlers.

(** ** server/storage.ts: what the stores keep true *)

Module StorageInvariants.
Import Storage.

(** The keys of a [MemStorage] stay below its counter. *)
Definition below_counter (this : MemStorage.MemStorage) : Prop :=
  forall k r, MemStorage.resumes this !! k = Some r ->
              (k < MemStorage.resumeIdCounter this)%Z.

(** The row [DatabaseStorage.createResume] asks the server to insert. *)
Definition new_row (now : Z) (data : PartialResumeData)
    (db : DatabaseStorage.Database) : ResumeData :=
  {| id := DatabaseStorage.resumes_id_seq db;
     userId := or_number (in_userId data) 1;
     firstName := or_text (in_firstName data) None;
     lastName := or_text (in_lastName data) None;
     email := or_text (in_email data) None;
     phone := or_text (in_phone data) None;
     summary := or_text (in_summary data) None;
     website := or_text (in_website data) None;
     linkedin := or_text (in_linkedin data) None;
     education := or_json (in_education data) (JArray []);
     experience := or_json (in_experience data) (JArray []);
     skills := or_json (in_skills data) (JArray []);
     projects := or_json (in_projects data) (JArray []);
     templateStyle := or_text (in_templateStyle data) (Some "professional");
     colorScheme := or_text (in_colorScheme data) (Some "blue");
     targetRole := or_text (in_targetRole data) None;
     isAtsOptimized := or_false (in_isAtsOptimized data);
     atsScore := None;
     createdAt := Some {| getTime := now |};
     updatedAt := Some {| getTime := now |} |}.

(** The table with user 1 and no resume, and the table a create of [{}]
    at time 0 leaves from it. *)
Definition empty_table : DatabaseStorage.Database :=
  {| DatabaseStorage.users := {[ 1%Z ]};
     DatabaseStorage.resumes := ∅;
     DatabaseStorage.resumes_id_seq := 1 |}.

Definition one_row_table : DatabaseStorage.Database :=
  {| DatabaseStorage.users := {[ 1%Z ]};
     DatabaseStorage.resumes := {[ 1%Z := new_row 0 empty_payload empty_table ]};
     DatabaseStorage.resumes_id_seq := 2 |}.

End StorageInvariants.

(** ** server/routes.ts: the other routes *)

Module Api.
Import JS Storage Routes.

(** What a handler sends: nothing ([res.status(204).end()]) or a JSON
    body. *)
Inductive content : Type :=
| NoContent
| ErrorMessage (message : string)
| ErrorReport (message : string) (error : exn)
| ResumeBody (resume : ResumeData)
| OptimizedBody (optimizedText : string) (atsScore : Z)
| CoverLetterBody (coverLetter : string).

Record reply : Type := {
  code : Z;
  body_sent : content
}.

(** [{ userId, ...req.body }] with [userId = 1]. *)
Definition with_userId (req_body : PartialResumeData) : PartialResumeData :=
  {| in_id := in_id req_body;
     in_userId := Some (default 1%Z (in_userId req_body));
     in_firstName := in_firstName req_body; in_lastName := in_lastName req_body;
     in_email := in_email req_body; in_phone := in_phone req_body;
     in_summary := in_summary req_body; in_website := in_website req_body;
     in_linkedin := in_linkedin req_body;
     in_education := in_education req_body;
     in_experience := in_experience req_body;
     in_skills := in_skills req_body; in_projects := in_projects req_body;
     in_templateStyle := in_templateStyle req_body;
     in_colorScheme := in_colorScheme req_body;
     in_targetRole := in_targetRole req_body;
     in_isAtsOptimized := in_isAtsOptimized req_body;
     in_atsScore := in_atsScore req_body;
     in_createdAt := in_createdAt req_body;
     in_updatedAt := in_updatedAt req_body |}.

(** The handler of [app.post("/api/resumes")]: the reply and the storage
    that the call to [createResume] leaves. *)
Definition post_resumes {S : Type} `{IStorage S} (now : Z) (storage : S)
    (req_body : PartialResumeData) : result (reply * S) :=
  let '(created, storage') := createResume now (with_userId req_body) storage in
  try_catch
    (newResume ← created;
     Ok ({| code := 201; body_sent := ResumeBody newResume |}, storage'))
    (fun error =>
       Ok ({| code := 500;
              body_sent := ErrorReport "Failed to create resume" error |},
           storage')).

(** The handler of [app.put("/api/resumes/:id")].  Of the statements of
    its [try] block only the call to the storage can throw; the handler of
    the [catch] runs on the storage as that call left it. *)
Definition put_resume_by_id {S : Type} `{IStorage S} (now : Z) (storage : S)
    (req_params_id : string) (req_body : PartialResumeData)
  : result (reply * S) :=
  match parseInt req_params_id with
  | None =>
      Ok ({| code := 400; body_sent := ErrorMessage "Invalid resume ID" |},
          storage)
  | Some id =>
      let '(updated, storage') := updateResume now id req_body storage in
      try_catch
        (updatedResume ← updated;
         match updatedResume with
         | None =>
             Ok ({| code := 404;
                    body_sent := ErrorMessage "Resume not found" |},
                 storage')
         | Some updatedResume =>
             Ok ({| code := 200; body_sent := ResumeBody updatedResume |},
                 storage')
         end)
        (fun error =>
           Ok ({| code := 500;
                  body_sent := ErrorReport "Failed to update resume" error |},
               storage'))
  end.

(** The handler of [app.delete("/api/resumes/:id")], in the same way. *)
Definition delete_resume_by_id {S : Type} `{IStorage S} (storage : S)
    (req_params_id : string) : result (reply * S) :=
  match parseInt req_params_id with
  | None =>
      Ok ({| code := 400; body_sent := ErrorMessage "Invalid resume ID" |},
          storage)
  | Some id =>
      let '(deleted, storage') := deleteResume id storage in
      try_catch
        (success ← deleted;
         if (success : bool)
         then Ok ({| code := 204; body_sent := NoContent |}, storage')
         else Ok ({| code := 404;
                     body_sent := ErrorMessage "Resume not found" |},
                  storage'))
        (fun error =>
           Ok ({| code := 500;
                  body_sent := ErrorReport "Failed to delete resume" error |},
               storage'))
  end.

(** The bodies of the two generation routes: a property is missing
    ([None]) or holds whatever JSON value the client sent. *)
Record OptimizeRequest : Type := {
  opt_resumeText : option json;
  opt_targetRole : option json
}.

Record CoverLetterRequest : Type := {
  cl_resumeText : option json;
  cl_targetRole : option json;
  cl_companyName : option json
}.

(** The guard [!x || typeof x !== 'string'] fails for a non-empty string
    only, which it lets through. *)
Definition non_empty_string (x : option json) : option string :=
  match x with
  | Some (JString s) => if truthy s then Some s else None
  | _ => None
  end.

(** [ToString] of a value that [JSON.parse] built, which a template
    literal applies to what it interpolates.  A string is itself; an array
    is its elements joined with commas, [null] counting as the empty
    string; an object is "[object Object]" through the [toString] it
    inherits, unless it has a property [toString] of its own: no JSON value
    is callable, so the conversion then throws a [TypeError].
    [number_text] is [Number::toString]. *)
Section Untyped.
Variable number_text : Z -> string.

Fixpoint ToString (j : json) : result string :=
  match j with
  | JNull => Ok "null"
  | JBool true => Ok "true"
  | JBool false => Ok "false"
  | JNumber n => Ok (number_text n)
  | JString s => Ok s
  | JArray l =>
      (fix joined (l : list json) : result string :=
         match l with
         | [] => Ok ""
         | x :: rest =>
             first ← match x with JNull => Ok "" | _ => ToString x end;
             match rest with
             | [] => Ok first
             | _ :: _ => others ← joined rest; Ok (first +:+ "," +:+ others)
             end
         end) l
  | JObject m =>
      match m !! "toString" with
      | Some _ => Throw TypeError
      | None => Ok "[object Object]"
      end
  end.

(** [optimizeForATS] on the [targetRole] the handler passes on, which it
    has not looked at. *)
Definition optimizeForATS_any (resumeText : string) (targetRole : option json)
    (random : draw) : result Optimized :=
  roleSpecificText ←
    match targetRole with
    | Some role =>
        if truthy_json role then
          role ← ToString role;
          Ok (nl +:+ nl +:+ "[ATS Optimized for " +:+ role +:+ "]" +:+ nl
              +:+ "- Added " +:+ role +:+ "-specific keywords" +:+ nl
              +:+ "- Highlighted relevant skills for " +:+ role +:+ nl
              +:+ "- Reordered experience to emphasize " +:+ role
              +:+ " qualifications" +:+ nl
              +:+ "- Improved formatting for ATS systems")
        else
          Ok (nl +:+ nl +:+ "[ATS Optimized]" +:+ nl
              +:+ "- Added relevant keywords" +:+ nl
              +:+ "- Improved formatting" +:+ nl
              +:+ "- Enhanced readability for ATS systems")
    | None =>
        Ok (nl +:+ nl +:+ "[ATS Optimized]" +:+ nl
            +:+ "- Added relevant keywords" +:+ nl
            +:+ "- Improved formatting" +:+ nl
            +:+ "- Enhanced readability for ATS systems")
    end;
  let atsScore := (floor_times random 31 + 65)%Z in
  Ok {| optimizedText := resumeText +:+ roleSpecificText;
        atsScore := atsScore |}.

Definition greeting_any (companyName : option json) : result string :=
  match companyName with
  | Some c =>
      if truthy_json c
      then c ← ToString c; Ok ("Dear " +:+ c +:+ " Hiring Team,")
      else Ok "Dear Hiring Manager,"
  | None => Ok "Dear Hiring Manager,"
  end.

Definition closing_any (companyName : option json) : result string :=
  match companyName with
  | Some c =>
      if truthy_json c then
        c ← ToString c;
        Ok ("I am particularly drawn to " +:+ c +:+ " because of your reputation for innovation and excellence in the industry. I would welcome the opportunity to discuss how my qualifications align with your needs.")
      else
        Ok "I would welcome the opportunity to discuss how my qualifications align with your needs for this position."
  | None =>
      Ok "I would welcome the opportunity to discuss how my qualifications align with your needs for this position."
  end.

Definition generateCoverLetter_any (resumeText : string) (targetRole : string)
    (companyName : option json) : result string :=
  greeting ← greeting_any companyName;
  closing ← closing_any companyName;
  Ok (greeting +:+ nl +:+ nl
      +:+ introduction targetRole +:+ nl +:+ nl
      +:+ body +:+ nl +:+ nl
      +:+ closing +:+ nl +:+ nl
      +:+ thanks +:+ nl +:+ nl
      +:+ "Sincerely," +:+ nl
      +:+ "[Your Name]").

(** The handler of [app.post("/api/optimize-resume")]; [random] is the
    value [Math.random()] returns. *)
Definition post_optimize_resume (req_body : OptimizeRequest) (random : draw)
  : result reply :=
  try_catch
    (match non_empty_string (opt_resumeText req_body) with
     | None =>
         Ok {| code := 400; body_sent := ErrorMessage "Resume text is required" |}
     | Some resumeText =>
         result ←
           optimizeForATS_any resumeText (opt_targetRole req_body) random;
         Ok {| code := 200;
               body_sent := OptimizedBody (optimizedText result)
                                          (atsScore result) |}
     end)
    (fun error =>
       Ok {| code := 500;
             body_sent := ErrorReport "Failed to optimize resume" error |}).

(** The handler of [app.post("/api/generate-cover-letter")]. *)
Definition post_generate_cover_letter (req_body : CoverLetterRequest)
  : result reply :=
  try_catch
    (match non_empty_string (cl_resumeText req_body) with
     | None =>
         Ok {| code := 400; body_sent := ErrorMessage "Resume text is required" |}
     | Some resumeText =>
         match non_empty_string (cl_targetRole req_body) with
         | None =>
             Ok {| code := 400;
                   body_sent := ErrorMessage "Target role is required" |}
         | Some targetRole =>
             coverLetter ←
               generateCoverLetter_any resumeText targetRole
                 (cl_companyName req_body);
             Ok {| code := 200; body_sent := CoverLetterBody coverLetter |}
         end
     end)
    (fun error =>
       Ok {| code := 500;
             body_sent := ErrorReport "Failed to generate cover letter" error |}).

End Untyped.

End Api.

(** ** SkillsForm.tsx: the skill list *)

Module SkillsForm.
Import JS Routes Forms.

(** [String.prototype.trim] removes, at both ends, the white space
    [parseInt] skips. *)
Fixpoint trim_end (s : string) : string :=
  match s with
  | EmptyString => EmptyString
  | String c rest =>
      match trim_end rest with
      | EmptyString =>
          if is_white_space c then EmptyString else String c EmptyString
      | String c' rest' => String c (String c' rest')
      end
  end.

Definition trim (s : string) : string := trim_end (trim_start s).

(** The state of the component: [skills] and [skillInput]. *)
Record SkillsState : Type := {
  skills : list string;
  skillInput : string
}.

(** A handler returns the new state and the list it hands to
    [onSaveSkills], if it calls it. *)
Definition handleAddSkill (skill : string) (st : SkillsState)
  : SkillsState * option (list string) :=
  if String.eqb (trim skill) "" then (st, None)
  else
    let newSkills := skills st ++ [trim skill] in
    ({| skills := newSkills; skillInput := "" |}, Some newSkills).

(** [handleRemoveSkill] on the state of the component. *)
Definition removeSkill (index : nat) (st : SkillsState)
  : SkillsState * option (list string) :=
  let newSkills := handleRemoveSkill index (skills st) in
  ({| skills := newSkills; skillInput := skillInput st |}, Some newSkills).

(** [handleKeyDown] on the key of the event. *)
Definition handleKeyDown (key : string) (st : SkillsState)
  : SkillsState * option (list string) :=
  if String.eqb key "Enter" then handleAddSkill (skillInput st) st
  else (st, None).

(** A skill as the form stores it: not empty, no white space at its ends. *)
Definition tidy (s : string) : Prop := s <> "" /\ trim s = s.

(** A text that does not start with white space. *)
Definition headed (s : string) : Prop :=
  match s with
  | EmptyString => True
  | String c _ => is_white_space c = false
  end.

End SkillsForm.

(** ** client/src/lib/resumeService.ts: the optimisation request *)

Module ResumeServiceClient.
Import JS Routes.

(** The JSON a reply to [POST /api/optimize-resume] carries, as
    [response.json()] returns it. *)
Record OptimizeData : Type := {
  data_optimizedText : string;
  data_atsScore : option Z
}.

(** [optimizeResumeForATS] from the parsed reply on; [random] is the value
    [Math.random()] returns if it is called. *)
Definition optimizeResumeForATS (data : OptimizeData) (random : draw)
  : Optimized :=
  let atsScore :=
    match data_atsScore data with
    | Some score =>
        if (score =? 0)%Z then (floor_times random 31 + 65)%Z else score
    | None => (floor_times random 31 + 65)%Z
    end in
  {| optimizedText := data_optimizedText data; atsScore := atsScore |}.

End ResumeServiceClient.

(* ================================================================== *)
(** * Part II: theorems                                                *)
(* ================================================================== *)

(** Runs through the conjuncts of a statement about the fields of a record. *)
Ltac fieldwise :=
  repeat split; simpl; intros;
  repeat match goal with
         | E : _ = Some _ |- _ => rewrite E
         | E : _ = None |- _ => rewrite E
         end;
  try reflexivity.

(** ** The local draft store *)

Section LocalDraftStore.
Import JS Schema LocalStorage.

Lemma bind_Ok {A B : Type} (a : A) (k : A -> result B) :
  (x ← Ok a; k x) = k a.
Proof. reflexivity. Qed.

(** A load never throws: every path of the [try] block that fails ends in
    the handler, which returns the default draft. *)
Lemma getResumeFromLocalStorage_total (ls : localStorage) :
  exists d, getResumeFromLocalStorage ls = Ok d.
Proof.
  unfold getResumeFromLocalStorage.
  destruct ls as [|m]; simpl; [eauto|].
  destruct (m !! STORAGE_KEY) as [[d|s]|]; simpl; eauto.
  destruct (negb (truthy s)); simpl; eauto.
Qed.

Lemma load_never_written (ls : localStorage) :
  never_written ls -> getResumeFromLocalStorage ls = Ok defaultData.
Proof.
  unfold never_written, getResumeFromLocalStorage.
  intros ->. reflexivity.
Qed.

(** Reading back what [JSON.stringify] wrote gives the draft that was
    written, as long as its [targetRole] is not [undefined]. *)
Lemma load_after_store (m : gmap string text) (v : SavedResumeData) :
  s_targetRole v <> None ->
  getResumeFromLocalStorage (Items (<[STORAGE_KEY := JSON_stringify v]> m)) = Ok v.
Proof.
  intros Hrole. unfold getResumeFromLocalStorage. simpl getItem.
  rewrite lookup_insert_eq. simpl.
  destruct v as [pi ed ex sk pr ts cs ao tr lu]; simpl in *.
  unfold spread_over; simpl.
  destruct tr as [r|]; [reflexivity | congruence].
Qed.

(** One save on a readable store, when the browser accepts the write,
    writes the current draft with the partial draft laid over it, stamped
    with the time of the save. *)
Lemma save_writes_merge (m : gmap string text) (now : Z) (data : PartialResume)
    (cur : SavedResumeData) :
  getResumeFromLocalStorage (Items m) = Ok cur ->
  saveResumeToLocalStorage now true data (Items m)
  = Ok (Items (<[STORAGE_KEY :=
                   JSON_stringify (stamped now (merge_non_empty data cur))]> m)).
Proof.
  intros Hcur. unfold saveResumeToLocalStorage. rewrite Hcur.
  rewrite bind_Ok. simpl setItem. do 3 f_equal.
Qed.

(** A save on a readable store throws when the browser refuses the write. *)
Lemma save_refused (m : gmap string text) (now : Z) (data : PartialResume) :
  saveResumeToLocalStorage now false data (Items m) = Throw QuotaExceededError.
Proof.
  unfold saveResumeToLocalStorage.
  destruct (getResumeFromLocalStorage_total (Items m)) as [cur ->].
  reflexivity.
Qed.

Lemma merged_targetRole_defined (now : Z) (data : PartialResume)
    (cur : SavedResumeData) :
  s_targetRole cur <> None ->
  s_targetRole (stamped now (merge_non_empty data cur)) <> None.
Proof.
  simpl. unfold layer_string_opt.
  destruct (p_targetRole data) as [s|]; [destruct (truthy s)|]; congruence.
Qed.

(** C1 (as amended).  On a store never written, when the browser accepts
    both writes, after [save(D1)] then [save(D2)] a load returns D2 merged
    over D1 merged over the default draft and stamped with the time of the
    second save: of [personalInfo] every property that the partial's object
    carries replaces the stored one (the empty string included, and a
    property carried as [undefined] erases it), a present array or boolean
    replaces the stored one (the empty array and [false] included), a
    top-level string replaces the stored one when it is present and not
    empty, and what is absent keeps the prior value.  When the browser
    refuses a write the save throws. *)
Theorem save_twice_then_load (ls : localStorage) (t1 t2 : Z)
    (D1 D2 : PartialResume) :
  never_written ls ->
  save_save_load t1 true D1 t2 true D2 ls
  = Ok (stamped t2 (merge_non_empty D2 (merge_non_empty D1 defaultData))) /\
  save_save_load t1 true D1 t2 false D2 ls = Throw QuotaExceededError /\
  (forall fits2,
     save_save_load t1 false D1 t2 fits2 D2 ls = Throw QuotaExceededError).
Proof.
  intros Hfresh. unfold save_save_load.
  pose proof (load_never_written ls Hfresh) as Hload.
  destruct ls as [|m]; [discriminate|].
  assert (Hrole1 : s_targetRole (stamped t1 (merge_non_empty D1 defaultData))
                   <> None)
    by (apply merged_targetRole_defined; discriminate).
  split; [|split].
  - rewrite (save_writes_merge m t1 D1 defaultData Hload), bind_Ok.
    rewrite (save_writes_merge _ t2 D2 _ (load_after_store m _ Hrole1)), bind_Ok.
    rewrite insert_insert_eq.
    rewrite load_after_store by (apply merged_targetRole_defined, Hrole1).
    reflexivity.
  - rewrite (save_writes_merge m t1 D1 defaultData Hload), bind_Ok.
    rewrite save_refused. reflexivity.
  - intros fits2. rewrite save_refused. reflexivity.
Qed.

Lemma save_twice_then_load_witness :
  save_save_load 1 true
    {| p_personalInfo :=
         Some {| o_firstName := "Ana"; o_lastName := "Diaz";
                 o_email := "ana@example.org"; o_phone := Some (Some "555");
                 o_summary := None; o_website := None; o_linkedin := None |};
       p_education := Some [];
       p_experience := None; p_skills := Some ["Rocq"];
       p_projects := None; p_templateStyle := Some "modern";
       p_colorScheme := None; p_isAtsOptimized := Some false;
       p_targetRole := Some "Nurse"; p_atsScore := None |}
    2 true
    {| p_personalInfo :=
         Some {| o_firstName := "Ana"; o_lastName := "Diaz";
                 o_email := "ana@example.org"; o_phone := Some None;
                 o_summary := Some (Some ""); o_website := None;
                 o_linkedin := None |};
       p_education := None;
       p_experience := None; p_skills := Some [];
       p_projects := None; p_templateStyle := Some "";
       p_colorScheme := None; p_isAtsOptimized := None;
       p_targetRole := None; p_atsScore := None |}
    (Items ∅)
  = Ok {| s_personalInfo :=
            {| firstName := "Ana"; lastName := "Diaz";
               email := "ana@example.org"; phone := None;
               summary := Some ""; website := Some "";
               linkedin := Some "" |};
          s_education := []; s_experience := []; s_skills := [];
          s_projects := []; s_templateStyle := "modern";
          s_colorScheme := "blue"; s_isAtsOptimized := false;
          s_targetRole := Some "Nurse"; s_lastUpdated := 2 |}.
Proof.
  apply (save_twice_then_load (Items ∅)). reflexivity.
Defined.

(** C1 (as stated) fails: a saved [targetRole] of "Nurse" followed by a save
    whose [targetRole] is the empty string leaves "Nurse" in the store,
    where the merge of the specification puts the empty string. *)
Lemma empty_string_does_not_replace :
  let D1 := {| p_personalInfo := None; p_education := None;
               p_experience := None; p_skills := None; p_projects := None;
               p_templateStyle := None; p_colorScheme := None;
               p_isAtsOptimized := None; p_targetRole := Some "Nurse";
               p_atsScore := None |} in
  let D2 := {| p_personalInfo := None; p_education := None;
               p_experience := None; p_skills := None; p_projects := None;
               p_templateStyle := None; p_colorScheme := None;
               p_isAtsOptimized := None; p_targetRole := Some "";
               p_atsScore := None |} in
  never_written (Items ∅) /\
  (exists d, save_save_load 1 true D1 2 true D2 (Items ∅) = Ok d /\
             s_targetRole d = Some "Nurse") /\
  s_targetRole (stamped 2 (merge_as_specified D2
                             (merge_as_specified D1 defaultData))) = Some "" /\
  save_save_load 1 true D1 2 true D2 (Items ∅)
  <> Ok (stamped 2 (merge_as_specified D2 (merge_as_specified D1 defaultData))).
Proof.
  intros D1 D2. repeat split.
  - eexists. split; vm_compute; reflexivity.
  - vm_compute. intros Heq. inversion Heq.
Qed.

Lemma load_unreadable (ls : localStorage) :
  corrupted ls -> getResumeFromLocalStorage ls = Ok defaultData.
Proof.
  unfold corrupted, getResumeFromLocalStorage.
  intros [[e He] | (t & e & Hget & Hparse)].
  - rewrite He. reflexivity.
  - rewrite Hget. simpl.
    destruct (is_empty_text t); [reflexivity|].
    rewrite Hparse. reflexivity.
Qed.

(** C2.  When the stored value cannot be read or parsed, a load returns the
    default draft, and it does not throw: the failure stays inside. *)
Theorem load_corrupted_gives_default (ls : localStorage) :
  corrupted ls ->
  getResumeFromLocalStorage ls = Ok defaultData /\
  (forall e, getResumeFromLocalStorage ls <> Throw e).
Proof.
  intros Hbad. rewrite (load_unreadable ls Hbad).
  split; [reflexivity | discriminate].
Qed.

Lemma load_corrupted_gives_default_witness :
  getResumeFromLocalStorage
    (Items {[ STORAGE_KEY := Malformed "{personalInfo: oops" ]})
  = Ok defaultData
  /\ getResumeFromLocalStorage Blocked = Ok defaultData.
Proof.
  split.
  - apply (load_corrupted_gives_default
             (Items {[ STORAGE_KEY := Malformed "{personalInfo: oops" ]})).
    right. exists (Malformed "{personalInfo: oops"), SyntaxError.
    split; reflexivity.
  - apply (load_corrupted_gives_default Blocked). left.
    exists SecurityError. reflexivity.
Defined.

(** C10.  The default draft, which a load returns on a store never written
    or corrupted and with which the builder starts, has [isAtsOptimized]
    set: the state the builder shows for such a store is flagged as
    optimised although nothing was ever optimised. *)
Theorem default_draft_is_flagged_optimized (ls : localStorage) :
  never_written ls \/ corrupted ls ->
  getResumeFromLocalStorage ls = Ok defaultData /\
  s_isAtsOptimized defaultData = true /\
  isAtsOptimized Builder.initialResumeData = Some true /\
  isAtsOptimized (Builder.hydrate defaultData) = Some true /\
  atsScore (Builder.hydrate defaultData) = None.
Proof.
  intros Hls. split; [|repeat split].
  destruct Hls as [Hfresh | Hbad].
  - apply load_never_written, Hfresh.
  - apply load_unreadable, Hbad.
Qed.

Lemma default_draft_is_flagged_optimized_witness :
  getResumeFromLocalStorage (Items ∅) = Ok defaultData /\
  s_isAtsOptimized defaultData = true /\
  isAtsOptimized Builder.initialResumeData = Some true /\
  isAtsOptimized (Builder.hydrate defaultData) = Some true /\
  atsScore (Builder.hydrate defaultData) = None.
Proof.
  apply (default_draft_is_flagged_optimized (Items ∅)).
  left. reflexivity.
Defined.

End LocalDraftStore.

(** ** The text projection *)

Section TextProjection.
Import JS Schema ResumeService.

Lemma append_cons (x : ascii) (a b : string) :
  String x a +:+ b = String x (a +:+ b).
Proof. reflexivity. Qed.

Lemma append_empty_l (a : string) : "" +:+ a = a.
Proof. reflexivity. Qed.

Lemma append_assoc (a b c : string) : (a +:+ b) +:+ c = a +:+ (b +:+ c).
Proof.
  induction a as [|x a IH]; [reflexivity|].
  rewrite !append_cons, IH. reflexivity.
Qed.

Lemma append_empty_r (a : string) : a +:+ "" = a.
Proof.
  induction a as [|x a IH]; [reflexivity|].
  rewrite append_cons, IH. reflexivity.
Qed.

(** A loop whose body appends to [text] appends the entries in order. *)
Lemma fold_left_appends {A : Type} (step : string -> A -> string) (l : list A) :
  (forall text x, step text x = text +:+ step "" x) ->
  forall text, fold_left step l text = text +:+ concat_all (map (step "") l).
Proof.
  intros Hstep. induction l as [|x l IH]; intros text; simpl.
  - by rewrite append_empty_r.
  - rewrite IH, Hstep, append_assoc. reflexivity.
Qed.

Lemma experience_step_appends (text : string) (exp : ExperienceItem) :
  experience_step text exp = text +:+ experience_step "" exp.
Proof. unfold experience_step. simpl. by rewrite !append_assoc. Qed.

Lemma education_step_appends (text : string) (edu : EducationItem) :
  education_step text edu = text +:+ education_step "" edu.
Proof. unfold education_step. simpl. by rewrite !append_assoc. Qed.

Lemma project_step_appends (text : string) (project : ProjectItem) :
  project_step text project = text +:+ project_step "" project.
Proof.
  unfold project_step.
  destruct (url project) as [u|]; [destruct (truthy u)|];
    simpl; by rewrite !append_assoc.
Qed.

Lemma length_positive {A : Type} (l : list A) :
  (0 <? length l)%nat = match l with [] => false | _ :: _ => true end.
Proof. destruct l; reflexivity. Qed.

Lemma header_spec (p : PersonalInfo) :
  let text := firstName p +:+ " " +:+ lastName p +:+ nl in
  let text := text +:+ (email p +:+ " | " +:+ or_string (phone p) "" +:+ nl) in
  let text :=
    match website p with
    | Some w => if truthy w then text +:+ ("Website: " +:+ w +:+ nl) else text
    | None => text
    end in
  let text :=
    match linkedin p with
    | Some l => if truthy l then text +:+ ("LinkedIn: " +:+ l +:+ nl) else text
    | None => text
    end in
  let text := text +:+ (nl +:+ "SUMMARY" +:+ nl) in
  text +:+ (or_string (summary p) "" +:+ nl +:+ nl) = header p.
Proof.
  unfold header, truthy_opt, or_string.
  destruct (website p) as [w|]; [destruct (truthy w)|];
    (destruct (linkedin p) as [l|]; [destruct (truthy l)|]);
    cbv zeta; rewrite ?append_empty_l, ?append_assoc; reflexivity.
Qed.

(** The layout of the projection: the header, then the four sections in a
    fixed order, each one empty when its list is. *)
Lemma resumeToText_layout (d : Resume) :
  resumeToText d
  = header (personalInfo d)
    +:+ section "EXPERIENCE" (map experience_entry (experience d))
    +:+ section "EDUCATION" (map education_entry (education d))
    +:+ section "SKILLS" (skills_entries (skills d))
    +:+ section "PROJECTS" (map project_entry (projects d)).
Proof.
  unfold resumeToText. cbv zeta.
  pose proof (header_spec (personalInfo d)) as Hhead. cbv zeta in Hhead.
  rewrite Hhead. clear Hhead.
  rewrite !length_positive.
  rewrite !(fold_left_appends _ _ experience_step_appends),
          !(fold_left_appends _ _ education_step_appends),
          !(fold_left_appends _ _ project_step_appends).
  unfold section, skills_entries, experience_entry, education_entry,
         project_entry, concat_all.
  destruct (experience d), (education d), (skills d), (projects d);
    cbn [map fold_right];
    rewrite ?append_empty_l, ?append_empty_r, ?append_assoc; reflexivity.
Qed.

Lemma or_string_empty (a : option string) : or_string a "" = default "" a.
Proof.
  destruct a as [s|]; [|reflexivity]. simpl. unfold truthy.
  destruct (String.eqb_spec s ""); simpl; congruence.
Qed.

Lemma mentions_cons (w : string) (c : ascii) (s : string) :
  mentions w s -> mentions w (String c s).
Proof. intros (b & a & ->). exists (String c b), a. reflexivity. Qed.

(** A word that starts a text which continues past a character foreign to
    the word ends before that character. *)
Lemma prefix_before_separator (w a b after : string) (c : ascii) :
  occurs_in c w = false ->
  w +:+ after = a +:+ String c b ->
  exists after', a = w +:+ after'.
Proof.
  revert a. induction w as [|y w IH]; intros a Hc Heq.
  - exists a. reflexivity.
  - simpl in Hc. apply orb_false_iff in Hc as [Hy Hw].
    destruct a as [|x a].
    + rewrite (append_cons y w), append_empty_l in Heq. injection Heq as -> _.
      rewrite Ascii.eqb_refl in Hy. discriminate.
    + rewrite (append_cons y w), (append_cons x a) in Heq.
      injection Heq as -> Heq.
      destruct (IH a Hw Heq) as [after' ->].
      exists after'. reflexivity.
Qed.

Lemma mentions_split (w a b : string) (c : ascii) :
  occurs_in c w = false ->
  mentions w (a +:+ String c b) -> mentions w a \/ mentions w b.
Proof.
  intros Hc. induction a as [|x a IH]; intros (before & after & Heq).
  - rewrite append_empty_l in Heq. destruct before as [|x before].
    + rewrite append_empty_l in Heq. destruct w as [|y w].
      * left. exists "", "". reflexivity.
      * rewrite (append_cons y w) in Heq. injection Heq as -> _.
        simpl in Hc. rewrite Ascii.eqb_refl in Hc. discriminate.
    + rewrite (append_cons x before) in Heq. injection Heq as _ ->.
      right. exists before, after. reflexivity.
  - rewrite (append_cons x a) in Heq. destruct before as [|x' before].
    + rewrite append_empty_l in Heq.
      destruct (prefix_before_separator w (String x a) b after c Hc) as [after' Ha].
      { symmetry. exact Heq. }
      left. exists "", after'. rewrite append_empty_l. exact Ha.
    + rewrite (append_cons x' before) in Heq. injection Heq as _ Heq.
      destruct IH as [Ha | Hb].
      * exists before, after. exact Heq.
      * left. apply mentions_cons, Ha.
      * right. exact Hb.
Qed.

(** The three steps of a walk along a text. *)
Lemma no_mention_empty (w : string) : w <> "" -> ~ mentions w "".
Proof.
  intros Hw (before & after & Heq).
  destruct before as [|x before].
  - destruct w as [|y w]; [congruence|].
    rewrite append_empty_l, (append_cons y w) in Heq. discriminate Heq.
  - rewrite (append_cons x before) in Heq. discriminate Heq.
Qed.

Lemma no_mention_cons (w : string) (c : ascii) (s : string) :
  String.prefix w (String c s) = false ->
  ~ mentions w s -> ~ mentions w (String c s).
Proof.
  intros Hp Hs (before & after & Heq). destruct before as [|x before].
  - rewrite append_empty_l in Heq. rewrite Heq in Hp.
    clear -Hp. revert Hp. generalize after. clear.
    induction w as [|y w IH]; intros after; [intros Hp; destruct after; discriminate Hp|].
    rewrite (append_cons y w). simpl.
    destruct (ascii_dec y y) as [_|]; [apply IH | congruence].
  - rewrite (append_cons x before) in Heq. injection Heq as _ ->.
    apply Hs. exists before, after. reflexivity.
Qed.

Lemma no_mention_field (w x s : string) (c : ascii) :
  occurs_in c w = false ->
  ~ mentions w x -> ~ mentions w (String c s) ->
  ~ mentions w (x +:+ String c s).
Proof.
  intros Hc Hx Hs Hm. apply mentions_split in Hm as [Hm | Hm]; [| |exact Hc].
  - exact (Hx Hm).
  - apply Hs, mentions_cons, Hm.
Qed.

End TextProjection.

(** Tactics for a walk along a text whose literals are spelled out. *)
Ltac walk :=
  repeat match goal with
         | H : ~ ResumeService.mentions ?w ?t |- ~ ResumeService.mentions ?w ?t => exact H
         | |- ~ ResumeService.mentions _ "" => apply no_mention_empty; discriminate
         | |- ~ ResumeService.mentions _ (String _ _) =>
             apply no_mention_cons; [reflexivity|]
         | |- ~ ResumeService.mentions _ (_ +:+ String _ _) =>
             apply no_mention_field; [reflexivity | assumption |]
         end.

Ltac flatten_text := rewrite ?append_assoc; unfold JS.nl; cbn [String.append].

Ltac each_heading H :=
  unfold ResumeService.headings in H;
  repeat (apply elem_of_cons in H as [-> | H]);
  [ | | | | apply elem_of_nil in H; destruct H].

Ltac unpack_texts H :=
  repeat (apply Forall_cons_1 in H as [? H]); clear H.

Section TextProjectionHeadings.
Import JS Schema ResumeService.
Local Arguments String.append !_ _ / : simpl nomatch.

Lemma entries_free {A : Type} (entry : A -> string) (texts : A -> list string)
    (w : string) (l : list A) (rest : string) :
  (forall x rest', Forall (fun s => ~ mentions w s) (texts x) ->
                   ~ mentions w rest' -> ~ mentions w (entry x +:+ rest')) ->
  Forall (fun s => ~ mentions w s) (flat_map texts l) ->
  ~ mentions w rest ->
  ~ mentions w (concat_all (map entry l) +:+ rest).
Proof.
  intros Hentry Hl Hrest. induction l as [|x l IH].
  - exact Hrest.
  - cbn [flat_map] in Hl. apply Forall_app in Hl as [Hx Hl].
    cbn [map concat_all fold_right]. rewrite append_assoc.
    apply Hentry; [exact Hx | apply IH, Hl].
Qed.

Lemma experience_entry_free (w : string) (exp : ExperienceItem) (rest : string) :
  w ∈ headings ->
  Forall (fun s => ~ mentions w s) (experience_texts exp) ->
  ~ mentions w rest -> ~ mentions w (experience_entry exp +:+ rest).
Proof.
  intros Hw Htexts Hrest. unfold experience_texts in Htexts.
  unpack_texts Htexts.
  unfold experience_entry, experience_step. rewrite !or_string_empty.
  destruct (truthy_bool (exp_current exp));
    each_heading Hw; flatten_text; walk.
Qed.

Lemma education_entry_free (w : string) (edu : EducationItem) (rest : string) :
  w ∈ headings ->
  Forall (fun s => ~ mentions w s) (education_texts edu) ->
  ~ mentions w rest -> ~ mentions w (education_entry edu +:+ rest).
Proof.
  intros Hw Htexts Hrest. unfold education_texts in Htexts.
  unpack_texts Htexts.
  unfold education_entry, education_step. rewrite !or_string_empty.
  destruct (truthy_bool (edu_current edu));
    each_heading Hw; flatten_text; walk.
Qed.

Lemma project_entry_free (w : string) (project : ProjectItem) (rest : string) :
  w ∈ headings ->
  Forall (fun s => ~ mentions w s) (project_texts project) ->
  ~ mentions w rest -> ~ mentions w (project_entry project +:+ rest).
Proof.
  intros Hw Htexts Hrest. unfold project_texts in Htexts.
  unpack_texts Htexts.
  unfold project_entry, project_step. rewrite !or_string_empty.
  destruct (url project) as [u|]; [destruct (truthy u)|];
    cbn [default] in *; each_heading Hw; flatten_text; walk.
Qed.

Lemma join_free (w : string) (l : list string) (c : ascii) (rest : string) :
  w ∈ headings ->
  Forall (fun s => ~ mentions w s) l ->
  occurs_in c w = false ->
  ~ mentions w (String c rest) ->
  ~ mentions w (join ", " l +:+ String c rest).
Proof.
  intros Hw Hl Hc Hrest. induction l as [|s l IH]; [exact Hrest|].
  apply Forall_cons_1 in Hl as [Hs Hl]. specialize (IH Hl).
  destruct l as [|s' l].
  - apply no_mention_field; assumption.
  - change (join ", " (s :: s' :: l))
      with (s +:+ ", " +:+ join ", " (s' :: l)).
    revert IH. generalize (join ", " (s' :: l)). intros j IH.
    each_heading Hw; flatten_text; walk.
Qed.

Lemma header_free (w : string) (p : PersonalInfo) (rest : string) :
  w ∈ headings ->
  Forall (fun s => ~ mentions w s) (personal_texts p) ->
  ~ mentions w rest -> ~ mentions w (header p +:+ rest).
Proof.
  intros Hw Htexts Hrest. unfold personal_texts in Htexts.
  unpack_texts Htexts.
  unfold header, truthy_opt. rewrite !or_string_empty.
  destruct (website p) as [ws|]; [destruct (truthy ws)|];
    (destruct (linkedin p) as [li|]; [destruct (truthy li)|]);
    cbn [default] in *; each_heading Hw; flatten_text; walk.
Qed.

(** A section whose heading is another word, or whose list is empty. *)
Lemma section_free {A : Type} (entry : A -> string) (texts : A -> list string)
    (w h : string) (l : list A) (rest : string) :
  w ∈ headings -> h ∈ headings -> w <> h \/ l = [] ->
  (forall x rest', Forall (fun s => ~ mentions w s) (texts x) ->
                   ~ mentions w rest' -> ~ mentions w (entry x +:+ rest')) ->
  Forall (fun s => ~ mentions w s) (flat_map texts l) ->
  ~ mentions w rest ->
  ~ mentions w (section h (map entry l) +:+ rest).
Proof.
  intros Hw Hh Hother Hentry Hl Hrest.
  destruct l as [|x l]; [exact Hrest|].
  destruct Hother as [Hne|]; [|discriminate].
  pose proof (entries_free entry texts w (x :: l) rest Hentry Hl Hrest) as Hbody.
  unfold section. cbn [map]. cbn [map] in Hbody.
  revert Hbody. generalize (concat_all (entry x :: map entry l)). intros body Hbody.
  each_heading Hw; each_heading Hh; try congruence; flatten_text; walk.
Qed.

Lemma skills_section_free (w : string) (l : list string) (rest : string) :
  w ∈ headings -> w <> "SKILLS" \/ l = [] ->
  Forall (fun s => ~ mentions w s) l ->
  ~ mentions w rest ->
  ~ mentions w (section "SKILLS" (skills_entries l) +:+ rest).
Proof.
  intros Hw Hother Hl Hrest.
  destruct l as [|s l]; [exact Hrest|].
  destruct Hother as [Hne|]; [|discriminate].
  unfold section, skills_entries, concat_all. cbn [fold_right].
  assert (Hjoin : ~ mentions w (join ", " (s :: l) +:+ String (ascii_of_nat 10)
                                  (String (ascii_of_nat 10) rest))).
  { apply join_free; [exact Hw | exact Hl | |].
    - each_heading Hw; reflexivity.
    - each_heading Hw; walk. }
  revert Hjoin. generalize (join ", " (s :: l)). intros j Hjoin.
  each_heading Hw; try congruence; flatten_text; walk.
Qed.

Lemma heading_absent (d : Resume) (w : string) :
  w ∈ headings -> free_of w d ->
  (w = "EXPERIENCE" -> experience d = []) ->
  (w = "EDUCATION" -> education d = []) ->
  (w = "SKILLS" -> skills d = []) ->
  (w = "PROJECTS" -> projects d = []) ->
  ~ mentions w (resumeToText d).
Proof.
  intros Hw Hfree Hexp Hedu Hskills Hprj.
  unfold free_of, user_texts in Hfree.
  apply Forall_app in Hfree as [Hp Hfree].
  apply Forall_app in Hfree as [Hx Hfree].
  apply Forall_app in Hfree as [He Hfree].
  apply Forall_app in Hfree as [Hs Hj].
  rewrite resumeToText_layout.
  rewrite <- (append_empty_r (section "PROJECTS" _)).
  apply header_free; [exact Hw | exact Hp |].
  apply (section_free experience_entry experience_texts);
    [exact Hw | unfold headings; repeat constructor | | | exact Hx |].
  { destruct (decide (w = "EXPERIENCE")); [right | left]; auto. }
  { intros x rest'. apply experience_entry_free, Hw. }
  apply (section_free education_entry education_texts);
    [exact Hw | unfold headings; repeat constructor | | | exact He |].
  { destruct (decide (w = "EDUCATION")); [right | left]; auto. }
  { intros x rest'. apply education_entry_free, Hw. }
  apply skills_section_free; [exact Hw | | exact Hs |].
  { destruct (decide (w = "SKILLS")); [right | left]; auto. }
  apply (section_free project_entry project_texts);
    [exact Hw | unfold headings; repeat constructor | | | exact Hj |].
  { destruct (decide (w = "PROJECTS")); [right | left]; auto. }
  { intros x rest'. apply project_entry_free, Hw. }
  apply no_mention_empty. each_heading Hw; discriminate.
Qed.

Lemma section_starts (h : string) (entries : list string) :
  entries <> [] -> starts_with (h +:+ nl) (section h entries).
Proof.
  destruct entries as [|e entries]; [congruence|]. intros _.
  exists (concat_all (e :: entries)). unfold section.
  rewrite append_assoc. reflexivity.
Qed.

Lemma mentions_middle (w before s after : string) :
  starts_with w s -> mentions w (before +:+ s +:+ after).
Proof.
  intros [rest ->]. exists before, (rest +:+ after).
  rewrite !append_assoc. reflexivity.
Qed.

Lemma map_not_nil {A B : Type} (f : A -> B) (l : list A) :
  l <> [] -> map f l <> [].
Proof. destruct l; [congruence | discriminate]. Qed.

(** C3.  The projection is a function of the draft: equal drafts give the
    same text.  Its text is the header followed by the EXPERIENCE,
    EDUCATION, SKILLS and PROJECTS sections; the section of an empty list
    is the empty text, and then the text does not contain the heading
    (unless the user typed the word: the draft's own strings are free of
    it); the section of a list that is not empty puts its heading, on a
    line of its own, in the text. *)
Theorem text_projection_sections (d : Resume) :
  (forall d', d = d' -> resumeToText d = resumeToText d') /\
  resumeToText d
  = header (personalInfo d)
    +:+ section "EXPERIENCE" (map experience_entry (experience d))
    +:+ section "EDUCATION" (map education_entry (education d))
    +:+ section "SKILLS" (skills_entries (skills d))
    +:+ section "PROJECTS" (map project_entry (projects d)) /\
  (experience d = [] ->
   section "EXPERIENCE" (map experience_entry (experience d)) = "" /\
   (free_of "EXPERIENCE" d -> ~ mentions "EXPERIENCE" (resumeToText d))) /\
  (education d = [] ->
   section "EDUCATION" (map education_entry (education d)) = "" /\
   (free_of "EDUCATION" d -> ~ mentions "EDUCATION" (resumeToText d))) /\
  (skills d = [] ->
   section "SKILLS" (skills_entries (skills d)) = "" /\
   (free_of "SKILLS" d -> ~ mentions "SKILLS" (resumeToText d))) /\
  (projects d = [] ->
   section "PROJECTS" (map project_entry (projects d)) = "" /\
   (free_of "PROJECTS" d -> ~ mentions "PROJECTS" (resumeToText d))) /\
  (experience d <> [] -> mentions ("EXPERIENCE" +:+ nl) (resumeToText d)) /\
  (education d <> [] -> mentions ("EDUCATION" +:+ nl) (resumeToText d)) /\
  (skills d <> [] -> mentions ("SKILLS" +:+ nl) (resumeToText d)) /\
  (projects d <> [] -> mentions ("PROJECTS" +:+ nl) (resumeToText d)).
Proof.
  split; [intros d' <-; reflexivity|].
  split; [apply resumeToText_layout|].
  split; [|split; [|split; [|split]]].
  - intros Hnone. split; [rewrite Hnone; reflexivity|].
    intros Hfree. apply heading_absent;
      [unfold headings; repeat constructor | exact Hfree | auto | discriminate..].
  - intros Hnone. split; [rewrite Hnone; reflexivity|].
    intros Hfree. apply heading_absent;
      [unfold headings; repeat constructor | exact Hfree | discriminate | auto | discriminate..].
  - intros Hnone. split; [rewrite Hnone; reflexivity|].
    intros Hfree. apply heading_absent;
      [unfold headings; repeat constructor | exact Hfree | discriminate.. | auto | discriminate].
  - intros Hnone. split; [rewrite Hnone; reflexivity|].
    intros Hfree. apply heading_absent;
      [unfold headings; repeat constructor | exact Hfree | discriminate.. | auto].
  - rewrite resumeToText_layout. repeat split; intros Hsome.
    + apply mentions_middle, section_starts, map_not_nil, Hsome.
    + rewrite <- (append_assoc (header _)).
      apply mentions_middle, section_starts, map_not_nil, Hsome.
    + rewrite <- (append_assoc (header _)), <- (append_assoc (_ +:+ _)).
      apply mentions_middle, section_starts.
      destruct (skills d); [congruence | discriminate].
    + rewrite <- (append_assoc (header _)), <- (append_assoc (_ +:+ _)),
              <- (append_assoc (_ +:+ _)).
      rewrite <- (append_empty_r (section "PROJECTS" _)).
      apply mentions_middle, section_starts, map_not_nil, Hsome.
Qed.

Lemma text_projection_sections_witness :
  ~ mentions "EXPERIENCE" (resumeToText ana) /\
  mentions ("SKILLS" +:+ nl) (resumeToText ana).
Proof.
  destruct (text_projection_sections ana)
    as (_ & _ & Hexp & _ & _ & _ & _ & _ & Hskills & _).
  split.
  - apply Hexp; [reflexivity|].
    unfold free_of, user_texts, ana, personal_texts. cbn.
    repeat (apply Forall_cons; split); try (apply Forall_nil; exact I); walk.
  - apply Hskills. discriminate.
Defined.

End TextProjectionHeadings.

(** ** The simulated optimisation and generation service *)

Section Service.
Import JS ResumeService Routes.

Lemma log2_below (n b : Z) : (0 < n < 2 ^ b)%Z -> (0 <= b)%Z -> (Z.log2 n < b)%Z.
Proof. intros [Hpos Hlt] Hb. apply Z.log2_lt_pow2; assumption. Qed.

(** Rounding a number below 2^58 to 53 bits moves it by 16 at most and
    keeps it non-negative. *)
Lemma round53_close (n : Z) :
  (0 <= n < 2 ^ 58)%Z -> (0 <= round53 n <= n + 16)%Z.
Proof.
  intros [Hlo Hhi]. unfold round53.
  destruct (Z.leb_spec (Z.log2 n - 52) 0) as [Hk|Hk]; [lia|].
  assert (Hpos : (0 < n)%Z).
  { destruct (Z.eq_dec n 0%Z) as [->|]; [simpl in Hk|]; lia. }
  assert (Hlog : (Z.log2 n < 58)%Z) by (apply log2_below; lia).
  assert (Hcases : (Z.log2 n - 52 = 1 \/ Z.log2 n - 52 = 2 \/ Z.log2 n - 52 = 3
                    \/ Z.log2 n - 52 = 4 \/ Z.log2 n - 52 = 5)%Z) by lia.
  destruct Hcases as [-> | [-> | [-> | [-> | ->]]]];
    cbn -[Z.div Z.modulo Z.mul Z.add Z.even];
    repeat match goal with
           | |- context [if ?b then _ else _] => destruct b eqn:?
           end;
    Z.to_euclidean_division_equations; lia.
Qed.

(** [Math.floor(Math.random() * 31)] is one of 0, ..., 30. *)
Lemma floor_times_31 (r : draw) :
  unit_interval r -> (0 <= floor_times r 31 <= 30)%Z.
Proof.
  intros ([Hn0 Hn53] & Hn & Hs0 & Hs). unfold floor_times.
  assert (Hround : (0 <= round53 (num r * 31) <= num r * 31 + 16)%Z)
    by (apply round53_close; lia).
  assert (Hpow : (0 < 2 ^ scale r)%Z) by (apply Z.pow_pos_nonneg; lia).
  split.
  - apply Z.div_pos; lia.
  - assert (round53 (num r * 31) / 2 ^ scale r < 31)%Z; [|lia].
    apply Z.div_lt_upper_bound; lia.
Qed.

(** C4.  For every input text, target role and value of the random draw,
    [optimizeForATS] returns the input text followed by an annotation block
    that mentions the target role when one is given, and a score that is an
    integer between 65 and 95. *)
Theorem optimize_contract (resumeText : string) (targetRole : option string)
    (random : draw) :
  unit_interval random ->
  (exists block,
     optimizedText (optimizeForATS resumeText targetRole random)
     = resumeText +:+ block /\
     starts_with (nl +:+ nl +:+ "[ATS Optimized") block /\
     (forall role, targetRole = Some role -> mentions role block)) /\
  (65 <= atsScore (optimizeForATS resumeText targetRole random) <= 95)%Z.
Proof.
  intros Hrandom. split.
  - unfold optimizeForATS; simpl optimizedText.
    destruct targetRole as [role|]; [destruct (truthy role) eqn:Hrole|];
      (eexists; split; [reflexivity|]; split; [eexists; lazy; reflexivity|]).
    + intros ? [= <-].
      exists (nl +:+ nl +:+ "[ATS Optimized for "). eexists.
      rewrite !append_assoc. reflexivity.
    + intros ? [= <-]. unfold truthy in Hrole.
      apply negb_false_iff, String.eqb_eq in Hrole. subst role.
      exists "". eexists. reflexivity.
    + intros ? [=].
  - unfold optimizeForATS; simpl atsScore.
    pose proof (floor_times_31 random Hrandom). lia.
Qed.

Lemma optimize_contract_witness :
  (exists block,
     optimizedText (optimizeForATS ("Jane Doe" +:+ nl +:+ "...") (Some "Nurse")
                      {| num := 2 ^ 53 - 1; scale := 53 |})
     = ("Jane Doe" +:+ nl +:+ "...") +:+ block /\
     starts_with (nl +:+ nl +:+ "[ATS Optimized") block /\
     (forall role, Some "Nurse" = Some role -> mentions role block)) /\
  (65 <= atsScore (optimizeForATS ("Jane Doe" +:+ nl +:+ "...") (Some "Nurse")
                     {| num := 2 ^ 53 - 1; scale := 53 |}) <= 95)%Z.
Proof.
  apply (optimize_contract ("Jane Doe" +:+ nl +:+ "...") (Some "Nurse")
           {| num := 2 ^ 53 - 1; scale := 53 |}).
  unfold unit_interval; simpl; lia.
Defined.

(** C5.  For every resume text and target role the letter generated for the
    company "Acme" opens with "Dear Acme Hiring Team," and carries the
    placeholder "[Your Name]"; with no company name it opens with "Dear
    Hiring Manager,".  The letter is a greeting, a middle part, a closing
    paragraph and an ending; the middle part and the ending are the same
    whatever the company name, the greeting and the closing paragraph are
    not: with a company name both name the company, without one (or with
    the empty name) they are the generic greeting and closing. *)
Theorem cover_letter_contract (resumeText targetRole : string) :
  starts_with "Dear Acme Hiring Team,"
    (generateCoverLetter resumeText targetRole (Some "Acme")) /\
  mentions "Dear Acme Hiring Team,"
    (generateCoverLetter resumeText targetRole (Some "Acme")) /\
  mentions "[Your Name]"
    (generateCoverLetter resumeText targetRole (Some "Acme")) /\
  starts_with "Dear Hiring Manager,"
    (generateCoverLetter resumeText targetRole None) /\
  (exists middle ending,
     starts_with (nl +:+ nl +:+ "I am writing to express my interest in the ")
                 middle /\
     (forall c, c <> "" ->
        generateCoverLetter resumeText targetRole (Some c)
        = ("Dear " +:+ c +:+ " Hiring Team,") +:+ middle
          +:+ ("I am particularly drawn to " +:+ c +:+ " because of your reputation for innovation and excellence in the industry. I would welcome the opportunity to discuss how my qualifications align with your needs.")
          +:+ ending) /\
     generateCoverLetter resumeText targetRole None
     = "Dear Hiring Manager," +:+ middle
       +:+ "I would welcome the opportunity to discuss how my qualifications align with your needs for this position."
       +:+ ending /\
     generateCoverLetter resumeText targetRole (Some "")
     = generateCoverLetter resumeText targetRole None /\
     ending
     = nl +:+ nl +:+ "Thank you for considering my application. I look forward to the possibility of working with your team."
       +:+ nl +:+ nl +:+ "Sincerely," +:+ nl +:+ "[Your Name]").
Proof.
  unfold generateCoverLetter. repeat split.
  - eexists. reflexivity.
  - exists "". eexists. reflexivity.
  - eexists. exists "".
    rewrite append_empty_r.
    repeat (rewrite <- append_assoc). reflexivity.
  - eexists. reflexivity.
  - exists (nl +:+ nl +:+ introduction targetRole +:+ nl +:+ nl
            +:+ body +:+ nl +:+ nl).
    exists (nl +:+ nl +:+ thanks +:+ nl +:+ nl +:+ "Sincerely," +:+ nl
            +:+ "[Your Name]").
    split; [|split; [|split; [|split]]].
    + unfold introduction. destruct (truthy targetRole); eexists;
        rewrite !append_assoc; reflexivity.
    + intros c Hc. unfold greeting, closing, truthy.
      destruct (String.eqb_spec c ""); [congruence|]. cbn [negb].
      rewrite !append_assoc. reflexivity.
    + unfold greeting, closing. rewrite !append_assoc. reflexivity.
    + reflexivity.
    + reflexivity.
Qed.

Lemma cover_letter_contract_witness :
  exists middle ending,
    generateCoverLetter "Jane Doe" "Backend Engineer" (Some "Acme")
    = "Dear Acme Hiring Team," +:+ middle
      +:+ "I am particularly drawn to Acme because of your reputation for innovation and excellence in the industry. I would welcome the opportunity to discuss how my qualifications align with your needs."
      +:+ ending.
Proof.
  destruct (cover_letter_contract "Jane Doe" "Backend Engineer")
    as (_ & _ & _ & _ & middle & ending & _ & Hcompany & _).
  exists middle, ending. apply (Hcompany "Acme"). discriminate.
Defined.

End Service.

(** ** The route [GET /api/resumes/:id] *)

Section ResumeRoute.
Import JS Routes.
Context {S : Type} `{Storage.IStorage S}.

Lemma is_digit_not_white (c : ascii) : is_digit c = true -> is_white_space c = false.
Proof.
  destruct c as [[] [] [] [] [] [] [] []]; vm_compute; congruence.
Qed.

Lemma is_digit_value (c : ascii) :
  is_digit c = true ->
  digit_value c = Some (Z.of_nat (nat_of_ascii c) - 48)%Z /\
  (0 <= Z.of_nat (nat_of_ascii c) - 48 < 10)%Z.
Proof.
  destruct c as [[] [] [] [] [] [] [] []]; vm_compute; intros Hd;
    try discriminate Hd; (split; [reflexivity | split; congruence]).
Qed.

Lemma leading_digits_decimal (s : string) (acc : Z) :
  all_digits s = true ->
  leading_digits 10 s (Some acc) = Some (decimal_from acc s).
Proof.
  revert acc. induction s as [|c s IH]; intros acc Hs; [reflexivity|].
  simpl in Hs. apply andb_true_iff in Hs as [Hc Hs].
  destruct (is_digit_value c Hc) as [Hv Hrange].
  cbn [leading_digits decimal_from]. rewrite Hv.
  destruct (Z.ltb_spec (Z.of_nat (nat_of_ascii c) - 48) 10) as [_|?]; [|lia].
  cbn [default]. apply IH, Hs.
Qed.

(** A natural number below 2^53 is a Number. *)
Lemma to_Number_exact (n : Z) : (0 <= n < 2 ^ 53)%Z -> to_Number n = n.
Proof.
  intros [Hlo Hhi]. unfold to_Number, round53.
  assert (Hlog : (Z.log2 n - 52 <= 0)%Z).
  { destruct (Z.eq_dec n 0%Z) as [->|Hn]; [simpl; lia|].
    assert (Z.log2 n < 53)%Z by (apply Z.log2_lt_pow2; lia). lia. }
  destruct (Z.leb_spec (Z.log2 n - 52) 0) as [_|?]; [|lia].
  apply Z.min_l.
  assert (2 ^ 53 <= 2 ^ 1024)%Z by (apply Z.pow_le_mono_r; lia). lia.
Qed.

(** Rounding to a Number does not bring a number below 2^31. *)
Lemma to_Number_large (n : Z) : (2 ^ 31 <= n)%Z -> (2 ^ 31 <= to_Number n)%Z.
Proof.
  intros Hn. unfold to_Number.
  assert (Hbig : (2 ^ 31 <= 2 ^ 1024)%Z) by (apply Z.pow_le_mono_r; lia).
  apply Z.min_glb; [|exact Hbig].
  unfold round53.
  destruct (Z.leb_spec (Z.log2 n - 52) 0) as [_|Hk]; [exact Hn|].
  set (k := (Z.log2 n - 52)%Z) in *.
  assert (Hpos : (0 < 2 ^ k)%Z) by (apply Z.pow_pos_nonneg; lia).
  assert (Hq : (2 ^ 52 <= n / 2 ^ k)%Z).
  { apply Z.div_le_lower_bound; [exact Hpos|].
    rewrite Z.mul_comm, <- Z.pow_add_r by lia.
    replace (52 + k)%Z with (Z.log2 n) by (unfold k; lia).
    apply Z.log2_spec. lia. }
  assert (Hfloor : (2 ^ 31 <= n / 2 ^ k * 2 ^ k)%Z) by nia.
  assert (Hceil : (2 ^ 31 <= (n / 2 ^ k + 1) * 2 ^ k)%Z) by nia.
  repeat match goal with
         | |- context [if ?b then _ else _] => destruct b
         end; assumption.
Qed.

(** On a numeric segment [parseInt] yields the Number nearest to the
    number the digits denote. *)
Lemma parseInt_numeric (s : string) :
  numeric s -> parseInt s = Some (to_Number (decimal s)).
Proof.
  intros [Hne Hs]. destruct s as [|c s]; [congruence|].
  simpl in Hs. apply andb_true_iff in Hs as [Hc Hs].
  destruct (is_digit_value c Hc) as [Hv Hrange].
  assert (Hgo : leading_digits 10 (String c s) None = Some (decimal (String c s))).
  { cbn [leading_digits]. rewrite Hv.
    destruct (Z.ltb_spec (Z.of_nat (nat_of_ascii c) - 48) 10) as [_|?]; [|lia].
    cbn [default]. rewrite leading_digits_decimal by exact Hs. reflexivity. }
  unfold parseInt. cbn [trim_start]. rewrite (is_digit_not_white c Hc).
  destruct s as [|c' s'].
  - destruct c as [[] [] [] [] [] [] [] []]; try discriminate Hc;
      rewrite Hgo; f_equal; apply Z.mul_1_l.
  - simpl in Hs. apply andb_true_iff in Hs as [Hc' Hs'].
    destruct c as [[] [] [] [] [] [] [] []]; try discriminate Hc;
      try (rewrite Hgo; f_equal; apply Z.mul_1_l).
    destruct c' as [[] [] [] [] [] [] [] []]; try discriminate Hc';
      rewrite Hgo; f_equal; apply Z.mul_1_l.
Qed.

(** A segment whose first character is neither white space, nor a sign,
    nor a decimal digit has no number to parse. *)
Lemma parseInt_no_numeral (c : ascii) (rest : string) :
  is_white_space c = false -> is_digit c = false ->
  c <> "-"%char -> c <> "+"%char ->
  parseInt (String c rest) = None.
Proof.
  intros Hw Hd Hminus Hplus.
  destruct c as [[] [] [] [] [] [] [] []];
    try discriminate Hw; try discriminate Hd; try congruence; reflexivity.
Qed.

(** C8 (as amended).  The response is 400 when [parseInt] finds no number
    at the head of the segment.  When it finds the number [id], the
    response follows the answer of the repository: 404 if it has no record
    with that id, the record itself if it has one, 500 if it rejects the
    query.  [DatabaseStorage], the repository the server exports, rejects
    the query when [id] is not a 32-bit integer and answers otherwise;
    [MemStorage] always answers.  On a numeric segment [parseInt] finds the
    Number nearest to the number the segment denotes, which is that number
    when it is below 2^53; so a numeric segment that denotes 2^31 or more
    gets a 500 from the exported repository, not a 404.  A segment that
    starts with neither white space, a sign nor a digit gets the 400. *)
Theorem get_resume_by_id_responses (storage : S) (segment : string) :
  (parseInt segment = None ->
   get_resume_by_id storage segment
   = Ok {| status := 400; sent := Message "Invalid resume ID" |}) /\
  (forall id, parseInt segment = Some id ->
              Storage.getResume id storage = Ok None ->
   get_resume_by_id storage segment
   = Ok {| status := 404; sent := Message "Resume not found" |}) /\
  (forall id r, parseInt segment = Some id ->
                Storage.getResume id storage = Ok (Some r) ->
   get_resume_by_id storage segment
   = Ok {| status := 200; sent := Resume r |}) /\
  (forall id e, parseInt segment = Some id ->
                Storage.getResume id storage = Throw e ->
   get_resume_by_id storage segment
   = Ok {| status := 500; sent := Failure "Failed to fetch resume" e |}) /\
  (forall (db : Storage.DatabaseStorage.Database) id,
     parseInt segment = Some id ->
     (Storage.int4 id = false ->
      get_resume_by_id db segment
      = Ok {| status := 500;
              sent := Failure "Failed to fetch resume" NeonDbError |}) /\
     (Storage.int4 id = true ->
      Storage.DatabaseStorage.resumes db !! id = None ->
      get_resume_by_id db segment
      = Ok {| status := 404; sent := Message "Resume not found" |}) /\
     (forall r, Storage.int4 id = true ->
        Storage.DatabaseStorage.resumes db !! id = Some r ->
        get_resume_by_id db segment
        = Ok {| status := 200; sent := Resume r |})) /\
  (forall (this : Storage.MemStorage.MemStorage) id,
     parseInt segment = Some id ->
     (Storage.MemStorage.resumes this !! id = None ->
      get_resume_by_id this segment
      = Ok {| status := 404; sent := Message "Resume not found" |}) /\
     (forall r, Storage.MemStorage.resumes this !! id = Some r ->
        get_resume_by_id this segment
        = Ok {| status := 200; sent := Resume r |})) /\
  (numeric segment -> parseInt segment = Some (to_Number (decimal segment))) /\
  (numeric segment -> (decimal segment < 2 ^ 53)%Z ->
   parseInt segment = Some (decimal segment)) /\
  (forall db : Storage.DatabaseStorage.Database,
     numeric segment -> (2 ^ 31 <= decimal segment)%Z ->
     get_resume_by_id db segment
     = Ok {| status := 500;
             sent := Failure "Failed to fetch resume" NeonDbError |}) /\
  (forall c rest, segment = String c rest ->
                  is_white_space c = false -> is_digit c = false ->
                  c <> "-"%char -> c <> "+"%char ->
                  parseInt segment = None).
Proof.
  unfold get_resume_by_id.
  split; [|split; [|split; [|split; [|split; [|split; [|split; [|split;
    [|split]]]]]]]].
  - intros ->. reflexivity.
  - intros id -> ->. reflexivity.
  - intros id r -> ->. reflexivity.
  - intros id e -> ->. reflexivity.
  - intros db id ->. cbn. unfold Storage.DatabaseStorage.getResume.
    split; [|split].
    + intros ->. reflexivity.
    + intros -> ->. reflexivity.
    + intros r -> ->. reflexivity.
  - intros this id ->. cbn. unfold Storage.MemStorage.getResume. split.
    + intros ->. reflexivity.
    + intros r ->. reflexivity.
  - apply parseInt_numeric.
  - intros Hnum Hsmall. rewrite (parseInt_numeric segment Hnum).
    rewrite to_Number_exact; [reflexivity|]. split; [|exact Hsmall].
    unfold decimal. clear Hsmall. destruct Hnum as [_ Hd].
    assert (Hgen : forall s acc, (0 <= acc)%Z -> all_digits s = true ->
                                 (0 <= decimal_from acc s)%Z).
    { induction s as [|c s IH]; intros acc Hacc Hs; [exact Hacc|].
      simpl in Hs. apply andb_true_iff in Hs as [Hc Hs].
      destruct (is_digit_value c Hc) as [_ Hrange].
      cbn [decimal_from]. apply IH; [lia | exact Hs]. }
    apply Hgen; [lia | exact Hd].
  - intros db Hnum Hlarge. rewrite (parseInt_numeric segment Hnum). cbn.
    unfold Storage.DatabaseStorage.getResume, Storage.int4.
    pose proof (to_Number_large _ Hlarge) as Hid.
    destruct (Z.ltb_spec (to_Number (decimal segment)) (2 ^ 31)) as [?|_]; [lia|].
    rewrite andb_false_r. reflexivity.
  - intros c rest ->. apply parseInt_no_numeral.
Qed.

End ResumeRoute.

Section ResumeRouteExamples.
Import JS Routes Storage.

Lemma get_resume_by_id_responses_witness :
  exists r db,
    DatabaseStorage.createResume 0 empty_payload
      {| DatabaseStorage.users := {[ 1%Z ]}; DatabaseStorage.resumes := ∅;
         DatabaseStorage.resumes_id_seq := 1 |} = (Ok r, db) /\
    get_resume_by_id db "abc"
    = Ok {| status := 400; sent := Message "Invalid resume ID" |} /\
    get_resume_by_id db "7"
    = Ok {| status := 404; sent := Message "Resume not found" |} /\
    get_resume_by_id db "1" = Ok {| status := 200; sent := Resume r |} /\
    get_resume_by_id db "2147483648"
    = Ok {| status := 500;
            sent := Failure "Failed to fetch resume" NeonDbError |}.
Proof.
  eexists. eexists. split; [vm_compute; reflexivity|].
  match goal with |- get_resume_by_id ?d _ = _ /\ _ => set (db := d) end.
  destruct (get_resume_by_id_responses db "abc") as (H400 & _).
  destruct (get_resume_by_id_responses db "7") as (_ & _ & _ & _ & H404 & _).
  destruct (get_resume_by_id_responses db "1") as (_ & _ & _ & _ & H200 & _).
  destruct (get_resume_by_id_responses db "2147483648")
    as (_ & _ & _ & _ & H500 & _).
  split; [|split; [|split]].
  - apply H400. reflexivity.
  - apply (H404 db 7%Z); reflexivity.
  - apply (H200 db 1%Z); reflexivity.
  - apply (H500 db 2147483648%Z); reflexivity.
Defined.

(** C8 (as stated) fails: "1abc" is not numeric, yet the request is served
    as a request for the record 1. *)
Lemma non_numeric_segment_served :
  exists r db,
    DatabaseStorage.createResume 0 empty_payload
      {| DatabaseStorage.users := {[ 1%Z ]}; DatabaseStorage.resumes := ∅;
         DatabaseStorage.resumes_id_seq := 1 |} = (Ok r, db) /\
    ~ numeric "1abc" /\
    get_resume_by_id db "1abc" = Ok {| status := 200; sent := Resume r |} /\
    id r = 1%Z /\
    get_resume_by_id db "1abc"
    <> Ok {| status := 400; sent := Message "Invalid resume ID" |}.
Proof.
  eexists. eexists. split; [vm_compute; reflexivity|].
  split; [|split; [|split]].
  - intros [_ Hd]. vm_compute in Hd. discriminate.
  - vm_compute. reflexivity.
  - reflexivity.
  - vm_compute. discriminate.
Qed.

End ResumeRouteExamples.

(** ** The resume repository *)

Section Repository.
Import JS Storage StorageInvariants.

Lemma text_or_or_text (dflt : option string) (a : option (option string)) :
  or_text a dflt = text_or dflt a.
Proof.
  destruct a as [[s|]|]; simpl; try reflexivity.
  unfold truthy. destruct (String.eqb_spec s ""), (decide (s = ""));
    simpl; congruence.
Qed.

Lemma or_false_spec (a : option (option bool)) :
  or_false a = Some (match a with Some (Some b) => b | _ => false end).
Proof. destruct a as [[[]|]|]; reflexivity. Qed.

(** What a payload the server accepts gives for the values of an insert. *)
Lemma text_ok_or_text (a : option (option string)) (dflt : option string) :
  when_present text_ok a = true -> text_ok dflt = true ->
  text_ok (or_text a dflt) = true.
Proof.
  destruct a as [[s|]|]; simpl; intros Ha Hd; try exact Hd.
  destruct (truthy s); [exact Ha | exact Hd].
Qed.

Lemma jsonb_ok_or_json (a : option json) (dflt : json) :
  when_present jsonb_ok a = true -> jsonb_ok dflt = true ->
  jsonb_ok (or_json a dflt) = true.
Proof.
  destruct a as [j|]; simpl; intros Ha Hd; [|exact Hd].
  destruct (truthy_json j); [exact Ha | exact Hd].
Qed.

Lemma int4_or_number (a : option Z) :
  when_present int4 a = true -> int4 (or_number a 1) = true.
Proof.
  destruct a as [n|]; simpl; intros Ha; [|reflexivity].
  destruct (n =? 0)%Z; [reflexivity | exact Ha].
Qed.

(** The fields of [params_ok], one by one. *)
Lemma params_ok_fields (values : PartialResumeData) :
  params_ok values = true ->
  when_present int4 (in_id values) = true /\
  when_present int4 (in_userId values) = true /\
  when_present text_ok (in_firstName values) = true /\
  when_present text_ok (in_lastName values) = true /\
  when_present text_ok (in_email values) = true /\
  when_present text_ok (in_phone values) = true /\
  when_present text_ok (in_summary values) = true /\
  when_present text_ok (in_website values) = true /\
  when_present text_ok (in_linkedin values) = true /\
  when_present jsonb_ok (in_education values) = true /\
  when_present jsonb_ok (in_experience values) = true /\
  when_present jsonb_ok (in_skills values) = true /\
  when_present jsonb_ok (in_projects values) = true /\
  when_present text_ok (in_templateStyle values) = true /\
  when_present text_ok (in_colorScheme values) = true /\
  when_present text_ok (in_targetRole values) = true /\
  when_present (when_present int4) (in_atsScore values) = true.
Proof.
  unfold params_ok. intros Hok.
  repeat (apply andb_true_iff in Hok as [Hok ?]).
  repeat split; assumption.
Qed.

(** On a consistent table, with parameters that fit and a sequence that has
    not run out, the one check left to [createResume] is the foreign key. *)
Lemma create_checks (now : Z) (data : PartialResumeData)
    (db : DatabaseStorage.Database) :
  DatabaseStorage.consistent db ->
  params_ok data = true ->
  int4 (DatabaseStorage.resumes_id_seq db) = true ->
  DatabaseStorage.createResume now data db
  = if bool_decide (or_number (in_userId data) 1 ∈ DatabaseStorage.users db)
    then (Ok (new_row now data db),
          {| DatabaseStorage.users := DatabaseStorage.users db;
             DatabaseStorage.resumes :=
               <[DatabaseStorage.resumes_id_seq db := new_row now data db]>
                 (DatabaseStorage.resumes db);
             DatabaseStorage.resumes_id_seq
             := (DatabaseStorage.resumes_id_seq db + 1)%Z |})
    else (Throw NeonDbError,
          {| DatabaseStorage.users := DatabaseStorage.users db;
             DatabaseStorage.resumes := DatabaseStorage.resumes db;
             DatabaseStorage.resumes_id_seq
             := (DatabaseStorage.resumes_id_seq db + 1)%Z |}).
Proof.
  intros Hok Hdata Hseq.
  assert (Hfree : DatabaseStorage.resumes db !! DatabaseStorage.resumes_id_seq db
                  = None).
  { destruct (DatabaseStorage.resumes db !! DatabaseStorage.resumes_id_seq db)
      as [row|] eqn:Hrow; [|reflexivity].
    destruct (Hok _ _ Hrow) as (_ & Hlt & _). lia. }
  destruct (params_ok_fields data Hdata)
    as (_ & Hu & Hfn & Hln & Hem & Hph & Hsu & Hwe & Hli & Hed & Hex & Hsk
        & Hpr & Hts & Hcs & Htr & _).
  unfold DatabaseStorage.createResume, DatabaseStorage.insert_returning.
  cbn [in_id in_userId in_firstName in_lastName in_email in_phone in_summary
       in_website in_linkedin in_education in_experience in_skills in_projects
       in_templateStyle in_colorScheme in_targetRole in_isAtsOptimized
       in_atsScore in_createdAt in_updatedAt without_atsScore default id userId].
  unfold params_ok.
  cbn [in_id in_userId in_firstName in_lastName in_email in_phone in_summary
       in_website in_linkedin in_education in_experience in_skills in_projects
       in_templateStyle in_colorScheme in_targetRole in_atsScore when_present].
  rewrite (int4_or_number _ Hu).
  rewrite !text_ok_or_text by (assumption || reflexivity).
  rewrite !jsonb_ok_or_json by (assumption || reflexivity).
  cbn [andb negb]. rewrite Hseq. cbn [negb]. rewrite Hfree.
  rewrite bool_decide_eq_false_2 by (intros [? ?]; discriminate).
  unfold Datatypes.id.
  destruct (bool_decide (or_number (in_userId data) 1 ∈ DatabaseStorage.users db));
    reflexivity.
Qed.

(** [DatabaseStorage.createResume] on a payload the server accepts, for a
    user that exists: the row it returns and the table it leaves. *)
Lemma DatabaseStorage_create (now : Z) (data : PartialResumeData)
    (db : DatabaseStorage.Database) :
  DatabaseStorage.consistent db ->
  params_ok data = true ->
  int4 (DatabaseStorage.resumes_id_seq db) = true ->
  or_number (in_userId data) 1 ∈ DatabaseStorage.users db ->
  exists r db',
    DatabaseStorage.createResume now data db = (Ok r, db') /\
    DatabaseStorage.resumes db'
    = <[DatabaseStorage.resumes_id_seq db := r]> (DatabaseStorage.resumes db) /\
    DatabaseStorage.users db' = DatabaseStorage.users db /\
    DatabaseStorage.resumes_id_seq db'
    = (DatabaseStorage.resumes_id_seq db + 1)%Z /\
    DatabaseStorage.resumes db !! DatabaseStorage.resumes_id_seq db = None /\
    as_supplied_truthy data r /\
    userId r = or_number (in_userId data) 1 /\
    server_managed now (DatabaseStorage.resumes_id_seq db) r.
Proof.
  intros Hok Hdata Hseq Huser.
  assert (Hfree : DatabaseStorage.resumes db !! DatabaseStorage.resumes_id_seq db
                  = None).
  { destruct (DatabaseStorage.resumes db !! DatabaseStorage.resumes_id_seq db)
      as [row|] eqn:Hrow; [|reflexivity].
    destruct (Hok _ _ Hrow) as (_ & Hlt & _). lia. }
  rewrite (create_checks now data db Hok Hdata Hseq).
  rewrite bool_decide_eq_true_2 by exact Huser.
  eexists. eexists. split; [reflexivity|].
  cbn [DatabaseStorage.resumes DatabaseStorage.users
       DatabaseStorage.resumes_id_seq].
  split; [reflexivity|]. split; [reflexivity|]. split; [reflexivity|].
  split; [exact Hfree|]. split; [|split; [reflexivity | repeat split]].
  unfold as_supplied_truthy, new_row. simpl.
  rewrite <- !text_or_or_text, <- or_false_spec. repeat split.
Qed.



(** When nothing else is wrong with the record, the id the sequence gave
    for it is lost. *)
Lemma DatabaseStorage_create_unknown_user_id (now : Z)
    (data : PartialResumeData) (db : DatabaseStorage.Database) :
  DatabaseStorage.consistent db ->
  params_ok data = true ->
  int4 (DatabaseStorage.resumes_id_seq db) = true ->
  or_number (in_userId data) 1 ∉ DatabaseStorage.users db ->
  DatabaseStorage.createResume now data db
  = (Throw NeonDbError,
     {| DatabaseStorage.users := DatabaseStorage.users db;
        DatabaseStorage.resumes := DatabaseStorage.resumes db;
        DatabaseStorage.resumes_id_seq
        := (DatabaseStorage.resumes_id_seq db + 1)%Z |}).
Proof.
  intros Hok Hdata Hseq Huser.
  rewrite (create_checks now data db Hok Hdata Hseq).
  rewrite bool_decide_eq_false_2 by exact Huser. reflexivity.
Qed.

(** A table with the new row stays consistent. *)
Lemma consistent_insert (db db' : DatabaseStorage.Database) (r : ResumeData) :
  DatabaseStorage.consistent db ->
  DatabaseStorage.resumes db'
  = <[DatabaseStorage.resumes_id_seq db := r]> (DatabaseStorage.resumes db) ->
  DatabaseStorage.users db' = DatabaseStorage.users db ->
  DatabaseStorage.resumes_id_seq db' = (DatabaseStorage.resumes_id_seq db + 1)%Z ->
  id r = DatabaseStorage.resumes_id_seq db ->
  userId r ∈ DatabaseStorage.users db ->
  DatabaseStorage.consistent db'.
Proof.
  intros Hok Hrows Husers Hseq Hid Huser k row. rewrite Hrows, Husers, Hseq.
  destruct (decide (DatabaseStorage.resumes_id_seq db = k)) as [<-|Hne].
  - rewrite lookup_insert_eq. intros [= <-].
    split; [exact Hid|]. split; [lia | exact Huser].
  - rewrite lookup_insert_ne by exact Hne. intros Hrow.
    destruct (Hok k row Hrow) as (Hk & Hlt & Hu).
    split; [exact Hk|]. split; [lia | exact Hu].
Qed.


End Repository.

Section RepositoryExamples.
Import JS Storage.

Lemma empty_table_consistent :
  DatabaseStorage.consistent
    {| DatabaseStorage.users := {[ 1%Z ]}; DatabaseStorage.resumes := ∅;
       DatabaseStorage.resumes_id_seq := 1 |}.
Proof. intros k row Hrow. simpl in Hrow. rewrite lookup_empty in Hrow. discriminate. Qed.



End RepositoryExamples.

Section RepositoryUpdate.
Import JS Storage.

Lemma params_ok_update (now : Z) (data : PartialResumeData) :
  params_ok data = true ->
  params_ok (with_updatedAt now (without_id_atsScore data)) = true.
Proof.
  intros Hdata.
  destruct (params_ok_fields data Hdata)
    as (_ & Hu & Hfn & Hln & Hem & Hph & Hsu & Hwe & Hli & Hed & Hex & Hsk
        & Hpr & Hts & Hcs & Htr & _).
  unfold params_ok.
  cbn [with_updatedAt without_id_atsScore in_id in_userId in_firstName
       in_lastName in_email in_phone in_summary in_website in_linkedin
       in_education in_experience in_skills in_projects in_templateStyle
       in_colorScheme in_targetRole in_atsScore].
  rewrite Hu, Hfn, Hln, Hem, Hph, Hsu, Hwe, Hli, Hed, Hex, Hsk, Hpr, Hts, Hcs, Htr.
  reflexivity.
Qed.

(** [DatabaseStorage.updateResume] on an existing record, for a payload
    the server accepts: [id] and [atsScore] of the payload are dropped, the
    properties the payload carries are set, [updatedAt] is the time of the
    update, every other property and every other record stay as they
    were. *)
Lemma DatabaseStorage_update_frame (now key : Z) (data : PartialResumeData)
    (db : DatabaseStorage.Database) (row : ResumeData) :
  DatabaseStorage.consistent db ->
  DatabaseStorage.getResume key db = Ok (Some row) ->
  params_ok data = true ->
  (forall user, in_userId data = Some user -> user ∈ DatabaseStorage.users db) ->
  exists row' db',
    DatabaseStorage.updateResume now key data db = (Ok (Some row'), db') /\
    DatabaseStorage.getResume key db' = Ok (Some row') /\
    stripped row row' /\
    untouched data row row' /\
    provided data row' /\
    updatedAt row' = Some {| getTime := now |} /\
    (forall k, k <> key ->
       DatabaseStorage.resumes db' !! k = DatabaseStorage.resumes db !! k) /\
    DatabaseStorage.users db' = DatabaseStorage.users db /\
    DatabaseStorage.resumes_id_seq db' = DatabaseStorage.resumes_id_seq db /\
    DatabaseStorage.consistent db'.
Proof.
  unfold DatabaseStorage.getResume. intros Hok Hget Hdata Huser.
  destruct (int4 key) eqn:Hkey; [|discriminate Hget].
  cbn [negb] in Hget. injection Hget as Hrow.
  destruct (Hok key row Hrow) as (Hid & Hseq & Hu).
  unfold DatabaseStorage.updateResume, DatabaseStorage.update_returning.
  rewrite Hkey, (params_ok_update now data Hdata), Hrow. cbn [negb].
  assert (Hsame : id (assign (with_updatedAt now (without_id_atsScore data)) row)
                  = key) by exact Hid.
  assert (Hnew : userId (assign (with_updatedAt now (without_id_atsScore data)) row)
                 ∈ DatabaseStorage.users db).
  { simpl. destruct (in_userId data) as [user|] eqn:Huid; [|exact Hu].
    apply Huser. reflexivity. }
  rewrite bool_decide_eq_false_2 by (intros [Hne _]; apply Hne, Hsame).
  rewrite bool_decide_eq_true_2 by exact Hnew. cbn [negb].
  eexists. eexists. split; [reflexivity|].
  cbn [DatabaseStorage.resumes DatabaseStorage.users
       DatabaseStorage.resumes_id_seq].
  rewrite Hsame.
  split; [cbn [negb]; rewrite lookup_insert_eq; reflexivity|].
  split; [split; reflexivity|].
  split; [fieldwise|]. split; [fieldwise|]. split; [reflexivity|].
  split.
  { intros k Hne. rewrite lookup_insert_ne, lookup_delete_ne by congruence.
    reflexivity. }
  split; [reflexivity|]. split; [reflexivity|].
  intros k r.
  cbn [DatabaseStorage.resumes DatabaseStorage.users
       DatabaseStorage.resumes_id_seq].
  destruct (decide (key = k)) as [<-|Hne].
  - rewrite lookup_insert_eq. intros [= <-].
    split; [exact Hsame|]. split; [exact Hseq | exact Hnew].
  - rewrite lookup_insert_ne, lookup_delete_ne by exact Hne. apply Hok.
Qed.

(** C6 at the failing input: [MemStorage.updateResume] with the payload
    [{ id: 7, atsScore: 90 }] on the record 1 stores a record whose id is 7
    and whose score is 90, where [DatabaseStorage.updateResume] keeps the
    id 1 and the score [null]. *)
Theorem MemStorage_update_keeps_id_and_score :
  let data := {| in_id := Some 7%Z; in_userId := None;
                 in_firstName := None; in_lastName := None;
                 in_email := None; in_phone := None; in_summary := None;
                 in_website := None; in_linkedin := None;
                 in_education := None; in_experience := None;
                 in_skills := None; in_projects := None;
                 in_templateStyle := None; in_colorScheme := None;
                 in_targetRole := None; in_isAtsOptimized := None;
                 in_atsScore := Some (Some 90%Z); in_createdAt := None;
                 in_updatedAt := None |} in
  let this := snd (MemStorage.createResume 0 empty_payload MemStorage.new) in
  (exists before after,
     MemStorage.getResume 1 this = Some before /\
     MemStorage.getResume 1 (snd (MemStorage.updateResume 5 1 data this))
     = Some after /\
     id before = 1%Z /\ atsScore before = None /\
     id after = 7%Z /\ atsScore after = Some 90%Z /\
     ~ stripped before after) /\
  (exists before db after db',
     DatabaseStorage.createResume 0 empty_payload
       {| DatabaseStorage.users := {[ 1%Z ]}; DatabaseStorage.resumes := ∅;
          DatabaseStorage.resumes_id_seq := 1 |} = (Ok before, db) /\
     DatabaseStorage.getResume 1 db = Ok (Some before) /\
     DatabaseStorage.updateResume 5 1 data db = (Ok (Some after), db') /\
     DatabaseStorage.getResume 1 db' = Ok (Some after) /\
     id before = 1%Z /\ atsScore before = None /\
     stripped before after).
Proof.
  intros data this. split.
  - eexists. eexists.
    split; [vm_compute; reflexivity|]. split; [vm_compute; reflexivity|].
    repeat split. intros [Hid _]. vm_compute in Hid. discriminate Hid.
  - eexists. eexists. eexists. eexists.
    split; [vm_compute; reflexivity|]. split; [vm_compute; reflexivity|].
    split; [vm_compute; reflexivity|]. split; [vm_compute; reflexivity|].
    repeat split.
Qed.

End RepositoryUpdate.

(** ** Removing an entry of a list form *)

Lemma filter_indexed_below {A : Type} (index start : nat) (l : list A) :
  (index < start)%nat ->
  Forms.filter_indexed (fun _ i => negb (i =? index)%nat) start l = l.
Proof.
  revert start. induction l as [|x l IH]; intros start Hlt; [reflexivity|].
  cbn [Forms.filter_indexed].
  destruct (Nat.eqb_spec start index) as [->|_]; [lia|].
  cbn [negb]. rewrite IH by lia. reflexivity.
Qed.

Lemma filter_indexed_at {A : Type} (n start : nat) (l : list A) :
  Forms.filter_indexed (fun _ i => negb (i =? start + n)%nat) start l
  = take n l ++ drop (S n) l.
Proof.
  revert n start. induction l as [|x l IH]; intros n start.
  - destruct n; reflexivity.
  - cbn [Forms.filter_indexed]. destruct n as [|n].
    + rewrite Nat.add_0_r, Nat.eqb_refl. cbn [negb take drop app].
      rewrite drop_0. apply filter_indexed_below. lia.
    + destruct (Nat.eqb_spec start (start + S n)) as [Heq|_]; [lia|].
      cbn [negb take drop app]. f_equal.
      replace (start + S n)%nat with (S start + n)%nat by lia.
      apply IH.
Qed.

Section ListForms.
Import JS Schema Forms.
Context {A : Type}.





End ListForms.

Section ListFormsExamples.
Import JS Schema Forms.

Lemma handleRemoveSkill_by_position (index : nat) (skills : list string) :
  handleRemoveSkill index skills = take index skills ++ drop (S index) skills.
Proof. apply (filter_indexed_at index 0). Qed.



End ListFormsExamples.

(** ** The local draft store on any store *)

Section LocalDraftStoreMore.
Import JS Schema LocalStorage.

(** The draft a load returns has a target role: a stored draft without
    one is read back with the empty string of the default draft. *)
Lemma load_targetRole_defined (ls : localStorage) (d : SavedResumeData) :
  getResumeFromLocalStorage ls = Ok d -> s_targetRole d <> None.
Proof.
  unfold getResumeFromLocalStorage. destruct ls as [|m]; simpl.
  - intros [= <-]. discriminate.
  - destruct (m !! STORAGE_KEY) as [[doc|s]|]; simpl.
    + intros [= <-]. simpl. destruct (d_targetRole doc); discriminate.
    + destruct (negb (truthy s)); simpl; intros [= <-]; discriminate.
    + intros [= <-]. discriminate.
Qed.

(** One save on a readable store that the browser accepts, and the load
    that follows it. *)
Lemma save_on_readable_store (m : gmap string text) (now : Z)
    (data : PartialResume) (prior : SavedResumeData) :
  getResumeFromLocalStorage (Items m) = Ok prior ->
  saveResumeToLocalStorage now true data (Items m)
  = Ok (Items (<[STORAGE_KEY :=
                   JSON_stringify (stamped now (merge_non_empty data prior))]> m)) /\
  getResumeFromLocalStorage
    (Items (<[STORAGE_KEY :=
                JSON_stringify (stamped now (merge_non_empty data prior))]> m))
  = Ok (stamped now (merge_non_empty data prior)).
Proof.
  intros Hprior. split; [apply save_writes_merge, Hprior|].
  apply load_after_store, merged_targetRole_defined.
  exact (load_targetRole_defined _ _ Hprior).
Qed.

Lemma layer_twice {A : Type} (a : option A) (b : A) :
  layer a (layer a b) = layer a b.
Proof. destruct a; reflexivity. Qed.

(** Laying the same partial draft over a draft twice is laying it once. *)
Lemma merge_non_empty_twice (data : PartialResume) (cur : SavedResumeData)
    (t now : Z) :
  stamped now (merge_non_empty data (stamped t (merge_non_empty data cur)))
  = stamped now (merge_non_empty data cur).
Proof.
  unfold stamped, merge_non_empty, merge_with. simpl. f_equal.
  - unfold layer_personalInfo.
    destruct (p_personalInfo data) as [p|]; [|reflexivity].
    simpl. rewrite !layer_twice. reflexivity.
  - destruct (p_education data); reflexivity.
  - destruct (p_experience data); reflexivity.
  - destruct (p_skills data); reflexivity.
  - destruct (p_projects data); reflexivity.
  - unfold layer_string.
    destruct (p_templateStyle data) as [s|]; [destruct (truthy s)|]; reflexivity.
  - unfold layer_string.
    destruct (p_colorScheme data) as [s|]; [destruct (truthy s)|]; reflexivity.
  - destruct (p_isAtsOptimized data); reflexivity.
  - unfold layer_string_opt.
    destruct (p_targetRole data) as [s|]; [destruct (truthy s)|]; reflexivity.
Qed.

(** X1.  A load returns a draft whatever the store holds: it never throws,
    and the draft it returns always has a target role (the empty string of
    the default draft when the stored draft has none). *)
Theorem load_always_returns (ls : localStorage) :
  exists d, getResumeFromLocalStorage ls = Ok d /\ s_targetRole d <> None /\
            (forall e, getResumeFromLocalStorage ls <> Throw e).
Proof.
  destruct (getResumeFromLocalStorage_total ls) as [d Hd].
  exists d. split; [exact Hd|]. split.
  - exact (load_targetRole_defined ls d Hd).
  - rewrite Hd. discriminate.
Qed.

Lemma load_always_returns_witness :
  exists d, getResumeFromLocalStorage
              (Items {[ STORAGE_KEY := Malformed "{oops" ]}) = Ok d /\
            s_targetRole d = Some "".
Proof.
  destruct (load_always_returns (Items {[ STORAGE_KEY := Malformed "{oops" ]}))
    as (d & Hd & _).
  exists d. split; [exact Hd|].
  vm_compute in Hd. injection Hd as <-. reflexivity.
Defined.

(** X2.  Round trip: a load of what [JSON.stringify] wrote of a draft gives
    the draft back, but for a target role that is [undefined]: the text
    does not carry that key and the load fills in the empty string of the
    default draft. *)
Theorem stringify_then_load (m : gmap string text) (v : SavedResumeData) :
  getResumeFromLocalStorage (Items (<[STORAGE_KEY := JSON_stringify v]> m))
  = Ok {| s_personalInfo := s_personalInfo v;
          s_education := s_education v;
          s_experience := s_experience v;
          s_skills := s_skills v;
          s_projects := s_projects v;
          s_templateStyle := s_templateStyle v;
          s_colorScheme := s_colorScheme v;
          s_isAtsOptimized := s_isAtsOptimized v;
          s_targetRole := Some (default "" (s_targetRole v));
          s_lastUpdated := s_lastUpdated v |}.
Proof.
  unfold getResumeFromLocalStorage. simpl getItem.
  rewrite lookup_insert_eq. simpl. unfold spread_over. simpl.
  destruct (s_targetRole v); reflexivity.
Qed.

(** X3.  One save on a store that can be read, whatever it holds (nothing,
    a draft, a text that does not parse).  When the browser accepts the
    write the save succeeds, a load then returns the partial draft laid
    over what a load returned before, stamped with the time of the save,
    and every other key of the store is left alone; a property of
    [personalInfo] that the partial carries as [undefined] is erased.
    When the browser refuses the write the save throws. *)
Theorem save_then_load (m : gmap string text) (now : Z) (data : PartialResume) :
  exists prior m',
    getResumeFromLocalStorage (Items m) = Ok prior /\
    saveResumeToLocalStorage now true data (Items m) = Ok (Items m') /\
    getResumeFromLocalStorage (Items m')
    = Ok (stamped now (merge_non_empty data prior)) /\
    (forall key, key <> STORAGE_KEY -> m' !! key = m !! key) /\
    (forall o, p_personalInfo data = Some o -> o_phone o = Some None ->
               phone (s_personalInfo (stamped now (merge_non_empty data prior)))
               = None) /\
    saveResumeToLocalStorage now false data (Items m)
    = Throw QuotaExceededError.
Proof.
  destruct (getResumeFromLocalStorage_total (Items m)) as [prior Hprior].
  destruct (save_on_readable_store m now data prior Hprior) as [Hsave Hload].
  exists prior. eexists. split; [exact Hprior|].
  split; [exact Hsave|]. split; [exact Hload|]. split; [|split].
  - intros key Hkey. apply lookup_insert_ne. congruence.
  - intros o Ho Hphone. simpl. rewrite Ho. simpl. rewrite Hphone. reflexivity.
  - apply save_refused.
Qed.

Lemma save_then_load_witness :
  let data :=
    {| p_personalInfo :=
         Some {| o_firstName := "Ana"; o_lastName := "Diaz";
                 o_email := "ana@example.org"; o_phone := Some None;
                 o_summary := None; o_website := None; o_linkedin := None |};
       p_education := None; p_experience := None; p_skills := Some ["Rocq"];
       p_projects := None; p_templateStyle := None; p_colorScheme := None;
       p_isAtsOptimized := None; p_targetRole := None; p_atsScore := None |} in
  exists d m',
    saveResumeToLocalStorage 9 true data
      (Items {[ STORAGE_KEY := Malformed "{oops"; "theme" := Malformed "dark" ]})
    = Ok (Items m') /\
    getResumeFromLocalStorage (Items m') = Ok d /\
    phone (s_personalInfo d) = None /\
    summary (s_personalInfo d) = Some "" /\
    s_skills d = ["Rocq"] /\
    m' !! "theme" = Some (Malformed "dark").
Proof.
  intros data.
  destruct (save_then_load
              {[ STORAGE_KEY := Malformed "{oops"; "theme" := Malformed "dark" ]}
              9 data)
    as (prior & m' & Hprior & Hsave & Hload & Hframe & Herased & _).
  eexists. exists m'. split; [exact Hsave|]. split; [exact Hload|].
  split; [apply (Herased _ eq_refl); reflexivity|].
  vm_compute in Hprior. injection Hprior as <-.
  split; [reflexivity|]. split; [reflexivity|].
  rewrite Hframe by discriminate. reflexivity.
Defined.

(** X4.  Saving the same partial draft a second time, when the browser
    accepts both writes, changes the time stamp and nothing else. *)
Theorem save_is_idempotent (m : gmap string text) (t1 t2 : Z)
    (data : PartialResume) :
  exists ls1 ls2 once,
    saveResumeToLocalStorage t1 true data (Items m) = Ok ls1 /\
    saveResumeToLocalStorage t2 true data ls1 = Ok ls2 /\
    getResumeFromLocalStorage ls1 = Ok once /\
    getResumeFromLocalStorage ls2 = Ok (stamped t2 once).
Proof.
  destruct (getResumeFromLocalStorage_total (Items m)) as [prior Hprior].
  destruct (save_on_readable_store m t1 data prior Hprior) as [Hsave1 Hload1].
  destruct (save_on_readable_store _ t2 data _ Hload1) as [Hsave2 Hload2].
  eexists. eexists. exists (stamped t1 (merge_non_empty data prior)).
  split; [exact Hsave1|]. split; [exact Hsave2|]. split; [exact Hload1|].
  rewrite Hload2, merge_non_empty_twice. reflexivity.
Qed.

(** X5.  After [clearResumeFromLocalStorage] on a store that can be read,
    the store is as if never written: a load returns the default draft,
    the other keys are left alone, and clearing again changes nothing. *)
Theorem clear_then_load (m : gmap string text) :
  exists m',
    clearResumeFromLocalStorage (Items m) = Ok (Items m') /\
    getResumeFromLocalStorage (Items m') = Ok defaultData /\
    never_written (Items m') /\
    (forall key, key <> STORAGE_KEY -> m' !! key = m !! key) /\
    clearResumeFromLocalStorage (Items m') = Ok (Items m').
Proof.
  exists (delete STORAGE_KEY m).
  assert (Hfresh : never_written (Items (delete STORAGE_KEY m))).
  { unfold never_written. simpl. rewrite lookup_delete_eq. reflexivity. }
  split; [reflexivity|]. split; [apply load_never_written, Hfresh|].
  split; [exact Hfresh|]. split.
  - intros key Hkey. apply lookup_delete_ne. congruence.
  - unfold clearResumeFromLocalStorage. simpl.
    rewrite delete_delete_eq. reflexivity.
Qed.

Lemma clear_then_load_witness :
  exists m',
    clearResumeFromLocalStorage
      (Items {[ STORAGE_KEY := Malformed "oops"; "theme" := Malformed "dark" ]})
    = Ok (Items m') /\
    getResumeFromLocalStorage (Items m') = Ok defaultData /\
    m' !! "theme" = Some (Malformed "dark").
Proof.
  destruct (clear_then_load
              {[ STORAGE_KEY := Malformed "oops"; "theme" := Malformed "dark" ]})
    as (m' & Hclear & Hload & _ & Hframe & _).
  exists m'. split; [exact Hclear|]. split; [exact Hload|].
  rewrite Hframe by discriminate. reflexivity.
Defined.

(** X6.  A save and a clear have no handler of their own.  A save throws
    in two cases and no other: the browser refuses access to the store, or
    it refuses the write for want of room; what it throws is the error of
    the store.  A clear throws when the browser refuses access, and only
    then. *)
Theorem save_fails_only_when_refused (ls : localStorage) (now : Z)
    (fits : bool) (data : PartialResume) (e : exn) :
  (saveResumeToLocalStorage now fits data ls = Throw e
   <-> (ls = Blocked /\ e = SecurityError) \/
       (ls <> Blocked /\ fits = false /\ e = QuotaExceededError)) /\
  (clearResumeFromLocalStorage ls = Throw e
   <-> ls = Blocked /\ e = SecurityError).
Proof.
  destruct ls as [|m].
  - split; split.
    + intros [= <-]. left. split; reflexivity.
    + intros [[_ ->] | [Hls _]]; [reflexivity | congruence].
    + intros [= <-]. split; reflexivity.
    + intros [_ ->]. reflexivity.
  - destruct (getResumeFromLocalStorage_total (Items m)) as [prior Hprior].
    destruct fits.
    + rewrite (save_writes_merge m now data prior Hprior).
      split; split; try discriminate.
      * intros [[Hls _] | (_ & Hfits & _)]; discriminate.
      * intros [Hls _]. discriminate Hls.
    + rewrite save_refused. split; split; try discriminate.
      * intros [= <-]. right. repeat split. discriminate.
      * intros [[Hls _] | (_ & _ & ->)]; [discriminate Hls | reflexivity].
      * intros [Hls _]. discriminate Hls.
Qed.

Lemma save_fails_only_when_refused_witness :
  saveResumeToLocalStorage 0 true (BuilderHandlers.only_skills []) Blocked
  = Throw SecurityError /\
  saveResumeToLocalStorage 0 false (BuilderHandlers.only_skills []) (Items ∅)
  = Throw QuotaExceededError.
Proof.
  split.
  - apply (proj2 (proj1 (save_fails_only_when_refused Blocked 0 true
             (BuilderHandlers.only_skills []) SecurityError))).
    left. split; reflexivity.
  - apply (proj2 (proj1 (save_fails_only_when_refused (Items ∅) 0 false
             (BuilderHandlers.only_skills []) QuotaExceededError))).
    right. repeat split. discriminate.
Defined.

End LocalDraftStoreMore.

(** ** The builder page: navigation and the update handlers *)

Section BuilderFacts.
Import JS Schema LocalStorage BuilderHandlers.

Lemma indexOf_from_range (l : list string) (x : string) (i : Z) :
  (indexOf_from l x i = -1 \/
   i <= indexOf_from l x i < i + Z.of_nat (length l))%Z.
Proof.
  revert i. induction l as [|y l IH]; intros i; [left; reflexivity|].
  cbn [indexOf_from length]. rewrite Nat2Z.inj_succ.
  destruct (String.eqb y x); [right; lia|].
  destruct (IH (i + 1)%Z) as [->|Hr]; [left; reflexivity | right; lia].
Qed.

Lemma indexOf_from_absent (l : list string) (x : string) (i : Z) :
  x ∉ l -> indexOf_from l x i = (-1)%Z.
Proof.
  revert i. induction l as [|y l IH]; intros i Hx; simpl; [reflexivity|].
  apply not_elem_of_cons in Hx as [Hne Hx].
  destruct (String.eqb_spec y x) as [->|_]; [congruence|]. apply IH, Hx.
Qed.

Lemma at_index_in_range (l : list string) (i : Z) :
  (0 <= i < Z.of_nat (length l))%Z ->
  exists t, at_index l i = Some t /\ t ∈ l.
Proof.
  intros Hi. unfold at_index.
  destruct (Z.ltb_spec i 0) as [?|_]; [lia|].
  destruct (lookup_lt_is_Some_2 l (Z.to_nat i)) as [t Ht]; [lia|].
  exists t. split; [exact Ht|]. apply list_elem_of_lookup. eauto.
Qed.

(** X7.  The navigation handlers never set an undefined tab: after
    Previous or Next the active tab is the one it was or a tab of [tabs].
    Previous does nothing on the first tab and Next nothing on the last;
    on a tab that is not in [tabs] Previous does nothing and Next goes to
    the first tab; everywhere else Next and Previous undo each other. *)
Theorem navigation_stays_in_tabs (activeTab : string) :
  (exists t, after activeTab (handlePrevious activeTab) = Some t /\
             (t = activeTab \/ t ∈ tabs)) /\
  (exists t, after activeTab (handleNext activeTab) = Some t /\
             (t = activeTab \/ t ∈ tabs)) /\
  handlePrevious "personal" = Stay /\
  handleNext "coverletter" = Stay /\
  (activeTab ∉ tabs ->
   handlePrevious activeTab = Stay /\
   handleNext activeTab = SetActiveTab (Some "personal")) /\
  (activeTab ∈ tabs -> activeTab <> "coverletter" ->
   exists t, handleNext activeTab = SetActiveTab (Some t) /\
             handlePrevious t = SetActiveTab (Some activeTab)) /\
  (activeTab ∈ tabs -> activeTab <> "personal" ->
   exists t, handlePrevious activeTab = SetActiveTab (Some t) /\
             handleNext t = SetActiveTab (Some activeTab)).
Proof.
  assert (Hlen : Z.of_nat (length tabs) = 6%Z) by reflexivity.
  split; [|split; [|split; [|split; [|split; [|split]]]]].
  - unfold handlePrevious, indexOf.
    destruct (indexOf_from_range tabs activeTab 0) as [->|Hr].
    + exists activeTab. split; [reflexivity | left; reflexivity].
    + destruct (Z.ltb_spec 0 (indexOf_from tabs activeTab 0)) as [Hpos|_].
      * destruct (at_index_in_range tabs (indexOf_from tabs activeTab 0 - 1))
          as (t & Ht & Hin); [lia|].
        exists t. split; [exact Ht | right; exact Hin].
      * exists activeTab. split; [reflexivity | left; reflexivity].
  - unfold handleNext, indexOf.
    rewrite Hlen.
    destruct (Z.ltb_spec (indexOf_from tabs activeTab 0) (6 - 1)) as [Hlt|_].
    + destruct (at_index_in_range tabs (indexOf_from tabs activeTab 0 + 1))
        as (t & Ht & Hin).
      { destruct (indexOf_from_range tabs activeTab 0) as [->|Hr]; lia. }
      exists t. split; [exact Ht | right; exact Hin].
    + exists activeTab. split; [reflexivity | left; reflexivity].
  - reflexivity.
  - reflexivity.
  - intros Habsent. unfold handlePrevious, handleNext, indexOf.
    rewrite (indexOf_from_absent tabs activeTab 0 Habsent). split; reflexivity.
  - intros Hin Hlast. unfold tabs in Hin.
    repeat (apply elem_of_cons in Hin as [-> | Hin]);
      try congruence; try (eexists; split; reflexivity).
    apply elem_of_nil in Hin. destruct Hin.
  - intros Hin Hfirst. unfold tabs in Hin.
    repeat (apply elem_of_cons in Hin as [-> | Hin]);
      try congruence; try (eexists; split; reflexivity).
    apply elem_of_nil in Hin. destruct Hin.
Qed.

Lemma navigation_stays_in_tabs_witness :
  (exists t, handleNext "skills" = SetActiveTab (Some t) /\
             handlePrevious t = SetActiveTab (Some "skills")) /\
  handleNext "settings" = SetActiveTab (Some "personal").
Proof.
  destruct (navigation_stays_in_tabs "skills") as (_ & _ & _ & _ & _ & Hnext & _).
  destruct (navigation_stays_in_tabs "settings") as (_ & _ & _ & _ & Habsent & _).
  split.
  - apply Hnext; [|discriminate]. unfold tabs. repeat constructor.
  - apply Habsent. unfold tabs. intros Hin.
    repeat (apply elem_of_cons in Hin as [Hin | Hin]; [discriminate Hin|]).
    apply elem_of_nil in Hin. exact Hin.
Defined.

Lemma truthy_non_empty (s : string) : s <> "" -> truthy s = true.
Proof.
  intros Hs. unfold truthy.
  destruct (String.eqb_spec s ""); [congruence | reflexivity].
Qed.

Lemma read_as_object (p : PersonalInfo) : read (as_object p) = p.
Proof. destruct p as [fn ln em [ph|] [su|] [we|] [li|]]; reflexivity. Qed.

Lemma view_initialState : view initialState = Builder.initialResumeData.
Proof. reflexivity. Qed.

Lemma view_mount (savedData : SavedResumeData) :
  view (mount savedData) = Builder.hydrate savedData.
Proof.
  unfold view, mount, Builder.hydrate. cbn. rewrite read_as_object. reflexivity.
Qed.

(** A save that the browser accepts, on a readable store, and what a
    reload shows after it. *)
Lemma reload_after_save (m : gmap string text) (now : Z) (data : PartialResume) :
  exists prior ls',
    getResumeFromLocalStorage (Items m) = Ok prior /\
    saveResumeToLocalStorage now true data (Items m) = Ok ls' /\
    reload ls' = Ok (Builder.hydrate (stamped now (merge_non_empty data prior))).
Proof.
  destruct (getResumeFromLocalStorage_total (Items m)) as [prior Hprior].
  destruct (save_on_readable_store m now data prior Hprior) as [Hsave Hload].
  exists prior. eexists. split; [exact Hprior|]. split; [exact Hsave|].
  unfold reload. rewrite Hload. cbn. rewrite view_mount. reflexivity.
Qed.

Lemma in_step_prior (prev : ResumeState) (ls : localStorage) :
  in_step prev ls ->
  exists prior, getResumeFromLocalStorage ls = Ok prior /\
                Builder.hydrate prior = without_score (view prev).
Proof.
  unfold in_step, reload. intros Hstep.
  destruct (getResumeFromLocalStorage ls) as [prior|e] eqn:Hprior;
    [|discriminate Hstep].
  exists prior. split; [reflexivity|].
  cbn in Hstep. rewrite view_mount in Hstep. congruence.
Qed.

(** The write of a handler that the browser accepts: the store is in step
    with the new state when the merged draft is the one the state shows. *)
Lemma accepted_write_in_step (m : gmap string text) (now : Z)
    (data : PartialResume) (prior : SavedResumeData) (st : ResumeState) :
  getResumeFromLocalStorage (Items m) = Ok prior ->
  Builder.hydrate (stamped now (merge_non_empty data prior))
  = without_score (view st) ->
  exists ls',
    saveResumeToLocalStorage now true data (Items m) = Ok ls' /\
    in_step st ls'.
Proof.
  intros Hprior Hsame.
  destruct (reload_after_save m now data)
    as (prior' & ls' & Hprior' & Hsave & Hreload).
  rewrite Hprior in Hprior'. injection Hprior' as <-.
  exists ls'. split; [exact Hsave|].
  unfold in_step. rewrite Hreload, Hsame. reflexivity.
Qed.

(** X8.  The handlers of the four lists keep the store in step with the
    draft on the page: when a reload would have shown the draft before the
    handler ran and the browser accepts the write, the handler's write
    succeeds, the draft on the page holds the new list, and a reload would
    show that draft.  When the browser refuses the write on a readable
    store, the handler throws the [QuotaExceededError] of the store. *)
Theorem list_handlers_keep_in_step (m : gmap string text) (now : Z)
    (prev : ResumeState) :
  in_step prev (Items m) ->
  (forall data,
      (exists ls',
         snd (handleEducationSave now true data prev (Items m)) = Ok ls' /\
         st_education (fst (handleEducationSave now true data prev (Items m)))
         = data /\
         in_step (fst (handleEducationSave now true data prev (Items m))) ls') /\
      snd (handleEducationSave now false data prev (Items m))
      = Throw QuotaExceededError) /\
  (forall data,
      (exists ls',
         snd (handleExperienceSave now true data prev (Items m)) = Ok ls' /\
         st_experience (fst (handleExperienceSave now true data prev (Items m)))
         = data /\
         in_step (fst (handleExperienceSave now true data prev (Items m))) ls') /\
      snd (handleExperienceSave now false data prev (Items m))
      = Throw QuotaExceededError) /\
  (forall data,
      (exists ls',
         snd (handleSkillsSave now true data prev (Items m)) = Ok ls' /\
         st_skills (fst (handleSkillsSave now true data prev (Items m))) = data /\
         in_step (fst (handleSkillsSave now true data prev (Items m))) ls') /\
      snd (handleSkillsSave now false data prev (Items m))
      = Throw QuotaExceededError) /\
  (forall data,
      (exists ls',
         snd (handleProjectsSave now true data prev (Items m)) = Ok ls' /\
         st_projects (fst (handleProjectsSave now true data prev (Items m)))
         = data /\
         in_step (fst (handleProjectsSave now true data prev (Items m))) ls') /\
      snd (handleProjectsSave now false data prev (Items m))
      = Throw QuotaExceededError).
Proof.
  intros Hstep.
  destruct (in_step_prior prev (Items m) Hstep) as (prior & Hprior & Hsame).
  unfold Builder.hydrate, without_score in Hsame.
  injection Hsame as Hpi Hed Hex Hsk Hpr Hts Hcs Hao Htr.
  split; [|split; [|split]]; intros data;
    unfold handleEducationSave, handleExperienceSave, handleSkillsSave,
           handleProjectsSave; cbn [fst snd];
    (split; [|apply save_refused]);
    match goal with
    | |- exists ls', saveResumeToLocalStorage now true ?p (Items m) = Ok ls' /\
                     _ /\ in_step ?st ls' =>
        destruct (accepted_write_in_step m now p prior st Hprior)
          as (ls' & Hsave & Hnew);
        [|exists ls'; split; [exact Hsave | split; [reflexivity | exact Hnew]]]
    end;
    unfold Builder.hydrate, without_score; simpl;
    rewrite Hpi, ?Hed, ?Hex, ?Hsk, ?Hpr, Hts, Hcs, Hao, Htr; reflexivity.
Qed.

Lemma list_handlers_keep_in_step_witness :
  (exists ls',
     snd (handleSkillsSave 7 true ["Rocq"] initialState (Items ∅)) = Ok ls' /\
     reload ls'
     = Ok (view (fst (handleSkillsSave 7 true ["Rocq"] initialState (Items ∅))))) /\
  snd (handleSkillsSave 7 false ["Rocq"] initialState (Items ∅))
  = Throw QuotaExceededError.
Proof.
  destruct (list_handlers_keep_in_step ∅ 7 initialState)
    as (_ & _ & Hskills & _); [reflexivity|].
  destruct (Hskills ["Rocq"]) as ((ls' & Hsave & _ & Hstep) & Hrefused).
  split; [|exact Hrefused].
  exists ls'. split; [exact Hsave | exact Hstep].
Defined.

Lemma complete_spread (data : PersonalInfoObject) (prior : PersonalInfo) :
  complete data -> layer_personalInfo (Some data) prior = read data.
Proof.
  intros ([ph Hph] & [su Hsu] & [we Hwe] & [li Hli]).
  destruct data as [fn ln em ph' su' we' li']. simpl in *. subst.
  reflexivity.
Qed.

(** X9.  The personal-information and options handlers keep the store in
    step with the draft on the page when the browser accepts the write and
    what they receive leaves nothing out: a personal-information object
    that has its four optional properties (each may be [undefined], which
    erases the stored value), options whose three strings are not empty.
    When the browser refuses the write on a readable store, the handler
    throws the [QuotaExceededError] of the store. *)
Theorem form_handlers_keep_in_step (m : gmap string text) (now : Z)
    (prev : ResumeState) :
  in_step prev (Items m) ->
  (forall data,
      (complete data -> exists ls',
         snd (handlePersonalInfoSave now true data prev (Items m)) = Ok ls' /\
         st_personalInfo
           (fst (handlePersonalInfoSave now true data prev (Items m))) = data /\
         in_step (fst (handlePersonalInfoSave now true data prev (Items m))) ls') /\
      snd (handlePersonalInfoSave now false data prev (Items m))
      = Throw QuotaExceededError) /\
  (forall options,
      (filled options -> exists ls',
         snd (handleOptionsChange now true options prev (Items m)) = Ok ls' /\
         in_step (fst (handleOptionsChange now true options prev (Items m))) ls') /\
      snd (handleOptionsChange now false options prev (Items m))
      = Throw QuotaExceededError).
Proof.
  intros Hstep.
  destruct (in_step_prior prev (Items m) Hstep) as (prior & Hprior & Hsame).
  unfold Builder.hydrate, without_score in Hsame.
  injection Hsame as Hpi Hed Hex Hsk Hpr Hts Hcs Hao Htr.
  split.
  - intros data. unfold handlePersonalInfoSave. cbn [fst snd].
    split; [|apply save_refused]. intros Hdata.
    destruct (accepted_write_in_step m now (only_personalInfo data) prior
                {| st_personalInfo := data;
                   st_education := st_education prev;
                   st_experience := st_experience prev;
                   st_skills := st_skills prev;
                   st_projects := st_projects prev;
                   st_templateStyle := st_templateStyle prev;
                   st_colorScheme := st_colorScheme prev;
                   st_isAtsOptimized := st_isAtsOptimized prev;
                   st_targetRole := st_targetRole prev;
                   st_atsScore := st_atsScore prev |} Hprior)
      as (ls' & Hsave & Hnew).
    + unfold Builder.hydrate, without_score. cbn -[layer_personalInfo read].
      rewrite (complete_spread data _ Hdata), Hed, Hex, Hsk, Hpr, Hts, Hcs,
        Hao, Htr.
      reflexivity.
    + exists ls'. split; [exact Hsave|]. split; [reflexivity | exact Hnew].
  - intros options. unfold handleOptionsChange. cbn [fst snd].
    split; [|apply save_refused].
    intros (Hts' & Hcs' & role & Hrole & Hne).
    apply (accepted_write_in_step m now _ prior _ Hprior).
    unfold Builder.hydrate, without_score. simpl.
    unfold layer_string, layer_string_opt. rewrite Hrole.
    rewrite !truthy_non_empty by assumption.
    rewrite Hpi, Hed, Hex, Hsk, Hpr. reflexivity.
Qed.

Lemma form_handlers_keep_in_step_witness :
  let data := {| o_firstName := "Ana"; o_lastName := "Diaz";
                 o_email := "ana@example.org"; o_phone := Some None;
                 o_summary := Some (Some ""); o_website := Some (Some "");
                 o_linkedin := Some (Some "") |} in
  exists ls',
    snd (handlePersonalInfoSave 7 true data initialState (Items ∅)) = Ok ls' /\
    reload ls'
    = Ok (view (fst (handlePersonalInfoSave 7 true data initialState (Items ∅)))).
Proof.
  intros data.
  destruct (form_handlers_keep_in_step ∅ 7 initialState)
    as [Hpersonal _]; [reflexivity|].
  destruct (Hpersonal data) as (Haccepted & _).
  destruct Haccepted as (ls' & Hsave & _ & Hstep).
  { unfold complete, data. simpl. repeat split; eexists; reflexivity. }
  exists ls'. split; [exact Hsave | exact Hstep].
Defined.

(** X10.  Save Progress writes the whole draft to the browser store.  When
    the browser accepts the write, whatever the store held, a reload then
    shows the draft of the page (without its score, which the store does
    not keep), provided the draft holds a value for every property the
    store keeps and its top-level strings are not empty.  When the browser
    refuses the write, the write throws the [QuotaExceededError] of the
    store. *)
Theorem save_progress_then_reload (m : gmap string text) (now : Z)
    (resumeData : ResumeState) :
  fully_specified resumeData ->
  (exists ls',
     handleSaveProgress_local now true resumeData (Items m) = Ok ls' /\
     in_step resumeData ls') /\
  handleSaveProgress_local now false resumeData (Items m)
  = Throw QuotaExceededError.
Proof.
  intros (Hpi & (ts & Hts & Htsne) & (cs & Hcs & Hcsne) & [ao Hao]
          & (tr & Htr & Htrne)).
  unfold handleSaveProgress_local. split; [|apply save_refused].
  destruct (getResumeFromLocalStorage_total (Items m)) as [prior Hprior].
  apply (accepted_write_in_step m now _ prior _ Hprior).
  unfold Builder.hydrate, without_score. cbn -[layer_personalInfo read].
  rewrite (complete_spread _ _ Hpi), Hts, Hcs, Hao, Htr. simpl.
  rewrite !truthy_non_empty by assumption. reflexivity.
Qed.

Lemma save_progress_then_reload_witness :
  let st := {| st_personalInfo :=
                 {| o_firstName := "Ana"; o_lastName := "Diaz";
                    o_email := "ana@example.org"; o_phone := Some (Some "");
                    o_summary := Some (Some "Engineer");
                    o_website := Some None; o_linkedin := Some (Some "") |};
               st_education := []; st_experience := []; st_skills := ["Rocq"];
               st_projects := []; st_templateStyle := Some "modern";
               st_colorScheme := Some "green"; st_isAtsOptimized := Some false;
               st_targetRole := Some "Nurse"; st_atsScore := Some 80%Z |} in
  (exists ls',
     handleSaveProgress_local 3 true st
       (Items {[ STORAGE_KEY := Malformed "garbage" ]}) = Ok ls' /\
     reload ls' = Ok (without_score (view st))) /\
  handleSaveProgress_local 3 false st
    (Items {[ STORAGE_KEY := Malformed "garbage" ]})
  = Throw QuotaExceededError.
Proof.
  intros st.
  apply (save_progress_then_reload {[ STORAGE_KEY := Malformed "garbage" ]} 3 st).
  unfold fully_specified, complete, st. simpl.
  repeat split; try (eexists; reflexivity);
    eexists; (split; [reflexivity | discriminate]).
Defined.

End BuilderFacts.

(** ** The two stores: deletion, ids, updates *)

Section RepositoryMore.
Import JS Storage StorageInvariants.

(** X11.  Deleting a record, in both implementations: the answer is
    [true] exactly when the record was there; afterwards the record is
    gone, every other record is as it was, and a second delete answers
    [false] and changes nothing.  [DatabaseStorage] answers so for an id
    that is a 32-bit integer; for any other id the server rejects the
    query and nothing changes. *)
Theorem delete_then_gone (key : Z) (db : DatabaseStorage.Database)
    (this : MemStorage.MemStorage) :
  (int4 key = false ->
   DatabaseStorage.deleteResume key db = (Throw NeonDbError, db)) /\
  (DatabaseStorage.getResume key db = Ok None ->
   DatabaseStorage.deleteResume key db = (Ok false, db)) /\
  (is_Some (DatabaseStorage.resumes db !! key) -> int4 key = true ->
   exists db',
     DatabaseStorage.deleteResume key db = (Ok true, db') /\
     DatabaseStorage.getResume key db' = Ok None /\
     DatabaseStorage.deleteResume key db' = (Ok false, db') /\
     (forall k, k <> key ->
        DatabaseStorage.resumes db' !! k = DatabaseStorage.resumes db !! k) /\
     DatabaseStorage.users db' = DatabaseStorage.users db /\
     DatabaseStorage.resumes_id_seq db' = DatabaseStorage.resumes_id_seq db) /\
  (MemStorage.getResume key this = None ->
   MemStorage.deleteResume key this = (false, this)) /\
  (is_Some (MemStorage.getResume key this) ->
   fst (MemStorage.deleteResume key this) = true /\
   MemStorage.getResume key (snd (MemStorage.deleteResume key this)) = None /\
   MemStorage.deleteResume key (snd (MemStorage.deleteResume key this))
   = (false, snd (MemStorage.deleteResume key this))) /\
  (forall k, k <> key ->
     MemStorage.getResume k (snd (MemStorage.deleteResume key this))
     = MemStorage.getResume k this).
Proof.
  unfold DatabaseStorage.getResume, DatabaseStorage.deleteResume,
         MemStorage.getResume, MemStorage.deleteResume.
  split; [|split; [|split; [|split; [|split]]]].
  - intros ->. reflexivity.
  - destruct (int4 key); [|discriminate]. cbn [negb]. intros [= ->]. reflexivity.
  - intros [row Hrow] ->. cbn [negb]. rewrite Hrow.
    eexists. split; [reflexivity|].
    cbn [DatabaseStorage.resumes DatabaseStorage.users
         DatabaseStorage.resumes_id_seq].
    rewrite lookup_delete_eq.
    split; [reflexivity|]. split; [reflexivity|].
    split; [|split; reflexivity].
    intros k Hk. apply lookup_delete_ne. congruence.
  - intros ->. reflexivity.
  - intros [existing ->]. cbn. rewrite lookup_delete_eq. repeat split.
  - intros k Hk. destruct (MemStorage.resumes this !! key); [|reflexivity].
    cbn. apply lookup_delete_ne. congruence.
Qed.

Lemma delete_then_gone_witness :
  let this := snd (MemStorage.createResume 0 empty_payload MemStorage.new) in
  let db := one_row_table in
  fst (MemStorage.deleteResume 1 this) = true /\
  MemStorage.getResume 1 (snd (MemStorage.deleteResume 1 this)) = None /\
  MemStorage.deleteResume 2 this = (false, this) /\
  (exists db', DatabaseStorage.deleteResume 1 db = (Ok true, db') /\
               DatabaseStorage.deleteResume 1 db' = (Ok false, db')) /\
  DatabaseStorage.deleteResume 2 db = (Ok false, db) /\
  DatabaseStorage.deleteResume 4294967297 db = (Throw NeonDbError, db).
Proof.
  intros this db.
  destruct (delete_then_gone 1 db this) as (_ & _ & Hrow & _ & Hthere & _).
  destruct (delete_then_gone 2 db this) as (_ & Hnone & _ & Habsent & _).
  destruct (delete_then_gone 4294967297 db this) as (Hwide & _).
  destruct Hthere as (Htrue & Hgone & _); [eexists; reflexivity|].
  split; [exact Htrue|]. split; [exact Hgone|].
  split; [apply Habsent; reflexivity|].
  split; [|split; [apply Hnone; reflexivity | apply Hwide; reflexivity]].
  destruct Hrow as (db' & Hdel & _ & Hagain & _);
    [eexists; reflexivity | reflexivity |].
  exists db'. split; [exact Hdel | exact Hagain].
Defined.

Lemma new_below_counter : below_counter MemStorage.new.
Proof. intros k r Hk. simpl in Hk. rewrite lookup_empty in Hk. discriminate. Qed.

Lemma MemStorage_create_below (now : Z) (data : PartialResumeData)
    (this : MemStorage.MemStorage) :
  below_counter this ->
  below_counter (snd (MemStorage.createResume now data this)).
Proof.
  intros Hinv k r. simpl.
  destruct (decide (MemStorage.resumeIdCounter this = k)) as [<-|Hne].
  - intros _. lia.
  - rewrite lookup_insert_ne by exact Hne. intros Hk.
    specialize (Hinv k r Hk). lia.
Qed.

Lemma MemStorage_update_below (now key : Z) (data : PartialResumeData)
    (this : MemStorage.MemStorage) :
  below_counter this ->
  below_counter (snd (MemStorage.updateResume now key data this)).
Proof.
  intros Hinv. unfold MemStorage.updateResume.
  destruct (MemStorage.resumes this !! key) as [existing|] eqn:Hkey;
    [|exact Hinv].
  intros k r. simpl.
  destruct (decide (key = k)) as [<-|Hne].
  - intros _. exact (Hinv key existing Hkey).
  - rewrite lookup_insert_ne by exact Hne. apply Hinv.
Qed.

Lemma MemStorage_delete_below (key : Z) (this : MemStorage.MemStorage) :
  below_counter this ->
  below_counter (snd (MemStorage.deleteResume key this)).
Proof.
  intros Hinv. unfold MemStorage.deleteResume.
  destruct (MemStorage.resumes this !! key) as [existing|] eqn:Hkey;
    [|exact Hinv].
  intros k r. simpl. intros Hk.
  apply lookup_delete_Some in Hk as [_ Hk]. exact (Hinv k r Hk).
Qed.

(** X12.  The counter of a [MemStorage] stays ahead of every key: the
    state the constructor builds has the property and create, update and
    delete keep it.  So a create never overwrites a record: the id it hands
    out is not in use, the records that were there are still there, and two
    creates in a row hand out consecutive ids and leave both records. *)
Theorem MemStorage_ids_are_fresh (now now' key : Z)
    (data data' : PartialResumeData) (this : MemStorage.MemStorage) :
  below_counter MemStorage.new /\
  (below_counter this ->
   below_counter (snd (MemStorage.createResume now data this)) /\
   below_counter (snd (MemStorage.updateResume now key data this)) /\
   below_counter (snd (MemStorage.deleteResume key this)) /\
   MemStorage.getResume (id (fst (MemStorage.createResume now data this))) this
   = None /\
   (forall k r, MemStorage.getResume k this = Some r ->
      MemStorage.getResume k (snd (MemStorage.createResume now data this))
      = Some r) /\
   (let this1 := snd (MemStorage.createResume now data this) in
    let r1 := fst (MemStorage.createResume now data this) in
    let r2 := fst (MemStorage.createResume now' data' this1) in
    let this2 := snd (MemStorage.createResume now' data' this1) in
    id r2 = (id r1 + 1)%Z /\
    MemStorage.getResume (id r1) this2 = Some r1 /\
    MemStorage.getResume (id r2) this2 = Some r2)).
Proof.
  split; [exact new_below_counter|]. intros Hinv.
  split; [apply MemStorage_create_below, Hinv|].
  split; [apply MemStorage_update_below, Hinv|].
  split; [apply MemStorage_delete_below, Hinv|].
  assert (Hfree : MemStorage.resumes this !! MemStorage.resumeIdCounter this = None).
  { destruct (MemStorage.resumes this !! MemStorage.resumeIdCounter this)
      as [r|] eqn:Hk; [|reflexivity].
    specialize (Hinv _ _ Hk). lia. }
  split; [exact Hfree|]. split.
  - intros k r Hk. unfold MemStorage.getResume in *. simpl.
    rewrite lookup_insert_ne; [exact Hk|]. intros <-. congruence.
  - simpl. split; [reflexivity|]. unfold MemStorage.getResume. simpl. split.
    + rewrite lookup_insert_ne by lia. apply lookup_insert_eq.
    + apply lookup_insert_eq.
Qed.

Lemma MemStorage_ids_are_fresh_witness :
  let this1 := snd (MemStorage.createResume 1 empty_payload MemStorage.new) in
  let r1 := fst (MemStorage.createResume 1 empty_payload MemStorage.new) in
  let r2 := fst (MemStorage.createResume 2 empty_payload this1) in
  let this2 := snd (MemStorage.createResume 2 empty_payload this1) in
  id r1 = 1%Z /\ id r2 = 2%Z /\
  MemStorage.getResume 1 this2 = Some r1 /\
  MemStorage.getResume 2 this2 = Some r2.
Proof.
  intros this1 r1 r2 this2.
  destruct (MemStorage_ids_are_fresh 1 2 0 empty_payload empty_payload
              MemStorage.new) as (Hnew & Hkeep).
  destruct (Hkeep Hnew) as (_ & _ & _ & _ & _ & Hid & Hr1 & Hr2).
  split; [reflexivity|]. split; [reflexivity|]. split; [exact Hr1 | exact Hr2].
Defined.

Lemma DatabaseStorage_delete_consistent (key : Z) (db : DatabaseStorage.Database) :
  DatabaseStorage.consistent db ->
  DatabaseStorage.consistent (snd (DatabaseStorage.deleteResume key db)).
Proof.
  intros Hok. unfold DatabaseStorage.deleteResume.
  destruct (int4 key); [|exact Hok]. cbn [negb].
  destruct (DatabaseStorage.resumes db !! key) as [found|]; [|exact Hok].
  intros k r. simpl. intros Hk.
  apply lookup_delete_Some in Hk as [_ Hk]. exact (Hok k r Hk).
Qed.

Lemma DatabaseStorage_update_consistent (now key : Z) (data : PartialResumeData)
    (db : DatabaseStorage.Database) :
  DatabaseStorage.consistent db ->
  DatabaseStorage.consistent (snd (DatabaseStorage.updateResume now key data db)).
Proof.
  intros Hok.
  unfold DatabaseStorage.updateResume, DatabaseStorage.update_returning.
  destruct (int4 key); [|exact Hok]. cbn [negb].
  destruct (params_ok _); [|exact Hok]. cbn [negb].
  destruct (DatabaseStorage.resumes db !! key) as [row|] eqn:Hrow; [|exact Hok].
  destruct (bool_decide _); [exact Hok|].
  destruct (bool_decide _) eqn:Huser; [|exact Hok]. cbn [negb snd].
  apply bool_decide_eq_true_1 in Huser.
  destruct (Hok key row Hrow) as (Hid & Hseq & _).
  assert (Hsame : id (assign (with_updatedAt now (without_id_atsScore data)) row)
                  = key) by exact Hid.
  rewrite Hsame. intros k r.
  cbn [DatabaseStorage.resumes DatabaseStorage.users
       DatabaseStorage.resumes_id_seq].
  destruct (decide (key = k)) as [<-|Hne].
  - rewrite lookup_insert_eq. intros [= <-].
    split; [exact Hsame|]. split; [exact Hseq | exact Huser].
  - rewrite lookup_insert_ne, lookup_delete_ne by exact Hne. apply Hok.
Qed.

Lemma DatabaseStorage_create_consistent (now : Z) (data : PartialResumeData)
    (db : DatabaseStorage.Database) :
  DatabaseStorage.consistent db ->
  DatabaseStorage.consistent (snd (DatabaseStorage.createResume now data db)) /\
  (forall k r, DatabaseStorage.resumes db !! k = Some r ->
     DatabaseStorage.resumes (snd (DatabaseStorage.createResume now data db)) !! k
     = Some r).
Proof.
  intros Hok.
  assert (Hmoved : DatabaseStorage.consistent
                     {| DatabaseStorage.users := DatabaseStorage.users db;
                        DatabaseStorage.resumes := DatabaseStorage.resumes db;
                        DatabaseStorage.resumes_id_seq
                        := (DatabaseStorage.resumes_id_seq db + 1)%Z |}).
  { intros k r Hk. destruct (Hok k r Hk) as (Hid & Hlt & Hu).
    split; [exact Hid|]. split; [simpl; lia | exact Hu]. }
  unfold DatabaseStorage.createResume, DatabaseStorage.insert_returning.
  cbn [in_id in_userId without_atsScore default id userId].
  destruct (params_ok _); cbn [negb]; [|split; [exact Hok | auto]].
  destruct (int4 _); cbn [negb]; [|split; [exact Hok | auto]].
  destruct (bool_decide _); [split; [exact Hmoved | auto]|].
  destruct (bool_decide _) eqn:Huser; cbn [negb];
    [|split; [exact Hmoved | auto]].
  apply bool_decide_eq_true_1 in Huser. cbn [snd]. split.
  - intros k r.
    cbn [DatabaseStorage.resumes DatabaseStorage.users
         DatabaseStorage.resumes_id_seq].
    destruct (decide (DatabaseStorage.resumes_id_seq db = k)) as [<-|Hne].
    + rewrite lookup_insert_eq. intros [= <-].
      split; [reflexivity|]. split; [lia | exact Huser].
    + rewrite lookup_insert_ne by exact Hne. intros Hk.
      destruct (Hok k r Hk) as (Hid & Hlt & Hu).
      split; [exact Hid|]. split; [lia | exact Hu].
  - intros k r Hk. cbn [DatabaseStorage.resumes].
    destruct (Hok k r Hk) as (_ & Hlt & _).
    rewrite lookup_insert_ne by lia. exact Hk.
Qed.

(** X13.  The table of [DatabaseStorage] stays consistent (a row sits
    under its own id, the sequence is ahead of every id, the user of a row
    exists) under create, update and delete, whatever the payload and
    whether or not the server accepts the query, and the rows that were
    there are still there after a create.  Two creates in a row that the
    server accepts hand out consecutive ids, the first of them the one the
    sequence was at, and leave both rows.  A create that the server rejects
    because the user does not exist loses its id: the next create gets the
    id after it. *)
Theorem DatabaseStorage_keeps_consistent (now now' key : Z)
    (data data' : PartialResumeData) (db : DatabaseStorage.Database) :
  DatabaseStorage.consistent db ->
  DatabaseStorage.consistent (snd (DatabaseStorage.createResume now data db)) /\
  DatabaseStorage.consistent (snd (DatabaseStorage.updateResume now key data db)) /\
  DatabaseStorage.consistent (snd (DatabaseStorage.deleteResume key db)) /\
  (forall k r, DatabaseStorage.resumes db !! k = Some r ->
     DatabaseStorage.resumes (snd (DatabaseStorage.createResume now data db)) !! k
     = Some r) /\
  (params_ok data = true -> params_ok data' = true ->
   int4 (DatabaseStorage.resumes_id_seq db) = true ->
   int4 (DatabaseStorage.resumes_id_seq db + 1) = true ->
   or_number (in_userId data') 1 ∈ DatabaseStorage.users db ->
   (or_number (in_userId data) 1 ∈ DatabaseStorage.users db ->
    exists r1 db1 r2 db2,
      DatabaseStorage.createResume now data db = (Ok r1, db1) /\
      DatabaseStorage.createResume now' data' db1 = (Ok r2, db2) /\
      id r1 = DatabaseStorage.resumes_id_seq db /\
      DatabaseStorage.resumes db !! id r1 = None /\
      id r2 = (id r1 + 1)%Z /\
      DatabaseStorage.getResume (id r1) db2 = Ok (Some r1) /\
      DatabaseStorage.getResume (id r2) db2 = Ok (Some r2)) /\
   (or_number (in_userId data) 1 ∉ DatabaseStorage.users db ->
    exists db1 r2 db2,
      DatabaseStorage.createResume now data db = (Throw NeonDbError, db1) /\
      DatabaseStorage.createResume now' data' db1 = (Ok r2, db2) /\
      id r2 = (DatabaseStorage.resumes_id_seq db + 1)%Z /\
      DatabaseStorage.getResume (DatabaseStorage.resumes_id_seq db) db2
      = Ok None /\
      DatabaseStorage.getResume (id r2) db2 = Ok (Some r2))).
Proof.
  intros Hok.
  destruct (DatabaseStorage_create_consistent now data db Hok) as [Hok' Hframe].
  split; [exact Hok'|].
  split; [apply DatabaseStorage_update_consistent, Hok|].
  split; [apply DatabaseStorage_delete_consistent, Hok|].
  split; [exact Hframe|].
  intros Hdata Hdata' Hseq Hseq' Huser'.
  assert (Hfree : DatabaseStorage.resumes db !! DatabaseStorage.resumes_id_seq db
                  = None).
  { destruct (DatabaseStorage.resumes db !! DatabaseStorage.resumes_id_seq db)
      as [row|] eqn:Hrow; [|reflexivity].
    destruct (Hok _ _ Hrow) as (_ & Hlt & _). lia. }
  split.
  - intros Huser.
    destruct (DatabaseStorage_create now data db Hok Hdata Hseq Huser)
      as (r1 & db1 & Hcreate & Hrows & Husers & Hnext & _ & _ & Hu & Hid & _).
    assert (Hok1 : DatabaseStorage.consistent db1).
    { apply (consistent_insert db db1 r1 Hok Hrows Husers Hnext Hid).
      rewrite Hu. exact Huser. }
    destruct (DatabaseStorage_create now' data' db1 Hok1 Hdata')
      as (r2 & db2 & Hcreate' & Hrows' & _ & _ & _ & _ & _ & Hid' & _).
    { rewrite Hnext. exact Hseq'. }
    { rewrite Husers. exact Huser'. }
    exists r1, db1, r2, db2.
    split; [exact Hcreate|]. split; [exact Hcreate'|].
    split; [exact Hid|]. split; [rewrite Hid; exact Hfree|].
    split; [rewrite Hid', Hnext, Hid; reflexivity|].
    unfold DatabaseStorage.getResume.
    rewrite Hid', Hid, Hnext, Hseq, Hseq', Hrows', Hrows, Hnext. cbn [negb].
    split.
    + rewrite lookup_insert_ne by lia. rewrite lookup_insert_eq. reflexivity.
    + rewrite lookup_insert_eq. reflexivity.
  - intros Huser.
    pose proof (DatabaseStorage_create_unknown_user_id now data db Hok Hdata
                  Hseq Huser) as Hcreate.
    assert (Hok1 : DatabaseStorage.consistent
                     (snd (DatabaseStorage.createResume now data db)))
      by exact Hok'.
    rewrite Hcreate in Hok1. cbn [snd] in Hok1.
    destruct (DatabaseStorage_create now' data' _ Hok1 Hdata')
      as (r2 & db2 & Hcreate' & Hrows' & _ & _ & _ & _ & _ & Hid' & _).
    { exact Hseq'. }
    { exact Huser'. }
    eexists. exists r2, db2.
    split; [exact Hcreate|]. split; [exact Hcreate'|].
    cbn [DatabaseStorage.resumes DatabaseStorage.resumes_id_seq] in Hid', Hrows'.
    split; [exact Hid'|].
    unfold DatabaseStorage.getResume.
    rewrite Hid', Hseq, Hseq', Hrows'. cbn [negb].
    split.
    + rewrite lookup_insert_ne by lia. rewrite Hfree. reflexivity.
    + rewrite lookup_insert_eq. reflexivity.
Qed.

Lemma DatabaseStorage_keeps_consistent_witness :
  let db := {| DatabaseStorage.users := {[ 1%Z ]}; DatabaseStorage.resumes := ∅;
               DatabaseStorage.resumes_id_seq := 1 |} in
  let stranger :=
    {| in_id := None; in_userId := Some 5%Z; in_firstName := None;
       in_lastName := None; in_email := None; in_phone := None;
       in_summary := None; in_website := None; in_linkedin := None;
       in_education := None; in_experience := None; in_skills := None;
       in_projects := None; in_templateStyle := None; in_colorScheme := None;
       in_targetRole := None; in_isAtsOptimized := None; in_atsScore := None;
       in_createdAt := None; in_updatedAt := None |} in
  (exists r1 db1 r2 db2,
     DatabaseStorage.createResume 1 empty_payload db = (Ok r1, db1) /\
     DatabaseStorage.createResume 2 empty_payload db1 = (Ok r2, db2) /\
     id r1 = 1%Z /\ id r2 = 2%Z) /\
  (exists db1 r2 db2,
     DatabaseStorage.createResume 1 stranger db = (Throw NeonDbError, db1) /\
     DatabaseStorage.createResume 2 empty_payload db1 = (Ok r2, db2) /\
     id r2 = 2%Z).
Proof.
  intros db stranger.
  destruct (DatabaseStorage_keeps_consistent 1 2 1 empty_payload empty_payload
              db empty_table_consistent) as (_ & _ & _ & _ & Htwo).
  destruct (DatabaseStorage_keeps_consistent 1 2 1 stranger empty_payload
              db empty_table_consistent) as (_ & _ & _ & _ & Hlost).
  split.
  - destruct Htwo as [Htwo _]; try reflexivity.
    destruct Htwo as (r1 & db1 & r2 & db2 & H1 & H2 & Hid1 & _ & Hid2 & _);
      [reflexivity|].
    exists r1, db1, r2, db2. split; [exact H1|]. split; [exact H2|].
    split; [exact Hid1|]. rewrite Hid2, Hid1. reflexivity.
  - destruct Hlost as [_ Hlost]; try reflexivity.
    destruct Hlost as (db1 & r2 & db2 & H1 & H2 & Hid2 & _).
    { intros Hin. apply (bool_decide_eq_true_2 _) in Hin.
      vm_compute in Hin. discriminate Hin. }
    exists db1, r2, db2. split; [exact H1|]. split; [exact H2 | exact Hid2].
Defined.



Lemma without_id_atsScore_same (data : PartialResumeData) :
  in_id data = None -> in_atsScore data = None ->
  without_id_atsScore data = data.
Proof.
  destruct data. simpl. intros -> ->. reflexivity.
Qed.

(** X15.  The two implementations agree on an update whose payload carries
    neither [id] nor [atsScore], when the server accepts it (the parameters
    fit their columns and the user the payload names, if any, exists): on
    the same record they return the same record and store it under the
    same key (JSON values being equal up to the order of the keys of their
    objects, which the model does not represent).  They disagree when the
    payload names a user that does not exist: [DatabaseStorage] rejects the
    update and changes nothing, [MemStorage] stores it. *)
Theorem update_agreement (now key : Z) (data : PartialResumeData)
    (db : DatabaseStorage.Database) (this : MemStorage.MemStorage)
    (existing : ResumeData) :
  DatabaseStorage.consistent db ->
  DatabaseStorage.getResume key db = Ok (Some existing) ->
  MemStorage.getResume key this = Some existing ->
  in_id data = None -> in_atsScore data = None ->
  (params_ok data = true ->
   (forall user, in_userId data = Some user -> user ∈ DatabaseStorage.users db) ->
   fst (DatabaseStorage.updateResume now key data db)
   = Ok (fst (MemStorage.updateResume now key data this)) /\
   DatabaseStorage.getResume key
     (snd (DatabaseStorage.updateResume now key data db))
   = Ok (MemStorage.getResume key
           (snd (MemStorage.updateResume now key data this)))) /\
  fst (MemStorage.updateResume now key data this)
  = Some (assign (with_updatedAt now data) existing) /\
  (forall user, in_userId data = Some user ->
                user ∉ DatabaseStorage.users db ->
   DatabaseStorage.updateResume now key data db = (Throw NeonDbError, db)).
Proof.
  intros Hok Hdb Hmem Hid Hscore.
  unfold MemStorage.getResume in Hmem.
  split; [|split].
  - intros Hdata Huser.
    destruct (DatabaseStorage_update_frame now key data db existing Hok Hdb
                Hdata Huser) as (row' & db' & Hupd & Hget & _).
    rewrite Hupd. cbn [fst snd]. rewrite Hget.
    unfold DatabaseStorage.updateResume, DatabaseStorage.update_returning in Hupd.
    unfold DatabaseStorage.getResume in Hdb.
    destruct (int4 key); [|discriminate Hdb]. cbn [negb] in Hdb, Hupd.
    injection Hdb as Hdb. rewrite Hdb in Hupd.
    rewrite (without_id_atsScore_same data Hid Hscore) in Hupd.
    assert (Hrow : row' = assign (with_updatedAt now data) existing).
    { repeat match type of Hupd with
             | (if ?b then _ else _) = _ => destruct b; try discriminate Hupd
             end.
      injection Hupd as <- _. reflexivity. }
    unfold MemStorage.updateResume, MemStorage.getResume. rewrite Hmem.
    cbn [fst snd MemStorage.resumes]. rewrite lookup_insert_eq, Hrow.
    split; reflexivity.
  - unfold MemStorage.updateResume. rewrite Hmem. reflexivity.
  - intros user Huid Huser.
    unfold DatabaseStorage.getResume in Hdb.
    unfold DatabaseStorage.updateResume, DatabaseStorage.update_returning.
    destruct (int4 key); [|discriminate Hdb]. cbn [negb] in Hdb |- *.
    injection Hdb as Hdb. rewrite Hdb.
    destruct (params_ok _); [|reflexivity]. cbn [negb].
    destruct (bool_decide _); [reflexivity|].
    rewrite bool_decide_eq_false_2; [reflexivity|].
    simpl. rewrite Huid. exact Huser.
Qed.

Lemma update_agreement_witness :
  let db := one_row_table in
  let this := snd (MemStorage.createResume 0 empty_payload MemStorage.new) in
  let data := with_updatedAt 3 empty_payload in
  fst (DatabaseStorage.updateResume 5 1 data db)
  = Ok (fst (MemStorage.updateResume 5 1 data this)).
Proof.
  intros db this data.
  assert (Hok : DatabaseStorage.consistent db).
  { intros k row Hrow. unfold db in Hrow. simpl in Hrow.
    apply lookup_singleton_Some in Hrow as [<- <-].
    split; [reflexivity|]. split; [simpl; lia | reflexivity]. }
  destruct (update_agreement 5 1 data db this
              (fst (MemStorage.createResume 0 empty_payload MemStorage.new)) Hok
              eq_refl eq_refl eq_refl eq_refl)
    as (Hagree & _).
  destruct Hagree as [Hagree _]; [reflexivity | discriminate | exact Hagree].
Defined.

End RepositoryMore.

(** ** The other routes of the server *)

Section ApiOnAnyStorage.
Import JS Storage Routes Api.
Context {S : Type} `{IStorage S}.

(** X16.  The four record routes always reply, whatever the storage does:
    the handler never throws, and the reply is a 500 exactly when the call
    to the storage rejects (which needs a segment [parseInt] can read,
    where there is one). *)
Theorem routes_always_reply (now : Z) (storage : S) (segment : string)
    (req_body : PartialResumeData) :
  (exists r, get_resume_by_id storage segment = Ok r /\
     (status r = 500%Z <->
      exists key e, parseInt segment = Some key /\
                    getResume key storage = Throw e)) /\
  (exists r storage', post_resumes now storage req_body = Ok (r, storage') /\
     (code r = 500%Z <->
      exists e, fst (createResume now (with_userId req_body) storage)
                = Throw e)) /\
  (exists r storage',
     put_resume_by_id now storage segment req_body = Ok (r, storage') /\
     (code r = 500%Z <->
      exists key e, parseInt segment = Some key /\
                    fst (updateResume now key req_body storage) = Throw e)) /\
  (exists r storage', delete_resume_by_id storage segment = Ok (r, storage') /\
     (code r = 500%Z <->
      exists key e, parseInt segment = Some key /\
                    fst (deleteResume key storage) = Throw e)).
Proof.
  split; [|split; [|split]].
  - unfold get_resume_by_id.
    destruct (parseInt segment) as [key|].
    + destruct (getResume key storage) as [[r|]|e] eqn:Hget; cbn;
        eexists; (split; [reflexivity|]); cbn.
      * split; [discriminate|]. intros (k & e & [= <-] & He). congruence.
      * split; [discriminate|]. intros (k & e & [= <-] & He). congruence.
      * split; [|reflexivity]. intros _. exists key, e. split; [reflexivity | exact Hget].
    + cbn. eexists. split; [reflexivity|]. cbn.
      split; [discriminate|]. intros (k & e & Hk & _). discriminate Hk.
  - unfold post_resumes.
    destruct (createResume now (with_userId req_body) storage)
      as [[r|e] storage'] eqn:Hcreate; cbn;
      eexists; eexists; (split; [reflexivity|]); cbn.
    + split; [discriminate|]. intros (e & He). discriminate He.
    + split; [|reflexivity]. intros _. exists e. reflexivity.
  - unfold put_resume_by_id.
    destruct (parseInt segment) as [key|].
    + destruct (updateResume now key req_body storage)
        as [[[r|]|e] storage'] eqn:Hupd; cbn;
        eexists; eexists; (split; [reflexivity|]); cbn.
      * split; [discriminate|]. intros (k & e & [= <-] & He).
        rewrite Hupd in He. discriminate He.
      * split; [discriminate|]. intros (k & e & [= <-] & He).
        rewrite Hupd in He. discriminate He.
      * split; [|reflexivity]. intros _. exists key, e.
        split; [reflexivity | rewrite Hupd; reflexivity].
    + cbn. eexists. eexists. split; [reflexivity|]. cbn.
      split; [discriminate|]. intros (k & e & Hk & _). discriminate Hk.
  - unfold delete_resume_by_id.
    destruct (parseInt segment) as [key|].
    + destruct (deleteResume key storage)
        as [[[]|e] storage'] eqn:Hdel; cbn;
        eexists; eexists; (split; [reflexivity|]); cbn.
      * split; [discriminate|]. intros (k & e & [= <-] & He).
        rewrite Hdel in He. discriminate He.
      * split; [discriminate|]. intros (k & e & [= <-] & He).
        rewrite Hdel in He. discriminate He.
      * split; [|reflexivity]. intros _. exists key, e.
        split; [reflexivity | rewrite Hdel; reflexivity].
    + cbn. eexists. eexists. split; [reflexivity|]. cbn.
      split; [discriminate|]. intros (k & e & Hk & _). discriminate Hk.
Qed.

End ApiOnAnyStorage.

Section ApiFacts.
Import JS Storage StorageInvariants Routes ResumeService Api.

Lemma routes_always_reply_witness :
  let db := {| DatabaseStorage.users := {[ 1%Z ]};
               DatabaseStorage.resumes := ∅;
               DatabaseStorage.resumes_id_seq := 1 |} in
  (exists r db', delete_resume_by_id db "1" = Ok (r, db') /\ code r <> 500%Z) /\
  (exists r db', delete_resume_by_id db "4294967297" = Ok (r, db') /\
                 code r = 500%Z).
Proof.
  intros db.
  destruct (routes_always_reply 0 db "1" empty_payload)
    as (_ & _ & _ & r & db' & Hreply & Hfail).
  destruct (routes_always_reply 0 db "4294967297" empty_payload)
    as (_ & _ & _ & r2 & db2 & Hreply2 & Hfail2).
  split.
  - exists r, db'. split; [exact Hreply|].
    intros Hcode. apply Hfail in Hcode as (key & e & [= <-] & Hthrow).
    discriminate Hthrow.
  - exists r2, db2. split; [exact Hreply2|].
    apply Hfail2. exists 4294967297%Z, NeonDbError. split; reflexivity.
Defined.

Lemma params_ok_with_userId (req_body : PartialResumeData) :
  params_ok req_body = true -> params_ok (with_userId req_body) = true.
Proof.
  intros Hbody.
  destruct (params_ok_fields req_body Hbody)
    as (Hi & Hu & Hfn & Hln & Hem & Hph & Hsu & Hwe & Hli & Hed & Hex & Hsk
        & Hpr & Hts & Hcs & Htr & Hsc).
  unfold params_ok.
  cbn [with_userId in_id in_userId in_firstName in_lastName in_email in_phone
       in_summary in_website in_linkedin in_education in_experience in_skills
       in_projects in_templateStyle in_colorScheme in_targetRole in_atsScore].
  rewrite Hi, Hfn, Hln, Hem, Hph, Hsu, Hwe, Hli, Hed, Hex, Hsk, Hpr, Hts, Hcs,
    Htr, Hsc.
  destruct (in_userId req_body) as [user|]; [|reflexivity].
  simpl in Hu |- *. rewrite Hu. reflexivity.
Qed.

Lemma or_number_with_userId (req_body : PartialResumeData) :
  or_number (in_userId (with_userId req_body)) 1
  = or_number (in_userId req_body) 1.
Proof. simpl. destruct (in_userId req_body); reflexivity. Qed.

(** X17.  [POST /api/resumes] on the exported storage, for a body whose
    values fit their columns.  When the user of the record exists (the user
    of the body, or user 1 when the body names none or names 0) the answer
    is 201 with the record created: it is stored under a fresh id, the one
    the sequence was at; its score is [null] whatever the body carries; its
    properties are the truthy ones of the body and defaults for the rest;
    the records that were there are still there.  When the user does not
    exist the answer is 500 with the error of the server, no record is
    added and the id is lost. *)
Theorem post_on_database (now : Z) (db : DatabaseStorage.Database)
    (req_body : PartialResumeData) :
  DatabaseStorage.consistent db ->
  params_ok req_body = true ->
  int4 (DatabaseStorage.resumes_id_seq db) = true ->
  (or_number (in_userId req_body) 1 ∈ DatabaseStorage.users db ->
   exists r db',
     post_resumes now db req_body
     = Ok ({| code := 201; body_sent := ResumeBody r |}, db') /\
     DatabaseStorage.getResume (Storage.id r) db' = Ok (Some r) /\
     Storage.id r = DatabaseStorage.resumes_id_seq db /\
     DatabaseStorage.getResume (Storage.id r) db = Ok None /\
     userId r = or_number (in_userId req_body) 1 /\
     Storage.atsScore r = None /\
     createdAt r = Some {| getTime := now |} /\
     updatedAt r = Some {| getTime := now |} /\
     as_supplied_truthy req_body r /\
     (forall k row, DatabaseStorage.getResume k db = Ok (Some row) ->
                    DatabaseStorage.getResume k db' = Ok (Some row)) /\
     DatabaseStorage.consistent db') /\
  (or_number (in_userId req_body) 1 ∉ DatabaseStorage.users db ->
   exists db',
     post_resumes now db req_body
     = Ok ({| code := 500;
              body_sent := ErrorReport "Failed to create resume" NeonDbError |},
           db') /\
     DatabaseStorage.resumes db' = DatabaseStorage.resumes db /\
     DatabaseStorage.resumes_id_seq db'
     = (DatabaseStorage.resumes_id_seq db + 1)%Z).
Proof.
  intros Hok Hbody Hseq.
  pose proof (params_ok_with_userId req_body Hbody) as Hdata.
  split.
  - intros Huser. rewrite <- or_number_with_userId in Huser.
    destruct (DatabaseStorage_create now (with_userId req_body) db Hok Hdata
                Hseq Huser)
      as (r & db' & Hcreate & Hrows & Husers & Hnext & Hfree & Hsup & Hu & Hsrv).
    destruct Hsrv as (Hid & Hc & Hup & Hscore).
    exists r, db'. split.
    { unfold post_resumes. cbn [createResume DatabaseStorage_IStorage].
      rewrite Hcreate. reflexivity. }
    unfold DatabaseStorage.getResume. rewrite Hid, Hseq, Hrows, Hfree.
    cbn [negb]. rewrite lookup_insert_eq.
    split; [reflexivity|]. split; [reflexivity|]. split; [reflexivity|].
    split; [rewrite Hu; apply or_number_with_userId|].
    split; [exact Hscore|]. split; [exact Hc|]. split; [exact Hup|].
    split; [exact Hsup|]. split.
    + intros k row Hk. destruct (int4 k); [|discriminate Hk].
      cbn [negb] in Hk |- *. injection Hk as Hk.
      destruct (Hok k row Hk) as (_ & Hlt & _).
      rewrite lookup_insert_ne by lia. rewrite Hk. reflexivity.
    + apply (consistent_insert db db' r Hok Hrows Husers Hnext Hid).
      rewrite Hu. exact Huser.
  - intros Huser. rewrite <- or_number_with_userId in Huser.
    pose proof (DatabaseStorage_create_unknown_user_id now (with_userId req_body)
                  db Hok Hdata Hseq Huser) as Hcreate.
    eexists. split.
    { unfold post_resumes. cbn [createResume DatabaseStorage_IStorage].
      rewrite Hcreate. reflexivity. }
    split; reflexivity.
Qed.

Lemma post_on_database_witness :
  let db := {| DatabaseStorage.users := {[ 1%Z ]}; DatabaseStorage.resumes := ∅;
               DatabaseStorage.resumes_id_seq := 1 |} in
  let stranger :=
    {| in_id := None; in_userId := Some 5%Z; in_firstName := None;
       in_lastName := None; in_email := None; in_phone := None;
       in_summary := None; in_website := None; in_linkedin := None;
       in_education := None; in_experience := None; in_skills := None;
       in_projects := None; in_templateStyle := None; in_colorScheme := None;
       in_targetRole := None; in_isAtsOptimized := None; in_atsScore := None;
       in_createdAt := None; in_updatedAt := None |} in
  (exists r db',
     post_resumes 4 db empty_payload
     = Ok ({| code := 201; body_sent := ResumeBody r |}, db') /\
     Storage.id r = 1%Z /\ userId r = 1%Z /\
     DatabaseStorage.getResume 1 db' = Ok (Some r)) /\
  (exists db',
     post_resumes 4 db stranger
     = Ok ({| code := 500;
              body_sent := ErrorReport "Failed to create resume" NeonDbError |},
           db') /\
     DatabaseStorage.resumes_id_seq db' = 2%Z).
Proof.
  intros db stranger.
  destruct (post_on_database 4 db empty_payload empty_table_consistent
              eq_refl eq_refl) as [Hcreated _].
  destruct (post_on_database 4 db stranger empty_table_consistent
              eq_refl eq_refl) as [_ Hrejected].
  split.
  - destruct Hcreated as (r & db' & Hreply & Hread & Hid & _ & Huser & _);
      [reflexivity|].
    exists r, db'. split; [exact Hreply|]. split; [exact Hid|].
    split; [exact Huser|].
    replace 1%Z with (Storage.id r) by exact Hid. exact Hread.
  - destruct Hrejected as (db' & Hreply & _ & Hseq).
    { intros Hin. apply (bool_decide_eq_true_2 _) in Hin.
      vm_compute in Hin. discriminate Hin. }
    exists db'. split; [exact Hreply | exact Hseq].
Defined.

(** X18.  [PUT /api/resumes/:id] on the exported storage: 400 when
    [parseInt] reads no number in the segment; 500 with the error of the
    server when the number is not a 32-bit integer; for a body whose values
    fit their columns, 404 when no record has the id and otherwise, if the
    body carries no [createdAt] (a JSON text has no [Date] to give) and the
    user it names (when it names one) exists, 200 with the updated record,
    which is the one now stored under the id, keeps its id and its score
    whatever the body carries, has the time of the request as [updatedAt]
    and holds every other property the body carries; 500 when the body
    names a user that does not exist.  The table changes in the 200 case
    only. *)
Theorem put_on_database (now : Z) (db : DatabaseStorage.Database)
    (segment : string) (req_body : PartialResumeData) :
  DatabaseStorage.consistent db ->
  (parseInt segment = None ->
   put_resume_by_id now db segment req_body
   = Ok ({| code := 400; body_sent := ErrorMessage "Invalid resume ID" |}, db)) /\
  (forall key, parseInt segment = Some key -> int4 key = false ->
   put_resume_by_id now db segment req_body
   = Ok ({| code := 500;
            body_sent := ErrorReport "Failed to update resume" NeonDbError |},
         db)) /\
  (forall key, parseInt segment = Some key ->
               params_ok req_body = true ->
               DatabaseStorage.getResume key db = Ok None ->
   put_resume_by_id now db segment req_body
   = Ok ({| code := 404; body_sent := ErrorMessage "Resume not found" |}, db)) /\
  (forall key row, parseInt segment = Some key ->
                   params_ok req_body = true ->
                   DatabaseStorage.getResume key db = Ok (Some row) ->
                   in_createdAt req_body = None ->
                   (forall user, in_userId req_body = Some user ->
                                 user ∈ DatabaseStorage.users db) ->
   exists row' db',
     put_resume_by_id now db segment req_body
     = Ok ({| code := 200; body_sent := ResumeBody row' |}, db') /\
     DatabaseStorage.getResume key db' = Ok (Some row') /\
     Storage.id row' = key /\ Storage.atsScore row' = Storage.atsScore row /\
     updatedAt row' = Some {| getTime := now |} /\
     provided req_body row' /\
     DatabaseStorage.consistent db') /\
  (forall key row user, parseInt segment = Some key ->
                        DatabaseStorage.getResume key db = Ok (Some row) ->
                        in_userId req_body = Some user ->
                        user ∉ DatabaseStorage.users db ->
   put_resume_by_id now db segment req_body
   = Ok ({| code := 500;
            body_sent := ErrorReport "Failed to update resume" NeonDbError |},
         db)).
Proof.
  intros Hok. unfold put_resume_by_id.
  split; [|split; [|split; [|split]]].
  - intros ->. reflexivity.
  - intros key -> Hkey. cbn [updateResume DatabaseStorage_IStorage].
    unfold DatabaseStorage.updateResume, DatabaseStorage.update_returning.
    rewrite Hkey. reflexivity.
  - intros key -> Hbody Hrow. cbn [updateResume DatabaseStorage_IStorage].
    unfold DatabaseStorage.getResume in Hrow.
    unfold DatabaseStorage.updateResume, DatabaseStorage.update_returning.
    destruct (int4 key); [|discriminate Hrow]. cbn [negb] in Hrow |- *.
    injection Hrow as Hrow.
    rewrite (params_ok_update now req_body Hbody), Hrow. reflexivity.
  - intros key row -> Hbody Hrow _ Huser.
    destruct (DatabaseStorage_update_frame now key req_body db row Hok Hrow
                Hbody Huser)
      as (row' & db' & Hupd & Hget & [Hid Hscore] & _ & Hprov & Hat & _ & _
          & _ & Hok').
    unfold DatabaseStorage.getResume in Hrow.
    destruct (int4 key); [|discriminate Hrow]. cbn [negb] in Hrow.
    injection Hrow as Hrow.
    destruct (Hok key row Hrow) as [Hkey _].
    exists row', db'. split.
    { cbn [updateResume DatabaseStorage_IStorage]. rewrite Hupd. reflexivity. }
    split; [exact Hget|]. split; [congruence|]. split; [exact Hscore|].
    split; [exact Hat|]. split; [exact Hprov | exact Hok'].
  - intros key row user -> Hrow Huid Huser.
    cbn [updateResume DatabaseStorage_IStorage].
    unfold DatabaseStorage.getResume in Hrow.
    unfold DatabaseStorage.updateResume, DatabaseStorage.update_returning.
    destruct (int4 key); [|discriminate Hrow]. cbn [negb] in Hrow |- *.
    injection Hrow as Hrow. rewrite Hrow.
    destruct (params_ok _); [|reflexivity]. cbn [negb].
    destruct (bool_decide _); [reflexivity|].
    rewrite bool_decide_eq_false_2; [reflexivity|].
    simpl. rewrite Huid. exact Huser.
Qed.

Lemma one_row_table_consistent : DatabaseStorage.consistent one_row_table.
Proof.
  intros k row Hrow. unfold one_row_table in Hrow. simpl in Hrow.
  apply lookup_singleton_Some in Hrow as [<- <-].
  split; [reflexivity|]. split; [simpl; lia | reflexivity].
Qed.

Lemma put_on_database_witness :
  let db := {| DatabaseStorage.users := {[ 1%Z ]}; DatabaseStorage.resumes := ∅;
               DatabaseStorage.resumes_id_seq := 1 |} in
  let rename :=
    {| in_id := Some 7%Z; in_userId := None;
       in_firstName := Some (Some "Ana"); in_lastName := None;
       in_email := None; in_phone := None; in_summary := None;
       in_website := None; in_linkedin := None; in_education := None;
       in_experience := None; in_skills := None; in_projects := None;
       in_templateStyle := None; in_colorScheme := None;
       in_targetRole := None; in_isAtsOptimized := None;
       in_atsScore := Some (Some 90%Z); in_createdAt := None;
       in_updatedAt := None |} in
  put_resume_by_id 4 db "one" empty_payload
  = Ok ({| code := 400; body_sent := ErrorMessage "Invalid resume ID" |}, db) /\
  put_resume_by_id 4 db " 12px" empty_payload
  = Ok ({| code := 404; body_sent := ErrorMessage "Resume not found" |}, db) /\
  put_resume_by_id 4 db "2147483648" empty_payload
  = Ok ({| code := 500;
           body_sent := ErrorReport "Failed to update resume" NeonDbError |},
        db) /\
  (exists row' db',
     put_resume_by_id 4 one_row_table "1" rename
     = Ok ({| code := 200; body_sent := ResumeBody row' |}, db') /\
     Storage.id row' = 1%Z /\ Storage.atsScore row' = None /\
     firstName row' = Some "Ana" /\
     updatedAt row' = Some {| getTime := 4 |}).
Proof.
  intros db rename.
  destruct (put_on_database 4 db "one" empty_payload empty_table_consistent)
    as (H400 & _).
  destruct (put_on_database 4 db " 12px" empty_payload empty_table_consistent)
    as (_ & _ & H404 & _).
  destruct (put_on_database 4 db "2147483648" empty_payload
              empty_table_consistent) as (_ & H500 & _).
  destruct (put_on_database 4 one_row_table "1" rename
              one_row_table_consistent) as (_ & _ & _ & H200 & _).
  split; [apply H400; reflexivity|].
  split; [apply (H404 12%Z); reflexivity|].
  split; [apply (H500 2147483648%Z); reflexivity|].
  destruct (H200 1%Z (new_row 0 empty_payload empty_table)
              eq_refl eq_refl eq_refl eq_refl)
    as (row' & db' & Hreply & _ & Hid & Hscore & Hat & Hprov & _).
  { intros user Huser. discriminate Huser. }
  exists row', db'. split; [exact Hreply|]. split; [exact Hid|].
  split; [exact Hscore|]. split; [|exact Hat].
  destruct Hprov as (_ & Hfirst & _). apply Hfirst. reflexivity.
Defined.

(** X19.  [DELETE /api/resumes/:id] on the exported storage: 400 when
    [parseInt] reads no number in the segment; 500 with the error of the
    server when the number is not a 32-bit integer; 404 when it is one and
    no record has the id, the table unchanged in the three cases;
    otherwise 204 with no body, the record is gone and the others are as
    they were, so the same request again answers 404, and so does a GET of
    the record. *)
Theorem delete_on_database (db : DatabaseStorage.Database) (segment : string) :
  (parseInt segment = None ->
   delete_resume_by_id db segment
   = Ok ({| code := 400; body_sent := ErrorMessage "Invalid resume ID" |}, db)) /\
  (forall key, parseInt segment = Some key -> int4 key = false ->
   delete_resume_by_id db segment
   = Ok ({| code := 500;
            body_sent := ErrorReport "Failed to delete resume" NeonDbError |},
         db)) /\
  (forall key, parseInt segment = Some key ->
               DatabaseStorage.getResume key db = Ok None ->
   delete_resume_by_id db segment
   = Ok ({| code := 404; body_sent := ErrorMessage "Resume not found" |}, db)) /\
  (forall key row, parseInt segment = Some key ->
                   DatabaseStorage.getResume key db = Ok (Some row) ->
   exists db',
     delete_resume_by_id db segment
     = Ok ({| code := 204; body_sent := NoContent |}, db') /\
     DatabaseStorage.getResume key db' = Ok None /\
     (forall k, k <> key ->
        DatabaseStorage.getResume k db' = DatabaseStorage.getResume k db) /\
     delete_resume_by_id db' segment
     = Ok ({| code := 404; body_sent := ErrorMessage "Resume not found" |}, db') /\
     get_resume_by_id db' segment
     = Ok {| status := 404; sent := Message "Resume not found" |}).
Proof.
  unfold delete_resume_by_id, get_resume_by_id.
  split; [|split; [|split]].
  - intros ->. reflexivity.
  - intros key -> Hkey. cbn [deleteResume DatabaseStorage_IStorage].
    unfold DatabaseStorage.deleteResume. rewrite Hkey. reflexivity.
  - intros key -> Hrow. unfold DatabaseStorage.getResume in Hrow.
    cbn [deleteResume DatabaseStorage_IStorage].
    unfold DatabaseStorage.deleteResume.
    destruct (int4 key); [|discriminate Hrow]. cbn [negb] in Hrow |- *.
    injection Hrow as ->. reflexivity.
  - intros key row -> Hrow. unfold DatabaseStorage.getResume in *.
    cbn [deleteResume getResume DatabaseStorage_IStorage].
    unfold DatabaseStorage.deleteResume, DatabaseStorage.getResume.
    destruct (int4 key) eqn:Hkey; [|discriminate Hrow]. cbn [negb] in Hrow |- *.
    injection Hrow as ->. cbn.
    eexists. split; [reflexivity|]. cbn.
    rewrite lookup_delete_eq. split; [reflexivity|].
    split; [|split; reflexivity].
    intros k Hk. rewrite lookup_delete_ne by congruence. reflexivity.
Qed.

Lemma delete_on_database_witness :
  let db := one_row_table in
  (exists db',
     delete_resume_by_id db "1"
     = Ok ({| code := 204; body_sent := NoContent |}, db') /\
     delete_resume_by_id db' "1"
     = Ok ({| code := 404; body_sent := ErrorMessage "Resume not found" |}, db')) /\
  delete_resume_by_id db "2147483648"
  = Ok ({| code := 500;
           body_sent := ErrorReport "Failed to delete resume" NeonDbError |},
        db).
Proof.
  intros db.
  destruct (delete_on_database db "1") as (_ & _ & _ & Hthere).
  destruct (delete_on_database db "2147483648") as (_ & Hwide & _).
  split; [|apply (Hwide 2147483648%Z); reflexivity].
  destruct (Hthere 1%Z (new_row 0 empty_payload empty_table))
    as (db' & H204 & _ & _ & H404 & _); [reflexivity | reflexivity |].
  exists db'. split; [exact H204 | exact H404].
Defined.

(** The text the optimisation adds for a role, and the score it draws. *)
Lemma floor_times_score (random : draw) :
  unit_interval random -> (65 <= floor_times random 31 + 65 <= 95)%Z.
Proof. intros Hrandom. pose proof (floor_times_31 random Hrandom). lia. Qed.

(** X20.  [POST /api/optimize-resume]: 400 unless [resumeText] is a
    non-empty string.  The target role is passed on unchecked.  When it is
    absent, or a string, the answer is 200 with what [optimizeForATS] gives
    for no role, or for that role.  When it is a truthy value that has no
    conversion to a string (an object with a property [toString] of its
    own, or an array that holds one) the template literal throws and the
    answer is 500 with that error.  Every 200 carries a text that starts
    with the resume text and a score from 65 to 95. *)
Theorem optimize_route (number_text : Z -> string) (req_body : OptimizeRequest)
    (random : draw) :
  unit_interval random ->
  (non_empty_string (opt_resumeText req_body) = None ->
   post_optimize_resume number_text req_body random
   = Ok {| code := 400; body_sent := ErrorMessage "Resume text is required" |}) /\
  (forall resumeText,
     opt_resumeText req_body = Some (JString resumeText) -> resumeText <> "" ->
     (opt_targetRole req_body = None ->
      post_optimize_resume number_text req_body random
      = Ok {| code := 200;
              body_sent :=
                OptimizedBody
                  (optimizedText (optimizeForATS resumeText None random))
                  (atsScore (optimizeForATS resumeText None random)) |}) /\
     (forall role, opt_targetRole req_body = Some (JString role) ->
      post_optimize_resume number_text req_body random
      = Ok {| code := 200;
              body_sent :=
                OptimizedBody
                  (optimizedText (optimizeForATS resumeText (Some role) random))
                  (atsScore (optimizeForATS resumeText (Some role) random)) |}) /\
     (forall role e, opt_targetRole req_body = Some role ->
                     truthy_json role = true ->
                     ToString number_text role = Throw e ->
      post_optimize_resume number_text req_body random
      = Ok {| code := 500;
              body_sent := ErrorReport "Failed to optimize resume" e |}) /\
     (forall m, opt_targetRole req_body = Some (JObject m) ->
                is_Some (m !! "toString") ->
      post_optimize_resume number_text req_body random
      = Ok {| code := 500;
              body_sent := ErrorReport "Failed to optimize resume" TypeError |}) /\
     (forall text score,
        post_optimize_resume number_text req_body random
        = Ok {| code := 200; body_sent := OptimizedBody text score |} ->
        starts_with resumeText text /\ (65 <= score <= 95)%Z)).
Proof.
  intros Hrandom. unfold post_optimize_resume. split.
  - intros ->. reflexivity.
  - intros resumeText Htext Hne. rewrite Htext. cbn [non_empty_string].
    rewrite (truthy_non_empty resumeText Hne).
    split; [|split; [|split; [|split]]].
    + intros ->. reflexivity.
    + intros role ->. unfold optimizeForATS_any, optimizeForATS.
      cbn [truthy_json ToString]. destruct (truthy role); reflexivity.
    + intros role e -> Htruthy Hthrow. unfold optimizeForATS_any.
      rewrite Htruthy, Hthrow. reflexivity.
    + intros m -> [v Hv]. unfold optimizeForATS_any.
      cbn [truthy_json ToString]. rewrite Hv. reflexivity.
    + intros text score. unfold optimizeForATS_any.
      destruct (opt_targetRole req_body) as [role|].
      * destruct (truthy_json role).
        -- destruct (ToString number_text role) as [t|e]; cbn;
             [|discriminate].
           intros [= <- <-].
           split; [eexists; reflexivity | apply floor_times_score, Hrandom].
        -- cbn. intros [= <- <-].
           split; [eexists; reflexivity | apply floor_times_score, Hrandom].
      * cbn. intros [= <- <-].
        split; [eexists; reflexivity | apply floor_times_score, Hrandom].
Qed.

Lemma optimize_route_witness :
  let random := {| num := 1; scale := 1 |} in
  let number_text := fun _ : Z => "0" in
  post_optimize_resume number_text
    {| opt_resumeText := Some (JString "Ana Diaz");
       opt_targetRole := Some (JString "Nurse") |} random
  = Ok {| code := 200;
          body_sent :=
            OptimizedBody
              (optimizedText (optimizeForATS "Ana Diaz" (Some "Nurse") random))
              (atsScore (optimizeForATS "Ana Diaz" (Some "Nurse") random)) |} /\
  post_optimize_resume number_text
    {| opt_resumeText := Some (JString "Ana Diaz");
       opt_targetRole := Some (JObject {[ "toString" := JNull ]}) |} random
  = Ok {| code := 500;
          body_sent := ErrorReport "Failed to optimize resume" TypeError |} /\
  post_optimize_resume number_text
    {| opt_resumeText := Some (JNumber 7); opt_targetRole := None |} random
  = Ok {| code := 400; body_sent := ErrorMessage "Resume text is required" |}.
Proof.
  intros random number_text.
  assert (Hdraw : unit_interval random) by (unfold unit_interval; simpl; lia).
  destruct (optimize_route number_text
              {| opt_resumeText := Some (JString "Ana Diaz");
                 opt_targetRole := Some (JString "Nurse") |}
              random Hdraw) as [_ Hgood].
  destruct (optimize_route number_text
              {| opt_resumeText := Some (JString "Ana Diaz");
                 opt_targetRole := Some (JObject {[ "toString" := JNull ]}) |}
              random Hdraw) as [_ Hthrows].
  destruct (optimize_route number_text
              {| opt_resumeText := Some (JNumber 7); opt_targetRole := None |}
              random Hdraw) as [Hbad _].
  destruct (Hgood "Ana Diaz" eq_refl) as (_ & Hrole & _); [discriminate|].
  destruct (Hthrows "Ana Diaz" eq_refl) as (_ & _ & _ & Hobject & _);
    [discriminate|].
  split; [apply (Hrole "Nurse"); reflexivity|].
  split; [|apply Hbad; reflexivity].
  apply (Hobject {[ "toString" := JNull ]}); [reflexivity|].
  exists JNull. reflexivity.
Defined.

(** X21.  [POST /api/generate-cover-letter]: 400 for the resume text
    unless [resumeText] is a non-empty string, then 400 for the target
    role unless [targetRole] is one.  The company name is passed on
    unchecked.  When it is absent, or a string, the answer is 200 with the
    letter [generateCoverLetter] gives for no company, or for that company.
    When it is a truthy value that has no conversion to a string (an object
    with a property [toString] of its own, or an array that holds one) the
    template literal throws and the answer is 500 with that error.  Every
    200 carries a letter whose second paragraph names the target role. *)
Theorem cover_letter_route (number_text : Z -> string)
    (req_body : CoverLetterRequest) :
  (non_empty_string (cl_resumeText req_body) = None ->
   post_generate_cover_letter number_text req_body
   = Ok {| code := 400; body_sent := ErrorMessage "Resume text is required" |}) /\
  (is_Some (non_empty_string (cl_resumeText req_body)) ->
   non_empty_string (cl_targetRole req_body) = None ->
   post_generate_cover_letter number_text req_body
   = Ok {| code := 400; body_sent := ErrorMessage "Target role is required" |}) /\
  (forall resumeText targetRole,
     cl_resumeText req_body = Some (JString resumeText) -> resumeText <> "" ->
     cl_targetRole req_body = Some (JString targetRole) -> targetRole <> "" ->
     (cl_companyName req_body = None ->
      post_generate_cover_letter number_text req_body
      = Ok {| code := 200;
              body_sent :=
                CoverLetterBody
                  (generateCoverLetter resumeText targetRole None) |}) /\
     (forall company, cl_companyName req_body = Some (JString company) ->
      post_generate_cover_letter number_text req_body
      = Ok {| code := 200;
              body_sent :=
                CoverLetterBody
                  (generateCoverLetter resumeText targetRole (Some company)) |}) /\
     (forall company e, cl_companyName req_body = Some company ->
                        truthy_json company = true ->
                        ToString number_text company = Throw e ->
      post_generate_cover_letter number_text req_body
      = Ok {| code := 500;
              body_sent := ErrorReport "Failed to generate cover letter" e |}) /\
     (forall m, cl_companyName req_body = Some (JObject m) ->
                is_Some (m !! "toString") ->
      post_generate_cover_letter number_text req_body
      = Ok {| code := 500;
              body_sent :=
                ErrorReport "Failed to generate cover letter" TypeError |}) /\
     (forall letter,
        post_generate_cover_letter number_text req_body
        = Ok {| code := 200; body_sent := CoverLetterBody letter |} ->
        exists before after,
          letter
          = before +:+ nl +:+ nl
            +:+ "I am writing to express my interest in the " +:+ targetRole
            +:+ " position." +:+ nl +:+ nl +:+ after)).
Proof.
  unfold post_generate_cover_letter. split; [|split].
  - intros ->. reflexivity.
  - intros [text ->] ->. reflexivity.
  - intros resumeText targetRole Htext Hne Hrole Hrne.
    rewrite Htext, Hrole. cbn [non_empty_string].
    rewrite (truthy_non_empty resumeText Hne), (truthy_non_empty targetRole Hrne).
    split; [|split; [|split; [|split]]].
    + intros ->. reflexivity.
    + intros company ->.
      unfold generateCoverLetter_any, generateCoverLetter, greeting_any,
        closing_any, greeting, closing.
      cbn [truthy_json ToString]. destruct (truthy company); reflexivity.
    + intros company e -> Htruthy Hthrow.
      unfold generateCoverLetter_any, greeting_any.
      rewrite Htruthy, Hthrow. reflexivity.
    + intros m -> [v Hv]. unfold generateCoverLetter_any, greeting_any.
      cbn [truthy_json ToString]. rewrite Hv. reflexivity.
    + intros letter. unfold generateCoverLetter_any.
      destruct (greeting_any number_text (cl_companyName req_body))
        as [greeting|e]; cbn; [|discriminate].
      destruct (closing_any number_text (cl_companyName req_body))
        as [closing|e]; cbn; [|discriminate].
      intros [= <-].
      exists greeting,
        (body +:+ nl +:+ nl +:+ closing +:+ nl +:+ nl
         +:+ thanks +:+ nl +:+ nl +:+ "Sincerely," +:+ nl +:+ "[Your Name]").
      unfold introduction. rewrite (truthy_non_empty targetRole Hrne).
      rewrite !append_assoc. reflexivity.
Qed.

Lemma cover_letter_route_witness :
  let number_text := fun _ : Z => "0" in
  post_generate_cover_letter number_text
    {| cl_resumeText := Some (JString "Ana Diaz");
       cl_targetRole := Some (JString ""); cl_companyName := None |}
  = Ok {| code := 400; body_sent := ErrorMessage "Target role is required" |} /\
  post_generate_cover_letter number_text
    {| cl_resumeText := None;
       cl_targetRole := Some (JString "Nurse"); cl_companyName := None |}
  = Ok {| code := 400; body_sent := ErrorMessage "Resume text is required" |} /\
  post_generate_cover_letter number_text
    {| cl_resumeText := Some (JString "Ana Diaz");
       cl_targetRole := Some (JString "Nurse");
       cl_companyName := Some (JArray [JObject {[ "toString" := JNull ]}]) |}
  = Ok {| code := 500;
          body_sent := ErrorReport "Failed to generate cover letter" TypeError |}.
Proof.
  intros number_text.
  destruct (cover_letter_route number_text
              {| cl_resumeText := Some (JString "Ana Diaz");
                 cl_targetRole := Some (JString ""); cl_companyName := None |})
    as (_ & Hrole & _).
  destruct (cover_letter_route number_text
              {| cl_resumeText := None;
                 cl_targetRole := Some (JString "Nurse"); cl_companyName := None |})
    as (Htext & _).
  destruct (cover_letter_route number_text
              {| cl_resumeText := Some (JString "Ana Diaz");
                 cl_targetRole := Some (JString "Nurse");
                 cl_companyName :=
                   Some (JArray [JObject {[ "toString" := JNull ]}]) |})
    as (_ & _ & Hletter).
  split; [apply Hrole; [eexists|]; reflexivity|].
  split; [apply Htext; reflexivity|].
  destruct (Hletter "Ana Diaz" "Nurse" eq_refl ltac:(discriminate)
              eq_refl ltac:(discriminate))
    as (_ & _ & Hthrows & _).
  apply (Hthrows (JArray [JObject {[ "toString" := JNull ]}]) TypeError);
    reflexivity.
Defined.

End ApiFacts.

(** ** The skill list of the skills form *)

Section SkillsFacts.
Import JS Routes Forms SkillsForm.

Lemma trim_start_headed (s : string) : headed (trim_start s).
Proof.
  induction s as [|c s IH]; [exact I|].
  cbn [trim_start]. destruct (is_white_space c) eqn:Hc; [exact IH | exact Hc].
Qed.

Lemma trim_start_of_headed (s : string) : headed s -> trim_start s = s.
Proof. destruct s as [|c s]; [reflexivity|]. simpl. intros ->. reflexivity. Qed.

Lemma trim_end_headed (s : string) : headed s -> headed (trim_end s).
Proof.
  destruct s as [|c s]; [intros _; exact I|]. cbn [headed trim_end]. intros Hc.
  destruct (trim_end s); [rewrite Hc|]; exact Hc.
Qed.

Lemma trim_end_twice (s : string) : trim_end (trim_end s) = trim_end s.
Proof.
  induction s as [|c s IH]; [reflexivity|]. cbn [trim_end].
  destruct (trim_end s) as [|d t] eqn:Ht.
  - destruct (is_white_space c) eqn:Hc; [reflexivity|].
    cbn [trim_end]. rewrite Hc. reflexivity.
  - change (trim_end (String c (String d t))) with
      (match trim_end (String d t) with
       | EmptyString => if is_white_space c then EmptyString else String c EmptyString
       | String c' rest' => String c (String c' rest')
       end).
    rewrite IH. reflexivity.
Qed.

(** Trimming a trimmed text changes nothing. *)
Lemma trim_twice (s : string) : trim (trim s) = trim s.
Proof.
  unfold trim.
  rewrite (trim_start_of_headed (trim_end (trim_start s))).
  - apply trim_end_twice.
  - apply trim_end_headed, trim_start_headed.
Qed.

Lemma handleRemoveSkill_sublist (index : nat) (l : list string) :
  forall s, s ∈ handleRemoveSkill index l -> s ∈ l.
Proof.
  unfold handleRemoveSkill. generalize 0%nat.
  induction l as [|x l IH]; intros start s; cbn [filter_indexed]; [auto|].
  destruct (negb (start =? index)%nat).
  - intros Hs. apply elem_of_cons in Hs as [->|Hs]; [left | right; eauto].
  - intros Hs. right. eauto.
Qed.

Lemma handleAddSkill_tidy (skill : string) (st : SkillsState) :
  Forall tidy (skills st) ->
  Forall tidy (skills (fst (handleAddSkill skill st))).
Proof.
  intros Htidy. unfold handleAddSkill.
  destruct (String.eqb_spec (trim skill) "") as [Hblank|Hword]; cbn [fst skills].
  - exact Htidy.
  - apply Forall_app. split; [exact Htidy|].
    apply Forall_cons. split; [|apply Forall_nil; exact I].
    split; [exact Hword | apply trim_twice].
Qed.

(** X22.  The skills of the form stay tidy (not empty, no white space at
    either end) under its three handlers, when they were tidy to begin
    with.  Adding a skill that is blank does nothing and saves nothing;
    adding any other appends it trimmed, saves the new list and clears the
    input; a key other than Enter does nothing. *)
Theorem skills_stay_tidy (st : SkillsState) (skill key : string) (index : nat) :
  Forall tidy (skills st) ->
  Forall tidy (skills (fst (handleAddSkill skill st))) /\
  Forall tidy (skills (fst (removeSkill index st))) /\
  Forall tidy (skills (fst (handleKeyDown key st))) /\
  (forall saved, snd (handleAddSkill skill st) = Some saved ->
                 saved = skills (fst (handleAddSkill skill st)) /\
                 saved = skills st ++ [trim skill] /\
                 skillInput (fst (handleAddSkill skill st)) = "") /\
  (snd (handleAddSkill skill st) = None ->
   trim skill = "" /\ fst (handleAddSkill skill st) = st) /\
  (key <> "Enter" -> handleKeyDown key st = (st, None)) /\
  handleKeyDown "Enter" st = handleAddSkill (skillInput st) st.
Proof.
  intros Htidy.
  split; [apply handleAddSkill_tidy, Htidy|].
  split.
  { unfold removeSkill. cbn [fst skills].
    apply Forall_forall. intros s Hs.
    apply (proj1 (Forall_forall _ _) Htidy), (handleRemoveSkill_sublist index), Hs. }
  split.
  { unfold handleKeyDown. destruct (String.eqb key "Enter");
      [apply handleAddSkill_tidy, Htidy | exact Htidy]. }
  split; [|split; [|split; [|reflexivity]]].
  - unfold handleAddSkill.
    destruct (String.eqb_spec (trim skill) "") as [Hblank|Hword]; cbn [fst snd skills].
    + discriminate.
    + intros saved [= <-]. repeat split.
  - unfold handleAddSkill.
    destruct (String.eqb_spec (trim skill) "") as [Hblank|Hword]; cbn [fst snd].
    + intros _. split; [exact Hblank | reflexivity].
    + discriminate.
  - intros Hkey. unfold handleKeyDown.
    destruct (String.eqb_spec key "Enter") as [?|_]; [congruence | reflexivity].
Qed.

Lemma skills_stay_tidy_witness :
  let st := {| skills := ["Rocq"]; skillInput := "" |} in
  Forall tidy (skills (fst (handleAddSkill "  OCaml " st))) /\
  skills (fst (handleAddSkill "  OCaml " st)) = ["Rocq"; "OCaml"] /\
  fst (handleAddSkill "   " st) = st.
Proof.
  intros st.
  assert (Hst : Forall tidy (skills st)).
  { apply Forall_cons. split; [|apply Forall_nil; exact I].
    split; [discriminate | reflexivity]. }
  destruct (skills_stay_tidy st "  OCaml " "a" 0 Hst) as (Hadd & _).
  destruct (skills_stay_tidy st "   " "a" 0 Hst) as (_ & _ & _ & _ & Hnone & _).
  split; [exact Hadd|]. split; [reflexivity|]. apply Hnone. reflexivity.
Defined.

(** X23.  Removing the skill that was just added gives the list back, and
    removing at a position past the end of the list removes nothing. *)
Theorem add_then_remove_last (st : SkillsState) (skill : string) :
  trim skill <> "" ->
  skills (fst (removeSkill (length (skills st)) (fst (handleAddSkill skill st))))
  = skills st /\
  length (skills (fst (handleAddSkill skill st))) = S (length (skills st)) /\
  (forall index, (length (skills st) <= index)%nat ->
     skills (fst (removeSkill index st)) = skills st).
Proof.
  intros Hword. unfold handleAddSkill, removeSkill.
  destruct (String.eqb_spec (trim skill) "") as [?|_]; [congruence|].
  cbn [fst snd skills]. rewrite !handleRemoveSkill_by_position.
  split; [|split].
  - rewrite take_app_length, drop_ge by (rewrite length_app; simpl; lia).
    apply app_nil_r.
  - rewrite length_app. simpl. lia.
  - intros index Hindex. rewrite handleRemoveSkill_by_position.
    rewrite take_ge, drop_ge by lia. apply app_nil_r.
Qed.

Lemma add_then_remove_last_witness :
  let st := {| skills := ["Rocq"; "Rocq"]; skillInput := "x" |} in
  skills (fst (removeSkill 2 (fst (handleAddSkill "Lean" st)))) = ["Rocq"; "Rocq"].
Proof.
  intros st. apply (add_then_remove_last st "Lean"). discriminate.
Defined.

End SkillsFacts.

(** ** The client side of the optimisation *)

Section ClientFacts.
Import JS Storage Routes Api ResumeServiceClient.

(** X24.  The score the client returns for an optimisation: the score of
    the reply when the reply carries one that is not 0, else a score of its
    own from 65 to 95; the text is the text of the reply.  Against this
    server the fallback is never taken: for a 200 reply of the
    optimisation route the client returns the text and the score of the
    reply, whatever its own draw. *)
Theorem client_score (data : OptimizeData) (random : draw) :
  unit_interval random ->
  optimizedText (optimizeResumeForATS data random) = data_optimizedText data /\
  (forall score, data_atsScore data = Some score -> score <> 0%Z ->
     atsScore (optimizeResumeForATS data random) = score) /\
  ((data_atsScore data = None \/ data_atsScore data = Some 0%Z) ->
   (65 <= atsScore (optimizeResumeForATS data random) <= 95)%Z) /\
  (forall ToString req_body serverRandom text score,
     unit_interval serverRandom ->
     post_optimize_resume ToString req_body serverRandom
     = Ok {| code := 200; body_sent := OptimizedBody text score |} ->
     data = {| data_optimizedText := text; data_atsScore := Some score |} ->
     optimizeResumeForATS data random
     = {| optimizedText := text; atsScore := score |}).
Proof.
  intros Hrandom. unfold optimizeResumeForATS. split; [reflexivity|].
  split; [|split].
  - intros score -> Hscore. cbn [atsScore].
    destruct (Z.eqb_spec score 0); [congruence | reflexivity].
  - pose proof (floor_times_31 random Hrandom) as Hdraw.
    intros [-> | ->]; cbn; lia.
  - intros ToString req_body serverRandom text score Hserver Hreply ->.
    pose proof (floor_times_31 serverRandom Hserver) as Hdraw.
    unfold post_optimize_resume, optimizeForATS_any in Hreply.
    destruct (non_empty_string (opt_resumeText req_body)) as [resumeText|];
      [|discriminate Hreply].
    destruct (opt_targetRole req_body) as [role|];
      [destruct (truthy_json role);
       [destruct (Api.ToString ToString role); [|discriminate Hreply]|]|];
      cbn in Hreply; injection Hreply as _ <-;
      cbn [data_atsScore data_optimizedText];
      (destruct (Z.eqb_spec (floor_times serverRandom 31 + 65) 0) as [Hz|_];
       [lia | reflexivity]).
Qed.

Lemma client_score_witness :
  atsScore (optimizeResumeForATS
              {| data_optimizedText := "text"; data_atsScore := Some 0%Z |}
              {| num := 0; scale := 0 |}) = 65%Z /\
  atsScore (optimizeResumeForATS
              {| data_optimizedText := "text"; data_atsScore := Some 70%Z |}
              {| num := 0; scale := 0 |}) = 70%Z.
Proof.
  assert (Hdraw : unit_interval {| num := 0; scale := 0 |})
    by (unfold unit_interval; simpl; lia).
  destruct (client_score {| data_optimizedText := "text"; data_atsScore := Some 70%Z |}
              {| num := 0; scale := 0 |} Hdraw) as (_ & Hkept & _).
  split; [reflexivity|]. apply Hkept; [reflexivity | discriminate].
Defined.

End ClientFacts.

(** ** The dates of an entry in the text projection *)

Section TextProjectionDates.
Import JS Schema ResumeService.

Lemma mentions_inside (w a s b : string) :
  mentions w s -> mentions w (a +:+ s +:+ b).
Proof.
  intros (before & after & ->). exists (a +:+ before), (after +:+ b).
  rewrite !append_assoc. reflexivity.
Qed.

Lemma mentions_in_entries {A : Type} (entry : A -> string) (w : string)
    (l : list A) (x : A) :
  x ∈ l -> mentions w (entry x) -> mentions w (concat_all (map entry l)).
Proof.
  intros Hx Hw. induction l as [|y l IH]; [apply elem_of_nil in Hx; destruct Hx|].
  change (concat_all (map entry (y :: l)))
    with (entry y +:+ concat_all (map entry l)).
  apply elem_of_cons in Hx as [<-|Hx].
  - apply (mentions_inside w "" (entry x) _ Hw).
  - rewrite <- (append_empty_r (concat_all (map entry l))).
    apply mentions_inside, IH, Hx.
Qed.

Lemma mentions_in_section (h w : string) (entries : list string) :
  mentions w (concat_all entries) -> mentions w (section h entries).
Proof.
  intros Hw. destruct entries as [|e entries]; [exact Hw|].
  unfold section.
  rewrite <- (append_empty_r (concat_all (e :: entries))).
  rewrite <- (append_assoc h nl). apply mentions_inside, Hw.
Qed.

Lemma starts_with_mentions (w s : string) : starts_with w s -> mentions w s.
Proof. intros [rest ->]. exists "", rest. reflexivity. Qed.

(** The first two lines of an experience entry. *)
Lemma experience_entry_dates (exp : ExperienceItem) :
  starts_with
    (position exp +:+ " at " +:+ company exp +:+ nl
     +:+ exp_startDate exp +:+ " - "
     +:+ (if truthy_bool (exp_current exp) then "Present"
          else default "" (exp_endDate exp)) +:+ nl)
    (experience_entry exp).
Proof.
  exists (or_string (exp_description exp) "" +:+ nl +:+ nl).
  unfold experience_entry, experience_step. cbv zeta.
  rewrite or_string_empty, append_empty_l.
  destruct (truthy_bool (exp_current exp)); rewrite !append_assoc; reflexivity.
Qed.

(** The first two lines of an education entry. *)
Lemma education_entry_dates (edu : EducationItem) :
  starts_with
    (degree edu +:+ " at " +:+ school edu +:+ nl
     +:+ edu_startDate edu +:+ " - "
     +:+ (if truthy_bool (edu_current edu) then "Present"
          else default "" (edu_endDate edu)) +:+ nl)
    (education_entry edu).
Proof.
  exists (or_string (edu_description edu) "" +:+ nl +:+ nl).
  unfold education_entry, education_step. cbv zeta.
  rewrite or_string_empty, append_empty_l.
  destruct (truthy_bool (edu_current edu)); rewrite !append_assoc; reflexivity.
Qed.

(** X25.  Every experience and education entry of a draft shows in the
    text with its two heading lines.  An entry marked current reads
    "Present" whatever its end date; any other entry reads its end date,
    and nothing after the dash when it has none. *)
Theorem current_entries_read_present (d : Resume) :
  (forall exp, exp ∈ experience d -> exp_current exp = Some true ->
     mentions (position exp +:+ " at " +:+ company exp +:+ nl
               +:+ exp_startDate exp +:+ " - Present" +:+ nl)
              (resumeToText d)) /\
  (forall edu, edu ∈ education d -> edu_current edu = Some true ->
     mentions (degree edu +:+ " at " +:+ school edu +:+ nl
               +:+ edu_startDate edu +:+ " - Present" +:+ nl)
              (resumeToText d)) /\
  (forall exp, exp ∈ experience d -> exp_current exp <> Some true ->
     mentions (position exp +:+ " at " +:+ company exp +:+ nl
               +:+ exp_startDate exp +:+ " - "
               +:+ default "" (exp_endDate exp) +:+ nl)
              (resumeToText d)) /\
  (forall edu, edu ∈ education d -> edu_current edu <> Some true ->
     mentions (degree edu +:+ " at " +:+ school edu +:+ nl
               +:+ edu_startDate edu +:+ " - "
               +:+ default "" (edu_endDate edu) +:+ nl)
              (resumeToText d)).
Proof.
  rewrite resumeToText_layout. repeat split.
  - intros exp Hexp Hcurrent.
    apply mentions_inside, mentions_in_section.
    apply (mentions_in_entries experience_entry _ _ exp Hexp).
    pose proof (experience_entry_dates exp) as Hdates.
    rewrite Hcurrent in Hdates. apply starts_with_mentions, Hdates.
  - intros edu Hedu Hcurrent.
    rewrite <- (append_assoc (header _)).
    apply mentions_inside, mentions_in_section.
    apply (mentions_in_entries education_entry _ _ edu Hedu).
    pose proof (education_entry_dates edu) as Hdates.
    rewrite Hcurrent in Hdates. apply starts_with_mentions, Hdates.
  - intros exp Hexp Hcurrent.
    apply mentions_inside, mentions_in_section.
    apply (mentions_in_entries experience_entry _ _ exp Hexp).
    pose proof (experience_entry_dates exp) as Hdates.
    assert (Hfalse : truthy_bool (exp_current exp) = false).
    { destruct (exp_current exp) as [[]|]; [congruence | reflexivity..]. }
    rewrite Hfalse in Hdates. apply starts_with_mentions, Hdates.
  - intros edu Hedu Hcurrent.
    rewrite <- (append_assoc (header _)).
    apply mentions_inside, mentions_in_section.
    apply (mentions_in_entries education_entry _ _ edu Hedu).
    pose proof (education_entry_dates edu) as Hdates.
    assert (Hfalse : truthy_bool (edu_current edu) = false).
    { destruct (edu_current edu) as [[]|]; [congruence | reflexivity..]. }
    rewrite Hfalse in Hdates. apply starts_with_mentions, Hdates.
Qed.

Lemma current_entries_read_present_witness :
  let d := {| personalInfo := personalInfo Builder.initialResumeData;
              education := [Forms.bachelor; Forms.master];
              experience := []; skills := []; projects := [];
              templateStyle := None; colorScheme := None;
              isAtsOptimized := None; targetRole := None; atsScore := None |} in
  mentions ("MSc at CMU" +:+ nl +:+ "2014-09 - Present" +:+ nl) (resumeToText d) /\
  mentions ("BSc at MIT" +:+ nl +:+ "2010-09 - 2014-06" +:+ nl) (resumeToText d).
Proof.
  intros d.
  destruct (current_entries_read_present d) as (_ & Hcurrent & _ & Hended).
  split.
  - apply (Hcurrent Forms.master); [|reflexivity].
    unfold d. cbn [education]. repeat constructor.
  - apply (Hended Forms.bachelor); [|discriminate].
    unfold d. cbn [education]. repeat constructor.
Defined.

End TextProjectionDates.
